(** * NimbusOS: the cooperative kernel of [nimbusOS.ino], embedded in Rocq

    The source file holds two variants of the kernel:
    - the compact Arduino-Uno variant (global object [nimbus], class
      members [addTask], [sleep], [suspendTask], [resumeTask], [run] and the
      bus manager [SPIMgr::select]/[SPIMgr::deselect]), modelled in
      [Module V1];
    - the unified variant (global object [os], members [add], [sleep],
      [suspendTask], [resumeTask], [sendMessage], [receiveMessage], [run] and
      [SPIMgr::sel]/[SPIMgr::desel]), modelled in [Module V2].

    Conventions of the embedding:
    - a [uintN_t] value is a [Z]; every place where C narrows or wraps a
      value is written out with [wrap];
    - array indices, the task count and the loop counter are [nat];
    - the task table is a [list] read with stdpp's total lookup [!!!] and
      written with [alter];
    - the out-parameters of [receiveMessage] are returned;
    - [millis()] is an input of the operation that reads it;
    - the arguments of an operation are taken to be values of their C
      types;
    - an entry point is the list of calls of the kernel's interface it
      makes in one dispatch. *)

From Stdlib Require Import ZArith Lia Bool.
From stdpp Require Import base tactics option list gmap.

Local Open Scope Z_scope.

(** ** Machine integers *)

Definition wrap (w x : Z) : Z := x mod 2 ^ w.

Definition u8 : Z -> Z := wrap 8.
Definition u16 : Z -> Z := wrap 16.
Definition u32 : Z -> Z := wrap 32.

(** [memcpy(dst, src, k)] on byte buffers: the first [k] bytes of [dst] are
    replaced by the first [k] bytes of [src]. *)
Definition memcpy (dst src : list Z) (k : Z) : list Z :=
  take (Z.to_nat k) src ++ drop (Z.to_nat k) dst.

(** The configuration constants shared by both variants. *)
Definition MAX_TASKS : nat := 6.

(** ** The digital output pins

    [latch] is the level last written to each pin, [trace] every
    [digitalWrite] made, oldest first.  The chip-select lines are active
    low: writing [LOW] asserts a device, writing [HIGH] deasserts it. *)
Inductive level : Type := LOW | HIGH.

#[export] Instance level_eq_dec : EqDecision level.
Proof. solve_decision. Defined.

Record Pins : Type := mkPins {
  latch : gmap Z level;
  trace : list (Z * level)
}.

Definition pins_init : Pins := mkPins ∅ [].

Definition digitalWrite (pin : Z) (v : level) (h : Pins) : Pins :=
  mkPins (<[pin := v]> (latch h)) (trace h ++ [(pin, v)]).

(** The writes of level [v] to [pin] in a trace. *)
Definition writes (pin : Z) (v : level) (tr : list (Z * level)) : nat :=
  length (filter (fun e => e = (pin, v)) tr).

(** ** The unified variant ([os]) *)
Module V2.

Definition TASK_MAX_RUNTIME_MS : Z := 2000.
Definition PIN_SD_CS : Z := 4.
Definition PIN_ETH_CS : Z := 10.

Definition T_READY : Z := 1.
Definition T_RUN : Z := 2.
Definition T_WAIT : Z := 3.
Definition T_SUSPENDED : Z := 4.

Definition PRIORITY_IDLE : Z := 0.
Definition PRIORITY_LOW : Z := 1.
Definition PRIORITY_NORMAL : Z := 2.
Definition PRIORITY_HIGH : Z := 3.

(** The anonymous [message] struct of a task. *)
Record Message : Type := mkMessage {
  type : Z;            (* uint8_t *)
  data : list Z;       (* uint8_t data[8] *)
  size : Z;            (* uint8_t *)
  pending : bool
}.

(** [struct Task]; the function pointer [fn] is a handle. *)
Record Task : Type := mkTask {
  fn : nat;
  period : Z;          (* uint16_t *)
  last : Z;            (* uint16_t *)
  state : Z;           (* uint8_t : 3 *)
  pri : Z;             (* uint8_t : 2 *)
  id : Z;              (* uint8_t : 3 *)
  sleepUntil : Z;      (* uint32_t *)
  startRun : Z;        (* uint32_t *)
  message : Message
}.

(** What [memset(t, 0, sizeof(t))] leaves in every slot. *)
Definition zero_message : Message := mkMessage 0 (replicate 8 0) 0 false.
Definition zero_task : Task := mkTask 0 0 0 0 0 0 0 0 zero_message.

#[export] Instance Task_inhabited : Inhabited Task := populate zero_task.

Definition set_fn (v : nat) (k : Task) : Task :=
  mkTask v (period k) (last k) (state k) (pri k) (id k) (sleepUntil k) (startRun k) (message k).
Definition set_period (v : Z) (k : Task) : Task :=
  mkTask (fn k) v (last k) (state k) (pri k) (id k) (sleepUntil k) (startRun k) (message k).
Definition set_last (v : Z) (k : Task) : Task :=
  mkTask (fn k) (period k) v (state k) (pri k) (id k) (sleepUntil k) (startRun k) (message k).
Definition set_state (v : Z) (k : Task) : Task :=
  mkTask (fn k) (period k) (last k) v (pri k) (id k) (sleepUntil k) (startRun k) (message k).
Definition set_pri (v : Z) (k : Task) : Task :=
  mkTask (fn k) (period k) (last k) (state k) v (id k) (sleepUntil k) (startRun k) (message k).
Definition set_id (v : Z) (k : Task) : Task :=
  mkTask (fn k) (period k) (last k) (state k) (pri k) v (sleepUntil k) (startRun k) (message k).
Definition set_sleepUntil (v : Z) (k : Task) : Task :=
  mkTask (fn k) (period k) (last k) (state k) (pri k) (id k) v (startRun k) (message k).
Definition set_startRun (v : Z) (k : Task) : Task :=
  mkTask (fn k) (period k) (last k) (state k) (pri k) (id k) (sleepUntil k) v (message k).
Definition set_message (v : Message) (k : Task) : Task :=
  mkTask (fn k) (period k) (last k) (state k) (pri k) (id k) (sleepUntil k) (startRun k) v.

(** [class NimbusOS]. *)
Record OS : Type := mkOS {
  t : list Task;       (* Task t[MAX_TASKS] *)
  n : nat;             (* uint8_t *)
  cur : nat;           (* uint8_t *)
  ticks : Z;           (* volatile uint32_t *)
  ctxSw : Z;           (* uint32_t *)
  suspendFlags : Z;    (* uint8_t, one bit per task *)
  lowPowerMode : bool
}.

Definition set_t (v : list Task) (os : OS) : OS :=
  mkOS v (n os) (cur os) (ticks os) (ctxSw os) (suspendFlags os) (lowPowerMode os).
Definition set_n (v : nat) (os : OS) : OS :=
  mkOS (t os) v (cur os) (ticks os) (ctxSw os) (suspendFlags os) (lowPowerMode os).
Definition set_cur (v : nat) (os : OS) : OS :=
  mkOS (t os) (n os) v (ticks os) (ctxSw os) (suspendFlags os) (lowPowerMode os).
Definition set_ctxSw (v : Z) (os : OS) : OS :=
  mkOS (t os) (n os) (cur os) (ticks os) v (suspendFlags os) (lowPowerMode os).
Definition set_suspendFlags (v : Z) (os : OS) : OS :=
  mkOS (t os) (n os) (cur os) (ticks os) (ctxSw os) v (lowPowerMode os).

(** [t[i]] read and [t[i].field = ...] written. *)
Definition task (os : OS) (i : nat) : Task := t os !!! i.
Definition upd (i : nat) (f : Task -> Task) (os : OS) : OS :=
  set_t (alter f i (t os)) os.

(** The constructor [NimbusOS()]. *)
Definition init : OS := mkOS (replicate MAX_TASKS zero_task) 0 0 0 0 0 false.

(** [int add(f, uint16_t p, uint8_t pr, name)], [f] the entry point.
    The bit-fields [pri] (2 bits) and [id] (3 bits) narrow what is stored. *)
Definition add (f : nat) (p pr : Z) (os : OS) : Z * OS :=
  if (MAX_TASKS <=? n os)%nat then (-1, os)
  else
    let k := n os in
    let os1 := upd k (fun x =>
      set_message (mkMessage (type (message x)) (data (message x))
                             (size (message x)) false)
        (set_startRun 0 (set_sleepUntil 0 (set_last 0
          (set_id (wrap 3 (Z.of_nat k)) (set_state T_READY
            (set_pri (wrap 2 pr) (set_period p (set_fn f x))))))))) os in
    (Z.of_nat k, set_n (S k) os1).

(** A sequence of registration calls, in call order. *)
Fixpoint add_all (args : list (nat * Z * Z)) (os : OS) : list Z * OS :=
  match args with
  | [] => ([], os)
  | (f, p, pr) :: rest =>
      let '(r, os1) := add f p pr os in
      let '(rs, os2) := add_all rest os1 in
      (r :: rs, os2)
  end.

(** [void sleep(uint16_t ms)]; [clock] is what [millis()] returns. *)
Definition sleep (clock ms : Z) (os : OS) : OS :=
  upd (cur os)
      (fun x => set_sleepUntil (u32 (clock + ms)) (set_state T_WAIT x)) os.

(** [bool shouldYield()]. *)
Definition shouldYield (clock : Z) (os : OS) : bool :=
  TASK_MAX_RUNTIME_MS <? u32 (clock - startRun (task os (cur os))).

(** [suspendFlags & (1 << i)] as a condition. *)
Definition suspended (os : OS) (i : nat) : bool :=
  negb (Z.land (suspendFlags os) (Z.shiftl 1 (Z.of_nat i)) =? 0).

(** [int suspendTask(uint8_t id)] ([ENABLE_SUSPEND_RESUME] is defined). *)
Definition suspendTask (i : nat) (os : OS) : Z * OS :=
  if (i <? n os)%nat then
    let os1 :=
      set_suspendFlags
        (u8 (Z.lor (suspendFlags os) (Z.shiftl 1 (Z.of_nat i)))) os in
    let os2 :=
      if negb (state (task os1 i) =? T_WAIT)
      then upd i (set_state T_SUSPENDED) os1 else os1 in
    (0, os2)
  else (-1, os).

(** [int resumeTask(uint8_t id)]. *)
Definition resumeTask (i : nat) (os : OS) : Z * OS :=
  if (i <? n os)%nat then
    let os1 :=
      set_suspendFlags
        (u8 (Z.land (suspendFlags os) (Z.lnot (Z.shiftl 1 (Z.of_nat i))))) os in
    let os2 :=
      if state (task os1 i) =? T_SUSPENDED
      then upd i (set_state T_READY) os1 else os1 in
    (0, os2)
  else (-1, os).

(** [int sendMessage(uint8_t taskId, uint8_t msgType, const void* data,
    uint8_t size)] ([ENABLE_MESSAGING] is defined); [src] is the buffer
    behind [data]. *)
Definition sendMessage (taskId : nat) (msgType : Z) (src : list Z) (sz : Z)
    (os : OS) : Z * OS :=
  if (n os <=? taskId)%nat || (sz >? 8) then (-1, os)
  else if pending (message (task os taskId)) then (-2, os)
  else
    (0, upd taskId (fun x =>
          set_message
            (mkMessage msgType (memcpy (data (message x)) src sz) sz true) x)
          os).

(** Arduino's [min(a,b)] macro, [((a)<(b)?(a):(b))]. *)
Definition arduino_min (a b : Z) : Z := if a <? b then a else b.

(** [int receiveMessage(uint8_t* msgType, void* data, uint8_t maxSize)].
    [mt] and [buf] are what [*msgType] and the caller's buffer hold at the
    call; the result is the return value, then [*msgType] and the buffer
    after the call, then the kernel. *)
Definition receiveMessage (mt : Z) (buf : list Z) (maxSize : Z) (os : OS)
    : Z * Z * list Z * OS :=
  let m := message (task os (cur os)) in
  if negb (pending m) then (0, mt, buf, os)
  else
    let copySize := arduino_min maxSize (size m) in
    (copySize, type m, memcpy buf (data m) copySize,
     upd (cur os)
         (set_message (mkMessage (type m) (data m) (size m) false)) os).

(** *** The scheduler loop of [run()] *)

(** The sleep-timeout check of the scan. *)
Definition wake (now : Z) (x : Task) : Task :=
  if (state x =? T_WAIT) && (now >=? sleepUntil x)
  then set_sleepUntil 0 (set_state T_READY x) else x.

(** [t[i].state == T_READY && (now - t[i].last) >= t[i].period]: the
    subtraction is done in [uint32_t], [last] and [period] zero-extended. *)
Definition due (now : Z) (x : Task) : bool :=
  (state x =? T_READY) && (u32 (now - last x) >=? period x).

(** One round of the [for] loop; the loop state is the kernel, [best] and
    [maxPri].  [int8_t best = -1], tested later by [if (best >= 0)], is
    [None]. *)
Definition scan_body (now : Z) (st : OS * option nat * Z) (i : nat)
    : OS * option nat * Z :=
  let '(os, best, maxPri) := st in
  if suspended os i then st
  else
    let os1 := upd i (wake now) os in
    if due now (task os1 i) then
      if pri (task os1 i) >=? maxPri
      then (os1, Some i, pri (task os1 i))
      else (os1, best, maxPri)
    else (os1, best, maxPri).

(** [for (uint8_t i = 0; i < n; i++) ...] from [best = -1], [maxPri = 0]. *)
Definition scan (now : Z) (os : OS) : OS * option nat * Z :=
  foldl (scan_body now) (os, None, 0) (seq 0 (n os)).

Definition selected (now : Z) (os : OS) : option nat := snd (fst (scan now os)).
Definition scanned (now : Z) (os : OS) : OS := fst (fst (scan now os)).

(** What an entry point does to the kernel: the calls of the kernel's
    interface it makes before it returns. *)
Inductive Call : Type :=
| CSleep (clock ms : Z)
| CSuspend (i : nat)
| CResume (i : nat)
| CSend (taskId : nat) (msgType : Z) (src : list Z) (sz : Z)
| CReceive (maxSize : Z)
| CAdd (f : nat) (p pr : Z).

Definition call (c : Call) (os : OS) : OS :=
  match c with
  | CSleep clock ms => sleep clock ms os
  | CSuspend i => snd (suspendTask i os)
  | CResume i => snd (resumeTask i os)
  | CSend taskId msgType src sz => snd (sendMessage taskId msgType src sz os)
  | CReceive maxSize => snd (receiveMessage 0 (replicate 8 0) maxSize os)
  | CAdd f p pr => snd (add f p pr os)
  end.

Definition calls (cs : list Call) (os : OS) : OS :=
  foldl (fun o c => call c o) os cs.

(** The [if (best >= 0) { ... }] block; [body] are the calls [t[cur].fn()]
    makes this time. *)
Definition dispatch (now : Z) (b : nat) (body : list Call) (os : OS) : OS :=
  let os1 := set_cur b os in
  let os2 :=
    upd (cur os1)
        (fun x => set_startRun now (set_last (u16 now) (set_state T_RUN x)))
        os1 in
  let os3 := calls body os2 in
  let os4 :=
    if state (task os3 (cur os3)) =? T_RUN
    then upd (cur os3) (set_state T_READY) os3 else os3 in
  set_ctxSw (u32 (ctxSw os4 + 1)) os4.

(** One iteration of [while (1)]: [now] is what [millis()] returns at its
    top, [body i] the calls task [i] would make.  The result is the kernel
    and the task dispatched, if any.  The idle branch ([sleep_mode()] or
    [delay(1)]) does not touch the kernel. *)
Definition iteration (now : Z) (body : nat -> list Call) (os : OS)
    : OS * option nat :=
  let os1 := scanned now os in
  match selected now os with
  | Some b => (dispatch now b (body b) os1, Some b)
  | None => (os1, None)
  end.

(** The first iterations of [run()], with the task dispatched by each. *)
Fixpoint run (its : list (Z * (nat -> list Call))) (os : OS)
    : OS * list (option nat) :=
  match its with
  | [] => (os, [])
  | (now, body) :: rest =>
      let '(os1, d) := iteration now body os in
      let '(os2, ds) := run rest os1 in
      (os2, d :: ds)
  end.

(** *** The bus manager [SPIMgr] *)

(** [dev] is the static member of the class. *)
Record Bus : Type := mkBus {
  dev : Z;             (* uint8_t *)
  hw : Pins
}.

(** [uint8_t SPIMgr::dev = 0;] before any pin is written. *)
Definition bus_init : Bus := mkBus 0 pins_init.

(** [static void sel(uint8_t d)]. *)
Definition sel (d : Z) (b : Bus) : Bus :=
  if negb (dev b =? d) then
    let h1 := digitalWrite (dev b) HIGH (hw b) in
    let h2 := digitalWrite d LOW h1 in
    mkBus d h2
  else b.

(** [static void desel()]. *)
Definition desel (b : Bus) : Bus :=
  let h1 := digitalWrite PIN_SD_CS HIGH (hw b) in
  let h2 := digitalWrite PIN_ETH_CS HIGH h1 in
  mkBus (dev b) h2.

End V2.

(** ** The compact variant ([nimbus]) *)
Module V1.

Definition SD_CS_PIN : Z := 4.
Definition ETH_CS_PIN : Z := 10.

Definition TASK_READY : Z := 1.
Definition TASK_RUNNING : Z := 2.
Definition TASK_WAITING : Z := 3.
Definition TASK_SUSPENDED : Z := 4.

Definition PRIORITY_LOW : Z := 1.
Definition PRIORITY_NORMAL : Z := 2.
Definition PRIORITY_HIGH : Z := 3.

(** [struct Task]; [function] and [name] are handles. *)
Record Task : Type := mkTask {
  function : nat;
  period : Z;          (* uint16_t *)
  lastRun : Z;         (* uint16_t *)
  state : Z;           (* uint8_t *)
  priority : Z;        (* uint8_t *)
  wakeTime : Z;        (* uint32_t *)
  name : nat
}.

Definition zero_task : Task := mkTask 0 0 0 0 0 0 0.

#[export] Instance Task_inhabited : Inhabited Task := populate zero_task.

Definition set_state (v : Z) (k : Task) : Task :=
  mkTask (function k) (period k) (lastRun k) v (priority k) (wakeTime k) (name k).
Definition set_wakeTime (v : Z) (k : Task) : Task :=
  mkTask (function k) (period k) (lastRun k) (state k) (priority k) v (name k).

(** [class NimbusOS]. *)
Record OS : Type := mkOS {
  tasks : list Task;   (* Task tasks[MAX_TASKS] *)
  taskCount : nat;     (* uint8_t *)
  currentTask : nat;   (* uint8_t *)
  ticks : Z;           (* volatile uint32_t *)
  contextSwitches : Z; (* uint16_t *)
  suspendFlags : Z;    (* uint8_t *)
  lowPowerMode : bool
}.

Definition set_tasks (v : list Task) (os : OS) : OS :=
  mkOS v (taskCount os) (currentTask os) (ticks os) (contextSwitches os)
       (suspendFlags os) (lowPowerMode os).
Definition set_taskCount (v : nat) (os : OS) : OS :=
  mkOS (tasks os) v (currentTask os) (ticks os) (contextSwitches os)
       (suspendFlags os) (lowPowerMode os).

Definition task (os : OS) (i : nat) : Task := tasks os !!! i.
Definition upd (i : nat) (f : Task -> Task) (os : OS) : OS :=
  set_tasks (alter f i (tasks os)) os.

(** The constructor [NimbusOS()]. *)
Definition init : OS := mkOS (replicate MAX_TASKS zero_task) 0 0 0 0 0 false.

(** [int addTask(function, uint16_t period, uint8_t priority, name)]. *)
Definition addTask (f : nat) (p pr : Z) (nm : nat) (os : OS) : Z * OS :=
  if (MAX_TASKS <=? taskCount os)%nat then (-1, os)
  else
    let k := taskCount os in
    let os1 := upd k (fun _ => mkTask f p 0 TASK_READY pr 0 nm) os in
    (Z.of_nat k, set_taskCount (S k) os1).

Fixpoint addTask_all (args : list (nat * Z * Z * nat)) (os : OS)
    : list Z * OS :=
  match args with
  | [] => ([], os)
  | (f, p, pr, nm) :: rest =>
      let '(r, os1) := addTask f p pr nm os in
      let '(rs, os2) := addTask_all rest os1 in
      (r :: rs, os2)
  end.

Definition suspended (os : OS) (i : nat) : bool :=
  negb (Z.land (suspendFlags os) (Z.shiftl 1 (Z.of_nat i)) =? 0).

Definition wake (now : Z) (x : Task) : Task :=
  if (state x =? TASK_WAITING) && (now >=? wakeTime x)
  then set_wakeTime 0 (set_state TASK_READY x) else x.

Definition due (now : Z) (x : Task) : bool :=
  (state x =? TASK_READY) && (u32 (now - lastRun x) >=? period x).

(** One round of the [for] loop of [run()]; the loop state is the kernel,
    [bestTask] and [highestPriority]. *)
Definition scan_body (now : Z) (st : OS * option nat * Z) (i : nat)
    : OS * option nat * Z :=
  let '(os, bestTask, highestPriority) := st in
  if suspended os i then st
  else
    let os1 := upd i (wake now) os in
    if due now (task os1 i) then
      if priority (task os1 i) >? highestPriority
      then (os1, Some i, priority (task os1 i))
      else (os1, bestTask, highestPriority)
    else (os1, bestTask, highestPriority).

Definition scan (now : Z) (os : OS) : OS * option nat * Z :=
  foldl (scan_body now) (os, None, 0) (seq 0 (taskCount os)).

Definition selected (now : Z) (os : OS) : option nat := snd (fst (scan now os)).

(** *** The bus manager [SPIMgr] *)

Record Bus : Type := mkBus {
  currentDevice : Z;   (* uint8_t *)
  hw : Pins
}.

Definition bus_init : Bus := mkBus 0 pins_init.

(** [static void select(uint8_t devicePin)]. *)
Definition select (devicePin : Z) (b : Bus) : Bus :=
  if negb (currentDevice b =? devicePin) then
    let h1 := digitalWrite (currentDevice b) HIGH (hw b) in
    let h2 := digitalWrite devicePin LOW h1 in
    mkBus devicePin h2
  else b.

(** [static void deselect()]. *)
Definition deselect (b : Bus) : Bus :=
  let h1 := digitalWrite SD_CS_PIN HIGH (hw b) in
  let h2 := digitalWrite ETH_CS_PIN HIGH h1 in
  mkBus (currentDevice b) h2.

(** *** The rest of the kernel of the compact variant *)

Definition set_lastRun (v : Z) (k : Task) : Task :=
  mkTask (function k) (period k) v (state k) (priority k) (wakeTime k) (name k).
Definition set_currentTask (v : nat) (os : OS) : OS :=
  mkOS (tasks os) (taskCount os) v (ticks os) (contextSwitches os)
       (suspendFlags os) (lowPowerMode os).
Definition set_contextSwitches (v : Z) (os : OS) : OS :=
  mkOS (tasks os) (taskCount os) (currentTask os) (ticks os) v
       (suspendFlags os) (lowPowerMode os).
Definition set_suspendFlags (v : Z) (os : OS) : OS :=
  mkOS (tasks os) (taskCount os) (currentTask os) (ticks os)
       (contextSwitches os) v (lowPowerMode os).

(** [void sleep(uint16_t ms)]; [clock] is what [millis()] returns. *)
Definition sleep (clock ms : Z) (os : OS) : OS :=
  upd (currentTask os)
      (fun x => set_wakeTime (u32 (clock + ms)) (set_state TASK_WAITING x)) os.

(** [bool shouldYield()]: the difference is taken in [uint32_t] against
    the 16-bit [lastRun]. *)
Definition shouldYield (clock : Z) (os : OS) : bool :=
  u32 (clock - lastRun (task os (currentTask os))) >? 2000.

(** [int suspendTask(uint8_t id)]. *)
Definition suspendTask (i : nat) (os : OS) : Z * OS :=
  if (i <? taskCount os)%nat then
    let os1 :=
      set_suspendFlags
        (u8 (Z.lor (suspendFlags os) (Z.shiftl 1 (Z.of_nat i)))) os in
    let os2 :=
      if negb (state (task os1 i) =? TASK_WAITING)
      then upd i (set_state TASK_SUSPENDED) os1 else os1 in
    (0, os2)
  else (-1, os).

(** [int resumeTask(uint8_t id)]. *)
Definition resumeTask (i : nat) (os : OS) : Z * OS :=
  if (i <? taskCount os)%nat then
    let os1 :=
      set_suspendFlags
        (u8 (Z.land (suspendFlags os) (Z.lnot (Z.shiftl 1 (Z.of_nat i))))) os in
    let os2 :=
      if state (task os1 i) =? TASK_SUSPENDED
      then upd i (set_state TASK_READY) os1 else os1 in
    (0, os2)
  else (-1, os).

(** The calls of the kernel's interface an entry point makes. *)
Inductive Call : Type :=
| CSleep (clock ms : Z)
| CSuspend (i : nat)
| CResume (i : nat)
| CAddTask (f : nat) (p pr : Z) (nm : nat).

Definition call (c : Call) (os : OS) : OS :=
  match c with
  | CSleep clock ms => sleep clock ms os
  | CSuspend i => snd (suspendTask i os)
  | CResume i => snd (resumeTask i os)
  | CAddTask f p pr nm => snd (addTask f p pr nm os)
  end.

Definition calls (cs : list Call) (os : OS) : OS :=
  foldl (fun o c => call c o) os cs.

Definition scanned (now : Z) (os : OS) : OS := fst (fst (scan now os)).

(** The [if (bestTask >= 0) { ... }] block of [run()]. *)
Definition dispatch (now : Z) (b : nat) (body : list Call) (os : OS) : OS :=
  let os1 := set_currentTask b os in
  let os2 :=
    upd (currentTask os1)
        (fun x => set_lastRun (u16 now) (set_state TASK_RUNNING x)) os1 in
  let os3 := calls body os2 in
  let os4 :=
    if state (task os3 (currentTask os3)) =? TASK_RUNNING
    then upd (currentTask os3) (set_state TASK_READY) os3 else os3 in
  set_contextSwitches (u16 (contextSwitches os4 + 1)) os4.

(** One iteration of [while (1)]; the [else] branch is [delay(1)]. *)
Definition iteration (now : Z) (body : nat -> list Call) (os : OS)
    : OS * option nat :=
  let os1 := scanned now os in
  match selected now os with
  | Some b => (dispatch now b (body b) os1, Some b)
  | None => (os1, None)
  end.

Fixpoint run (its : list (Z * (nat -> list Call))) (os : OS)
    : OS * list (option nat) :=
  match its with
  | [] => (os, [])
  | (now, body) :: rest =>
      let '(os1, d) := iteration now body os in
      let '(os2, ds) := run rest os1 in
      (os2, d :: ds)
  end.

End V1.

(** The table of the unified variant read as a table of the compact one:
    the same periods, timestamps, states, priorities, wake times and
    suspend flags. *)
Definition to_V1_task (x : V2.Task) : V1.Task :=
  V1.mkTask (V2.fn x) (V2.period x) (V2.last x) (V2.state x) (V2.pri x)
            (V2.sleepUntil x) 0.

Definition to_V1 (os : V2.OS) : V1.OS :=
  V1.mkOS (to_V1_task <$> V2.t os) (V2.n os) (V2.cur os) (V2.ticks os)
          (wrap 16 (V2.ctxSw os)) (V2.suspendFlags os) (V2.lowPowerMode os).

(** The return values of [k] registrations starting with [from] tasks
    registered: the next free id while there is room, then [-1]. *)
Definition expected_ids (from k : nat) : list Z :=
  (fun i => if (i <? MAX_TASKS)%nat then Z.of_nat i else -1) <$> seq from k.

(** ** Line input: the shell task and the telnet login

    Characters are [char] values, signed on this target.  A command line
    is the C string at the start of the shared buffer. *)

(** The C string at the start of a buffer: the characters before the first
    NUL. *)
Fixpoint cstr (b : list Z) : list Z :=
  match b with
  | [] => []
  | c :: b' => if c =? 0 then [] else c :: cstr b'
  end.

(** [c == '\n' || c == '\r']. *)
Definition is_newline (c : Z) : bool := (c =? 10) || (c =? 13).

(** The shell task of the compact variant. *)
Module Shell.

Definition BUFFER_SIZE : nat := 20.

(** [globalBuffer], the static [idx] of [shellTask], and the lines handed
    to [processCommand] so far. *)
Record State : Type := mkState {
  globalBuffer : list Z;       (* char globalBuffer[BUFFER_SIZE] *)
  idx : nat;                   (* static uint8_t *)
  commands : list (list Z)
}.

(** One round of [while (Serial.available())] in [shellTask], for the
    character [c] read.  [processCommand] may write to the buffer it is
    given: [pc k b] lists the bytes, as index and value, that its call
    number [k] writes when given the buffer [b]. *)
Definition shellTask_char (pc : nat -> list Z -> list (nat * Z)) (c : Z)
    (s : State) : State :=
  if is_newline c then
    let b := <[idx s := 0]> (globalBuffer s) in
    mkState (foldl (fun b' w => <[fst w := snd w]> b') b
               (pc (length (commands s)) b)) 0
            (commands s ++ [cstr b])
  else if (c =? 127) || (c =? 8) then
    if (0 <? idx s)%nat
    then mkState (globalBuffer s) (idx s - 1) (commands s) else s
  else if (idx s <? BUFFER_SIZE - 1)%nat && (c >=? 32) then
    mkState (<[idx s := c]> (globalBuffer s)) (idx s + 1) (commands s)
  else s.

(** What happens between and at the rounds: a character of the shell, or
    a byte written to the shared buffer by other code. *)
Inductive Event : Type :=
| Key (c : Z)
| Poke (i : nat) (c : Z).

Definition event (pc : nat -> list Z -> list (nat * Z)) (s : State)
    (e : Event) : State :=
  match e with
  | Key c => shellTask_char pc c s
  | Poke i c => mkState (<[i := c]> (globalBuffer s)) (idx s) (commands s)
  end.

Definition shellTask (pc : nat -> list Z -> list (nat * Z))
    (es : list Event) (s : State) : State :=
  foldl (event pc) s es.

End Shell.

(** The telnet login of the unified variant, [telnetAuth]. *)
Module Telnet.

Definition BUF_SIZE : nat := 24.

(** ["admin"] and ["nimbus"]. *)
Definition admin : list Z := [97; 100; 109; 105; 110].
Definition nimbus : list Z := [110; 105; 109; 98; 117; 115].

(** [gbuf], [telnetIndex], [telnetState] and whether [telnetClient] is
    connected. *)
Record State : Type := mkState {
  gbuf : list Z;               (* char gbuf[BUF_SIZE] *)
  telnetIndex : nat;           (* uint8_t *)
  telnetState : Z;             (* uint8_t *)
  connected : bool
}.

(** [strcmp(gbuf, k) == 0] for a literal [k]. *)
Definition strcmp_eq (b k : list Z) : bool := bool_decide (cstr b = k).

(** A new client is accepted: [telnetState = 1; telnetIndex = 0]. *)
Definition accept (s : State) : State := mkState (gbuf s) 0 1 true.

(** One round of [while (telnetClient.available())] for the character [c]
    read; [telnetClient.stop()] disconnects. *)
Definition telnetAuth_char (c : Z) (s : State) : State :=
  if is_newline c then
    let b := <[telnetIndex s := 0]> (gbuf s) in
    if telnetState s =? 1 then
      if strcmp_eq b admin
      then mkState b 0 2 (connected s)
      else mkState b 0 (telnetState s) false
    else if telnetState s =? 2 then
      if strcmp_eq b nimbus
      then mkState b 0 3 (connected s)
      else mkState b 0 (telnetState s) false
    else mkState b 0 (telnetState s) (connected s)
  else if (telnetIndex s <? BUF_SIZE - 1)%nat && (c >=? 32) then
    mkState (<[telnetIndex s := c]> (gbuf s)) (telnetIndex s + 1)
            (telnetState s) (connected s)
  else s.

(** The loop over the characters received; a stopped client has no
    character available. *)
Fixpoint telnetAuth (cs : list Z) (s : State) : State :=
  match cs with
  | [] => s
  | c :: rest =>
      if connected s then telnetAuth rest (telnetAuth_char c s) else s
  end.

End Telnet.

(** The [suspend] and [resume] commands of [processCommand], for the
    [int] that [atoi] returns.  The compact shell passes it on, and the
    call converts it to [uint8_t]; the unified shell checks it first. *)
Definition processCommand1_suspend (id : Z) (os : V1.OS) : V1.OS :=
  snd (V1.suspendTask (Z.to_nat (u8 id)) os).

Definition processCommand1_resume (id : Z) (os : V1.OS) : V1.OS :=
  snd (V1.resumeTask (Z.to_nat (u8 id)) os).

Definition processCommand2_suspend (id : Z) (os : V2.OS) : V2.OS :=
  if (id >=? 0) && (id <? Z.of_nat (V2.n os))
  then snd (V2.suspendTask (Z.to_nat (u8 id)) os) else os.

Definition processCommand2_resume (id : Z) (os : V2.OS) : V2.OS :=
  if (id >=? 0) && (id <? Z.of_nat (V2.n os))
  then snd (V2.resumeTask (Z.to_nat (u8 id)) os) else os.

(** The line editor the shell implements: the line typed so far and the
    lines completed. *)
Definition edit_char (st : list Z * list (list Z)) (c : Z)
    : list Z * list (list Z) :=
  if is_newline c then ([], snd st ++ [fst st])
  else if (c =? 127) || (c =? 8) then
    (take (length (fst st) - 1) (fst st), snd st)
  else if (length (fst st) <? 19)%nat && (c >=? 32) then
    (fst st ++ [c], snd st)
  else st.

(** The part of a received line that is kept: its printable characters,
    as many as the buffer holds. *)
Definition kept (line : list Z) : list Z :=
  take 23 (filter (fun c => 32 <= c) line).

(** The input split at its first newline character. *)
Fixpoint split_line (cs : list Z) : option (list Z * list Z) :=
  match cs with
  | [] => None
  | c :: rest =>
      if is_newline c then Some ([], rest)
      else match split_line rest with
           | Some (l, r) => Some (c :: l, r)
           | None => None
           end
  end.

(** The login as a function of the input of a new connection: the final
    [telnetState] and whether the client is still connected. *)
Definition login (cs : list Z) : Z * bool :=
  match split_line cs with
  | None => (1, true)
  | Some (l1, r1) =>
      if decide (kept l1 = Telnet.admin) then
        match split_line r1 with
        | None => (2, true)
        | Some (l2, r2) =>
            if decide (kept l2 = Telnet.nimbus) then (3, true) else (2, false)
        end
      else (1, false)
  end.

(** ** Vocabulary of the statements *)

(** The selection of a scan seen apart from the table: [c i] says that task
    [i] passes the tests of the loop body, [p i] is its priority, and
    [better] is the comparison against the running maximum. *)
Definition pick_body (better : Z -> Z -> bool) (c : nat -> bool)
    (p : nat -> Z) (st : option nat * Z) (i : nat) : option nat * Z :=
  if c i then if better (p i) (snd st) then (Some i, p i) else st else st.

Definition pick (better : Z -> Z -> bool) (c : nat -> bool) (p : nat -> Z)
    (k : nat) : option nat * Z :=
  foldl (pick_body better c p) (None, 0) (seq 0 k).

(** Task [i] is eligible in an iteration that reads [now]: registered, not
    suspended, READY once the sleep timeout of the iteration is applied,
    and its period has elapsed. *)
Definition eligible2 (now : Z) (os : V2.OS) (i : nat) : bool :=
  (i <? V2.n os)%nat && negb (V2.suspended os i)
    && V2.due now (V2.wake now (V2.task os i)).

Definition eligible1 (now : Z) (os : V1.OS) (i : nat) : bool :=
  (i <? V1.taskCount os)%nat && negb (V1.suspended os i)
    && V1.due now (V1.wake now (V1.task os i)).

(** Task [i] is eligible and no eligible task has a higher priority. *)
Definition top2 (now : Z) (os : V2.OS) (i : nat) : Prop :=
  eligible2 now os i = true /\
  forall j, eligible2 now os j = true ->
            V2.pri (V2.task os j) <= V2.pri (V2.task os i).

Definition top1 (now : Z) (os : V1.OS) (i : nat) : Prop :=
  eligible1 now os i = true /\
  forall j, eligible1 now os j = true ->
            V1.priority (V1.task os j) <= V1.priority (V1.task os i).

(** The shape of the table that every operation keeps: six slots, at most
    six of them registered, and a priority that fits its two bits. *)
Definition wf2 (os : V2.OS) : Prop :=
  length (V2.t os) = MAX_TASKS /\ (V2.n os <= MAX_TASKS)%nat /\
  (V2.cur os < MAX_TASKS)%nat /\
  Forall (fun x => 0 <= V2.pri x < 4) (V2.t os).

Definition wf1 (os : V1.OS) : Prop :=
  length (V1.tasks os) = MAX_TASKS /\ (V1.taskCount os <= MAX_TASKS)%nat.

(** A mailbox as [sendMessage] leaves it: eight bytes of storage and a
    stored size that fits them. *)
Definition mailbox_ok (m : V2.Message) : Prop :=
  length (V2.data m) = 8%nat /\ V2.size m <= 8.

(** Two tables used as inputs below: two tasks of period 0 registered on a
    fresh kernel, both of priority [PRIORITY_NORMAL], and both of priority
    [PRIORITY_IDLE]. *)
Definition normal_pair : V2.OS :=
  snd (V2.add_all [(0%nat, 0, V2.PRIORITY_NORMAL);
                   (1%nat, 0, V2.PRIORITY_NORMAL)] V2.init).

Definition idle_pair : V2.OS :=
  snd (V2.add_all [(0%nat, 0, V2.PRIORITY_IDLE);
                   (1%nat, 0, V2.PRIORITY_IDLE)] V2.init).

(** Registered task [i] is asleep until [w]. *)
Definition sleeping (i : nat) (w : Z) (os : V2.OS) : Prop :=
  (i < V2.n os)%nat /\ V2.state (V2.task os i) = V2.T_WAIT /\
  V2.sleepUntil (V2.task os i) = w.

Definition is_sleep (c : V2.Call) : bool :=
  match c with V2.CSleep _ _ => true | _ => false end.

(** A kernel with a single task of period [p] and priority NORMAL. *)
Definition one_task (p : Z) : V2.OS :=
  snd (V2.add 0 p V2.PRIORITY_NORMAL V2.init).

(** The two bus managers behind one interface: the recorded device, the
    pins, [select]/[sel] and [deselect]/[desel]. *)
Record Arbiter : Type := mkArbiter {
  bus : Type;
  current : bus -> Z;
  wires : bus -> Pins;
  choose : Z -> bus -> bus;
  release : bus -> bus
}.

Definition spi1 : Arbiter :=
  mkArbiter V1.Bus V1.currentDevice V1.hw V1.select V1.deselect.

Definition spi2 : Arbiter :=
  mkArbiter V2.Bus V2.dev V2.hw V2.sel V2.desel.

(** The [digitalWrite]s made on the way from [b] to [b']. *)
Definition made (M : Arbiter) (b b' : bus M) : list (Z * level) :=
  drop (length (trace (wires M b))) (trace (wires M b')).

(** Inputs of the concrete instances: an entry point that sleeps 100 ms at
    time 0, two later iterations in which nobody calls anything, the
    kernel left by the first dispatch on [normal_pair], and a kernel in
    which task 1 runs with a three-byte message pending. *)
Definition sleeper (_ : nat) : list V2.Call := [V2.CSleep 0 100].

Definition quiet : list (Z * (nat -> list V2.Call)) :=
  [(1, fun _ => []); (50, fun _ => [])].

Definition one_asleep : V2.OS := fst (V2.iteration 0 sleeper normal_pair).

Definition one_pending : V2.OS :=
  V2.set_cur 1 (snd (V2.sendMessage 1 7 [11; 12; 13] 3 normal_pair)).

(** The scenario of three tasks A (HIGH), B (NORMAL) and C (LOW), all of
    period 0, registered in that order, in which A sleeps 100 ms whenever
    it runs and the others call nothing. *)
Definition three_tasks : V2.OS :=
  snd (V2.add_all [(0%nat, 0, V2.PRIORITY_HIGH);
                   (1%nat, 0, V2.PRIORITY_NORMAL);
                   (2%nat, 0, V2.PRIORITY_LOW)] V2.init).

Definition a_sleeps (clock : Z) (i : nat) : list V2.Call :=
  match i with O => [V2.CSleep clock 100] | _ => [] end.

(** Every mailbox of the table is as [sendMessage] leaves it. *)
Definition boxes_ok (os : V2.OS) : Prop :=
  Forall (fun x => mailbox_ok (V2.message x)) (V2.t os).

(** ** Vocabulary of the further properties *)

(** The dispatch block up to the call of the entry point: task [b] is
    current and RUNNING, with its dispatch time recorded. *)
Definition started (now : Z) (b : nat) (os : V2.OS) : V2.OS :=
  V2.upd b
    (fun x => V2.set_startRun now (V2.set_last (u16 now) (V2.set_state V2.T_RUN x)))
    (V2.set_cur b os).

(** The number of iterations of a run that dispatched a task. *)
Definition dispatches (ds : list (option nat)) : Z :=
  Z.of_nat (length (filter (fun d => is_Some d) ds)).

Definition is_resume (i : nat) (c : V2.Call) : bool :=
  match c with V2.CResume k => (k =? i)%nat | _ => false end.

(** A call that neither puts task [h] to sleep, nor suspends it, nor
    registers a task. *)
Definition keeps_ready (h : nat) (c : V2.Call) : bool :=
  match c with
  | V2.CSleep _ _ => false
  | V2.CSuspend k => negb (k =? h)%nat
  | V2.CAdd _ _ _ => false
  | _ => true
  end.

(** A [sendMessage] whose buffer holds the bytes it announces. *)
Definition call_ok (c : V2.Call) : Prop :=
  match c with
  | V2.CSend _ _ src sz => (Z.to_nat sz <= length src)%nat
  | _ => True
  end.

(** The operations of a bus manager, and a sequence of them. *)
Inductive BusOp : Type :=
| OSelect (d : Z)
| ODeselect.

Definition bus_op (M : Arbiter) (b : bus M) (o : BusOp) : bus M :=
  match o with
  | OSelect d => choose M d b
  | ODeselect => release M b
  end.

Definition bus_run (M : Arbiter) (ops : list BusOp) (b : bus M) : bus M :=
  foldl (bus_op M) b ops.

(** [k] transactions on device [d], each bracketed by select and
    deselect. *)
Definition transactions (k : nat) (d : Z) : list BusOp :=
  concat (replicate k [OSelect d; ODeselect]).

(** No pin other than the recorded device is driven LOW. *)
Definition only_current_low (M : Arbiter) (b : bus M) : Prop :=
  forall p, latch (wires M b) !! p = Some LOW -> p = current M b.

(** The fields of a task that no call of the interface writes, except
    [add] in the slot it fills. *)
Definition timing (x : V2.Task) : nat * Z * Z * Z * Z :=
  (V2.fn x, V2.period x, V2.last x, V2.pri x, V2.startRun x).

(** Task [h] is READY, not suspended, of period 0 and of a priority above
    that of every other registered task. *)
Definition monopolist (h : nat) (os : V2.OS) : Prop :=
  (h < V2.n os)%nat /\ V2.state (V2.task os h) = V2.T_READY /\
  V2.suspended os h = false /\ V2.period (V2.task os h) = 0 /\
  forall j, (j < V2.n os)%nat -> j <> h ->
            V2.pri (V2.task os j) < V2.pri (V2.task os h).

(** The fields of a task that the scan of [run()] reads. *)
Definition sched (x : V2.Task) : Z * Z * Z * Z * Z :=
  (V2.state x, V2.sleepUntil x, V2.last x, V2.period x, V2.pri x).

(** The dispatch block of the compact variant up to the call of the entry
    point. *)
Definition started1 (now : Z) (b : nat) (os : V1.OS) : V1.OS :=
  V1.upd b (fun x => V1.set_lastRun (u16 now) (V1.set_state V1.TASK_RUNNING x))
         (V1.set_currentTask b os).

(** The call of the compact variant that corresponds to a call of the
    unified one, with the same arguments; messages have no counterpart,
    and the name of a registered task is not kept in the reading
    [to_V1]. *)
Definition to_V1_call (c : V2.Call) : list V1.Call :=
  match c with
  | V2.CSleep clock ms => [V1.CSleep clock ms]
  | V2.CSuspend i => [V1.CSuspend i]
  | V2.CResume i => [V1.CResume i]
  | V2.CAdd f p pr => [V1.CAddTask f p pr 0]
  | V2.CSend _ _ _ _ => []
  | V2.CReceive _ => []
  end.

(** A registration whose priority fits the two bits of the unified
    variant's [pri], as [PRIORITY_IDLE] to [PRIORITY_HIGH] do. *)
Definition priority_fits (c : V2.Call) : Prop :=
  match c with
  | V2.CAdd _ _ pr => 0 <= pr < 4
  | _ => True
  end.

(** The fields of a task of the compact variant that no call of the
    interface writes, except [addTask] in the slot it fills. *)
Definition timing1 (x : V1.Task) : nat * Z * Z * Z :=
  (V1.function x, V1.period x, V1.lastRun x, V1.priority x).

(** The index stays inside the buffer. *)
Definition shell_in_bounds (s : Shell.State) : Prop :=
  (Shell.idx s < length (Shell.globalBuffer s))%nat /\
  length (Shell.globalBuffer s) = Shell.BUFFER_SIZE.

(** The buffer holds the line typed so far, and the completed lines are
    the ones handed over. *)
Definition shell_holds (s : Shell.State) (st : list Z * list (list Z))
    : Prop :=
  take (Shell.idx s) (Shell.globalBuffer s) = fst st /\
  Forall (fun c => c <> 0) (fst st) /\
  Shell.commands s = snd st.

(** A connected client whose line so far, after the input [pre], is in
    the buffer. *)
Definition telnet_holds (s : Telnet.State) (pre : list Z) : Prop :=
  Telnet.connected s = true /\
  length (Telnet.gbuf s) = Telnet.BUF_SIZE /\
  Telnet.telnetIndex s = length (kept pre) /\
  take (Telnet.telnetIndex s) (Telnet.gbuf s) = kept pre.

(** No character of a line ends it. *)
Definition one_line (l : list Z) : bool :=
  forallb (fun c => negb (is_newline c)) l.

(** * Properties *)

(** ** Registration: [add] and [addTask] *)

Lemma expected_ids_full (from k : nat) :
  (MAX_TASKS <= from)%nat -> expected_ids from k = replicate k (-1).
Proof.
  revert from. induction k as [|k IH]; intros from Hfull; [done|].
  unfold expected_ids in *. cbn [seq fmap list_fmap].
  rewrite (IH (S from)) by lia.
  destruct (Nat.ltb_spec from MAX_TASKS); [lia | done].
Qed.

Lemma expected_ids_room (from k : nat) :
  (from < MAX_TASKS)%nat ->
  expected_ids from (S k) = Z.of_nat from :: expected_ids (S from) k.
Proof.
  intros Hroom. unfold expected_ids. cbn [seq fmap list_fmap].
  destruct (Nat.ltb_spec from MAX_TASKS); [done | lia].
Qed.

Section Registration_V2.
Import V2.

Lemma add_full f p pr os :
  (MAX_TASKS <= n os)%nat -> add f p pr os = (-1, os).
Proof.
  intros Hfull. unfold add.
  destruct (Nat.leb_spec MAX_TASKS (n os)); [done | lia].
Qed.

Lemma add_room f p pr os :
  (n os < MAX_TASKS)%nat ->
  fst (add f p pr os) = Z.of_nat (n os) /\
  n (snd (add f p pr os)) = S (n os).
Proof.
  intros Hroom. unfold add.
  destruct (Nat.leb_spec MAX_TASKS (n os)); [lia | done].
Qed.

Lemma add_all_ids args : forall os,
  fst (add_all args os) = expected_ids (n os) (length args).
Proof.
  induction args as [|[[f p] pr] rest IH]; intros os; [done|].
  cbn [add_all length].
  destruct (add f p pr os) as [r os1] eqn:Hadd.
  specialize (IH os1). destruct (add_all rest os1) as [rs os2].
  cbn [fst] in *. subst rs.
  destruct (Nat.lt_ge_cases (n os) MAX_TASKS) as [Hroom|Hfull].
  - destruct (add_room f p pr os Hroom) as [Hr Hn].
    rewrite Hadd in Hr, Hn. cbn [fst snd] in Hr, Hn.
    rewrite expected_ids_room by done. by rewrite Hr, Hn.
  - rewrite add_full in Hadd by done. injection Hadd as <- <-.
    rewrite !expected_ids_full by done. done.
Qed.

Lemma add_all_full args : forall os,
  (MAX_TASKS <= n os)%nat -> snd (add_all args os) = os.
Proof.
  induction args as [|[[f p] pr] rest IH]; intros os Hfull; [done|].
  cbn [add_all]. rewrite add_full by done.
  specialize (IH os Hfull). by destruct (add_all rest os).
Qed.

Lemma add_all_app args1 args2 os :
  add_all (args1 ++ args2) os =
  (fst (add_all args1 os) ++ fst (add_all args2 (snd (add_all args1 os))),
   snd (add_all args2 (snd (add_all args1 os)))).
Proof.
  revert os. induction args1 as [|[[f p] pr] rest IH]; intros os.
  - cbn. by destruct (add_all args2 os).
  - cbn [add_all app]. destruct (add f p pr os) as [r os1].
    rewrite IH. by destruct (add_all rest os1).
Qed.

Lemma add_all_count args : forall os,
  n (snd (add_all args os)) =
  Nat.min (n os + length args) (Nat.max (n os) MAX_TASKS).
Proof.
  induction args as [|[[f p] pr] rest IH]; intros os.
  - cbn. lia.
  - cbn [add_all length].
    destruct (add f p pr os) as [r os1] eqn:Hadd.
    specialize (IH os1). destruct (add_all rest os1) as [rs os2].
    cbn [snd] in *.
    destruct (Nat.lt_ge_cases (n os) MAX_TASKS) as [Hroom|Hfull].
    + destruct (add_room f p pr os Hroom) as [_ Hn].
      rewrite Hadd in Hn. cbn [snd] in Hn. lia.
    + rewrite add_full in Hadd by done. injection Hadd as <- <-. lia.
Qed.

End Registration_V2.

Section Registration_V1.
Import V1.

Lemma addTask_full f p pr nm os :
  (MAX_TASKS <= taskCount os)%nat -> addTask f p pr nm os = (-1, os).
Proof.
  intros Hfull. unfold addTask.
  destruct (Nat.leb_spec MAX_TASKS (taskCount os)); [done | lia].
Qed.

Lemma addTask_room f p pr nm os :
  (taskCount os < MAX_TASKS)%nat ->
  fst (addTask f p pr nm os) = Z.of_nat (taskCount os) /\
  taskCount (snd (addTask f p pr nm os)) = S (taskCount os).
Proof.
  intros Hroom. unfold addTask.
  destruct (Nat.leb_spec MAX_TASKS (taskCount os)); [lia | done].
Qed.

Lemma addTask_all_ids args : forall os,
  fst (addTask_all args os) = expected_ids (taskCount os) (length args).
Proof.
  induction args as [|[[[f p] pr] nm] rest IH]; intros os; [done|].
  cbn [addTask_all length].
  destruct (addTask f p pr nm os) as [r os1] eqn:Hadd.
  specialize (IH os1). destruct (addTask_all rest os1) as [rs os2].
  cbn [fst] in *. subst rs.
  destruct (Nat.lt_ge_cases (taskCount os) MAX_TASKS) as [Hroom|Hfull].
  - destruct (addTask_room f p pr nm os Hroom) as [Hr Hn].
    rewrite Hadd in Hr, Hn. cbn [fst snd] in Hr, Hn.
    rewrite expected_ids_room by done. by rewrite Hr, Hn.
  - rewrite addTask_full in Hadd by done. injection Hadd as <- <-.
    rewrite !expected_ids_full by done. done.
Qed.

Lemma addTask_all_full args : forall os,
  (MAX_TASKS <= taskCount os)%nat -> snd (addTask_all args os) = os.
Proof.
  induction args as [|[[[f p] pr] nm] rest IH]; intros os Hfull; [done|].
  cbn [addTask_all]. rewrite addTask_full by done.
  specialize (IH os Hfull). by destruct (addTask_all rest os).
Qed.

Lemma addTask_all_app args1 args2 os :
  addTask_all (args1 ++ args2) os =
  (fst (addTask_all args1 os)
     ++ fst (addTask_all args2 (snd (addTask_all args1 os))),
   snd (addTask_all args2 (snd (addTask_all args1 os)))).
Proof.
  revert os. induction args1 as [|[[[f p] pr] nm] rest IH]; intros os.
  - cbn. by destruct (addTask_all args2 os).
  - cbn [addTask_all app]. destruct (addTask f p pr nm os) as [r os1].
    rewrite IH. by destruct (addTask_all rest os1).
Qed.

Lemma addTask_all_count args : forall os,
  taskCount (snd (addTask_all args os)) =
  Nat.min (taskCount os + length args) (Nat.max (taskCount os) MAX_TASKS).
Proof.
  induction args as [|[[[f p] pr] nm] rest IH]; intros os.
  - cbn. lia.
  - cbn [addTask_all length].
    destruct (addTask f p pr nm os) as [r os1] eqn:Hadd.
    specialize (IH os1). destruct (addTask_all rest os1) as [rs os2].
    cbn [snd] in *.
    destruct (Nat.lt_ge_cases (taskCount os) MAX_TASKS) as [Hroom|Hfull].
    + destruct (addTask_room f p pr nm os Hroom) as [_ Hn].
      rewrite Hadd in Hn. cbn [snd] in Hn. lia.
    + rewrite addTask_full in Hadd by done. injection Hadd as <- <-. lia.
Qed.

End Registration_V1.

(** The closed form of the return values of [k] calls made on a fresh
    kernel: [0, 1, ...] for the first [MAX_TASKS] calls, [-1] afterwards. *)
Lemma expected_ids_fresh (k : nat) :
  expected_ids 0 k =
  (Z.of_nat <$> seq 0 (Nat.min k MAX_TASKS))
    ++ replicate (k - MAX_TASKS) (-1).
Proof.
  destruct (Nat.le_gt_cases k MAX_TASKS) as [Hle|Hgt].
  - replace (k - MAX_TASKS)%nat with 0%nat by lia.
    rewrite Nat.min_l, app_nil_r by done.
    unfold expected_ids. apply list_fmap_ext.
    intros i x Hx. apply lookup_seq in Hx as [-> ?].
    destruct (Nat.ltb_spec (0 + i) MAX_TASKS); [done | lia].
  - rewrite Nat.min_r by lia.
    replace k with (MAX_TASKS + (k - MAX_TASKS))%nat at 1 by lia.
    unfold expected_ids. rewrite seq_app, fmap_app. f_equal.
    fold (expected_ids (0 + MAX_TASKS) (k - MAX_TASKS)).
    by rewrite expected_ids_full.
Qed.

(** C4. On a fresh kernel the first six registrations return 0, 1, ..., 5
    in call order and every later one returns -1; a registration made when
    six tasks are registered returns -1 and gives back the kernel it was
    given (table, count and descriptors), so the kernel after any sequence
    of calls is the kernel after its first six.  This holds for [add] and
    for [addTask]. *)
Theorem registration_capacity :
  (forall args : list (nat * Z * Z),
      fst (V2.add_all args V2.init) =
        (Z.of_nat <$> seq 0 (Nat.min (length args) 6))
          ++ replicate (length args - 6) (-1)
      /\ snd (V2.add_all args V2.init) =
           snd (V2.add_all (take 6 args) V2.init))
  /\ (forall f p pr os,
         (6 <= V2.n os)%nat -> V2.add f p pr os = (-1, os))
  /\ (forall args : list (nat * Z * Z * nat),
         fst (V1.addTask_all args V1.init) =
           (Z.of_nat <$> seq 0 (Nat.min (length args) 6))
             ++ replicate (length args - 6) (-1)
         /\ snd (V1.addTask_all args V1.init) =
              snd (V1.addTask_all (take 6 args) V1.init))
  /\ (forall f p pr nm os,
         (6 <= V1.taskCount os)%nat -> V1.addTask f p pr nm os = (-1, os)).
Proof.
  repeat split.
  - rewrite add_all_ids. apply expected_ids_fresh.
  - rewrite <- (take_drop 6 args) at 1. rewrite add_all_app. cbn [snd].
    destruct (Nat.le_gt_cases 6 (length args)) as [Hlong|Hshort].
    + apply add_all_full. rewrite add_all_count, length_take.
      change (V2.n V2.init) with 0%nat. unfold MAX_TASKS. lia.
    + rewrite drop_ge by lia. done.
  - intros. by apply add_full.
  - rewrite addTask_all_ids. apply expected_ids_fresh.
  - rewrite <- (take_drop 6 args) at 1. rewrite addTask_all_app. cbn [snd].
    destruct (Nat.le_gt_cases 6 (length args)) as [Hlong|Hshort].
    + apply addTask_all_full. rewrite addTask_all_count, length_take.
      change (V1.taskCount V1.init) with 0%nat. unfold MAX_TASKS. lia.
    + rewrite drop_ge by lia. done.
  - intros. by apply addTask_full.
Qed.

(** ** The selection loop *)

Section Pick.
Variable c : nat -> bool.
Variable p : nat -> Z.

Lemma pick_S better k :
  pick better c p (S k) = pick_body better c p (pick better c p k) k.
Proof. unfold pick. by rewrite seq_S, foldl_snoc. Qed.

(** With [>=] the loop keeps the last of the best candidates. *)
Lemma pick_geb_spec k :
  (forall i, (i < k)%nat -> c i = true -> 0 <= p i) ->
  match pick Z.geb c p k with
  | (None, m) => m = 0 /\ forall i, (i < k)%nat -> c i = false
  | (Some b, m) =>
      (b < k)%nat /\ c b = true /\ m = p b /\
      forall i, (i < k)%nat -> c i = true ->
                p i <= p b /\ (p i = p b -> (i <= b)%nat)
  end.
Proof.
  induction k as [|k IH]; intros Hpos.
  - cbn. split; [done | intros; lia].
  - rewrite pick_S. specialize (IH ltac:(intros; apply Hpos; [lia | done])).
    unfold pick_body. destruct (pick Z.geb c p k) as [best m]. cbn [snd].
    destruct (c k) eqn:Hck.
    + destruct (Z.geb_spec (p k) m) as [Hge|Hlt].
      * split; [lia|]. split; [done|]. split; [done|].
        intros i Hi Hci. destruct (decide (i = k)) as [->|Hne]; [lia|].
        destruct best as [b|].
        -- destruct IH as (Hb & _ & -> & IH).
           specialize (IH i ltac:(lia) Hci). lia.
        -- destruct IH as [_ IH]. rewrite IH in Hci by lia. done.
      * destruct best as [b|].
        -- destruct IH as (Hb & Hcb & -> & IH).
           split; [lia|]. split; [done|]. split; [done|].
           intros i Hi Hci. destruct (decide (i = k)) as [->|Hne]; [lia|].
           apply IH; [lia | done].
        -- destruct IH as [-> _]. specialize (Hpos k ltac:(lia) Hck). lia.
    + destruct best as [b|].
      * destruct IH as (Hb & Hcb & -> & IH).
        split; [lia|]. split; [done|]. split; [done|].
        intros i Hi Hci. destruct (decide (i = k)) as [->|Hne]; [congruence|].
        apply IH; [lia | done].
      * destruct IH as [-> IH]. split; [done|]. intros i Hi.
        destruct (decide (i = k)) as [->|Hne]; [done|]. apply IH. lia.
Qed.

(** With [>] the loop keeps the first of the best candidates, and none at
    all when no candidate has a priority above 0. *)
Lemma pick_gtb_spec k :
  match pick Z.gtb c p k with
  | (None, m) => m = 0 /\ forall i, (i < k)%nat -> c i = true -> p i <= 0
  | (Some b, m) =>
      (b < k)%nat /\ c b = true /\ m = p b /\ 0 < p b /\
      forall i, (i < k)%nat -> c i = true ->
                p i <= p b /\ (p i = p b -> (b <= i)%nat)
  end.
Proof.
  induction k as [|k IH].
  - cbn. split; [done | intros; lia].
  - rewrite pick_S. unfold pick_body.
    destruct (pick Z.gtb c p k) as [best m]. cbn [snd].
    destruct (c k) eqn:Hck; [destruct (Z.gtb_spec (p k) m) as [Hgt|Hle]|];
      destruct best as [b|].
    + destruct IH as (Hb & Hcb & -> & Hpb & IH).
      split; [lia|]. split; [done|]. split; [done|]. split; [lia|].
      intros i Hi Hci. destruct (decide (i = k)) as [->|Hne]; [lia|].
      specialize (IH i ltac:(lia) Hci). lia.
    + destruct IH as [-> IH].
      split; [lia|]. split; [done|]. split; [done|]. split; [lia|].
      intros i Hi Hci. destruct (decide (i = k)) as [->|Hne]; [lia|].
      specialize (IH i ltac:(lia) Hci). lia.
    + destruct IH as (Hb & Hcb & -> & Hpb & IH).
      split; [lia|]. split; [done|]. split; [done|]. split; [lia|].
      intros i Hi Hci. destruct (decide (i = k)) as [->|Hne]; [lia|].
      specialize (IH i ltac:(lia) Hci). lia.
    + destruct IH as [-> IH]. split; [done|]. intros i Hi Hci.
      destruct (decide (i = k)) as [->|Hne]; [lia|]. apply IH; [lia|done].
    + destruct IH as (Hb & Hcb & -> & Hpb & IH).
      split; [lia|]. split; [done|]. split; [done|]. split; [lia|].
      intros i Hi Hci. destruct (decide (i = k)) as [->|Hne]; [congruence|].
      specialize (IH i ltac:(lia) Hci). lia.
    + destruct IH as [-> IH]. split; [done|]. intros i Hi Hci.
      destruct (decide (i = k)) as [->|Hne]; [congruence|].
      apply IH; [lia|done].
Qed.

End Pick.

(** ** The scan of the unified variant *)

Section Scan_V2.
Import V2.

Lemma task_upd_eq i f os :
  (i < length (t os))%nat -> task (upd i f os) i = f (task os i).
Proof. intros Hi. unfold task, upd. cbn. by apply list_lookup_total_alter_eq. Qed.

Lemma task_upd_ne i j f os : i <> j -> task (upd i f os) j = task os j.
Proof. intros Hne. unfold task, upd. cbn. by apply list_lookup_total_alter_ne. Qed.

Lemma length_upd i f os : length (t (upd i f os)) = length (t os).
Proof. unfold upd. cbn. apply length_alter. Qed.

Lemma pri_wake now x : pri (wake now x) = pri x.
Proof. unfold wake. by destruct (_ && _). Qed.

(** The table in the middle of a scan: the slots below [k] that are not
    suspended have had their sleep timeout checked. *)
Lemma scan_prefix now os k :
  (k <= length (t os))%nat ->
  let st := foldl (scan_body now) (os, None, 0) (seq 0 k) in
  fst (fst st) = set_t (t (fst (fst st))) os /\
  length (t (fst (fst st))) = length (t os) /\
  (forall j, task (fst (fst st)) j =
             if (j <? k)%nat && negb (suspended os j)
             then wake now (task os j) else task os j) /\
  (snd (fst st), snd st) =
    pick Z.geb
         (fun i => negb (suspended os i) && due now (wake now (task os i)))
         (fun i => pri (task os i)) k.
Proof.
  induction k as [|k IH]; intros Hk.
  - cbn. repeat split. by destruct os.
  - specialize (IH ltac:(lia)). rewrite seq_S, foldl_snoc, pick_S. cbn zeta in *.
    destruct (foldl (scan_body now) (os, None, 0) (seq 0 k))
      as [[os' best] m].
    cbn [fst snd] in IH. destruct IH as (Hos & Hlen & Htask & Hpick).
    rewrite <- Hpick. cbn [plus]. unfold scan_body, pick_body. cbn [snd].
    assert (Hsus : suspended os' k = suspended os k)
      by (rewrite Hos; done).
    rewrite Hsus. destruct (suspended os k) eqn:Hsk; cbn [negb andb].
    + cbn [fst snd]. repeat split; [done | done |].
      intros j. rewrite Htask.
      destruct (decide (j = k)) as [->|Hne].
      * rewrite Hsk. by rewrite !andb_false_r.
      * replace (j <? S k)%nat with (j <? k)%nat; [done|].
        destruct (Nat.ltb_spec j k), (Nat.ltb_spec j (S k)); (done || lia).
    + assert (Hk' : task (upd k (wake now) os') k = wake now (task os k)).
      { rewrite task_upd_eq by lia. rewrite Htask.
        by rewrite Nat.ltb_irrefl. }
      rewrite Hk', pri_wake.
      assert (Hrest :
        upd k (wake now) os' = set_t (t (upd k (wake now) os')) os /\
        length (t (upd k (wake now) os')) = length (t os) /\
        forall j, task (upd k (wake now) os') j =
                  if (j <? S k)%nat && negb (suspended os j)
                  then wake now (task os j) else task os j).
      { split; [rewrite Hos at 1; done|].
        split; [by rewrite length_upd|].
        intros j. destruct (decide (j = k)) as [->|Hne].
        - rewrite Hk', Hsk. cbn [negb]. rewrite andb_true_r.
          destruct (Nat.ltb_spec k (S k)); [done | lia].
        - rewrite task_upd_ne by done. rewrite Htask.
          replace (j <? S k)%nat with (j <? k)%nat; [done|].
          destruct (Nat.ltb_spec j k), (Nat.ltb_spec j (S k)); (done || lia). }
      destruct Hrest as (H1 & H2 & H3).
      destruct (due now (wake now (task os k)));
        [destruct (pri (task os k) >=? m)|]; cbn [fst snd]; done.
Qed.

End Scan_V2.

Section Selection_V2.
Import V2.

Lemma wf2_pri os i : wf2 os -> 0 <= pri (task os i) < 4.
Proof.
  intros (_ & _ & _ & Hpri). unfold task.
  destruct (t os !! i) as [x|] eqn:Hx.
  - erewrite list_lookup_total_correct by done.
    by eapply (Forall_lookup_1 _ _ _ _ Hpri).
  - rewrite list_lookup_total_alt, Hx. cbn. lia.
Qed.

(** What a scan leaves in the table: a registered task that is not
    suspended has had its sleep timeout checked, nothing else moved. *)
Lemma scanned_task now os j :
  wf2 os ->
  task (scanned now os) j =
    if (j <? n os)%nat && negb (suspended os j)
    then wake now (task os j) else task os j.
Proof.
  intros (Hlen & Hn & _). unfold scanned, scan.
  by destruct (scan_prefix now os (n os) ltac:(lia)) as (_ & _ & ? & _).
Qed.

Lemma scanned_frame now os :
  wf2 os ->
  scanned now os = set_t (t (scanned now os)) os /\
  length (t (scanned now os)) = length (t os).
Proof.
  intros (Hlen & Hn & _). unfold scanned, scan.
  by destruct (scan_prefix now os (n os) ltac:(lia)) as (? & ? & _).
Qed.

(** The unified variant dispatches an eligible task of the highest
    priority, the one with the highest index, and leaves the processor idle
    exactly when no task is eligible. *)
Lemma selected2_spec now os :
  wf2 os ->
  match selected now os with
  | None => forall i, eligible2 now os i = false
  | Some b =>
      top2 now os b /\ forall i, top2 now os i -> (i <= b)%nat
  end.
Proof.
  intros Hwf. pose proof Hwf as (Hlen & Hn & _). unfold selected, scan.
  destruct (scan_prefix now os (n os) ltac:(lia)) as (_ & _ & _ & Hpick).
  pose proof (pick_geb_spec
    (fun i => negb (suspended os i) && due now (wake now (task os i)))
    (fun i => pri (task os i)) (n os)) as Hspec.
  cbn zeta in Hpick. rewrite <- Hpick in Hspec.
  specialize (Hspec ltac:(intros; apply wf2_pri; done)).
  assert (Hel : forall i, eligible2 now os i = true <->
    (i < n os)%nat /\
    negb (suspended os i) && due now (wake now (task os i)) = true).
  { intros i. unfold eligible2. rewrite <- andb_assoc, andb_true_iff.
    by rewrite Nat.ltb_lt. }
  destruct (foldl (scan_body now) (os, None, 0) (seq 0 (n os)))
    as [[os' best] m]. cbn [fst snd] in *.
  destruct best as [b|].
  - destruct Hspec as (Hb & Hcb & _ & Hmax). split; [split|].
    + by apply Hel.
    + intros j [Hj Hcj]%Hel. by apply Hmax.
    + intros i [[Hi Hci]%Hel Hitop].
      assert (Hbel : eligible2 now os b = true) by by apply Hel.
      specialize (Hitop b Hbel). destruct (Hmax i Hi Hci) as [Hle Htie].
      apply Htie. lia.
  - destruct Hspec as [_ Hnone]. intros i.
    destruct (eligible2 now os i) eqn:Hi; [|done].
    apply Hel in Hi as [Hi Hci]. rewrite Hnone in Hci; done.
Qed.

End Selection_V2.

(** ** The scan of the compact variant *)

Section Scan_V1.
Import V1.

Lemma task1_upd_eq i f os :
  (i < length (tasks os))%nat -> task (upd i f os) i = f (task os i).
Proof. intros Hi. unfold task, upd. cbn. by apply list_lookup_total_alter_eq. Qed.

Lemma task1_upd_ne i j f os : i <> j -> task (upd i f os) j = task os j.
Proof. intros Hne. unfold task, upd. cbn. by apply list_lookup_total_alter_ne. Qed.

Lemma priority_wake now x : priority (wake now x) = priority x.
Proof. unfold wake. by destruct (_ && _). Qed.

Lemma scan1_prefix now os k :
  (k <= length (tasks os))%nat ->
  let st := foldl (scan_body now) (os, None, 0) (seq 0 k) in
  fst (fst st) = set_tasks (tasks (fst (fst st))) os /\
  length (tasks (fst (fst st))) = length (tasks os) /\
  (forall j, task (fst (fst st)) j =
             if (j <? k)%nat && negb (suspended os j)
             then wake now (task os j) else task os j) /\
  (snd (fst st), snd st) =
    pick Z.gtb
         (fun i => negb (suspended os i) && due now (wake now (task os i)))
         (fun i => priority (task os i)) k.
Proof.
  induction k as [|k IH]; intros Hk.
  - cbn. repeat split. by destruct os.
  - specialize (IH ltac:(lia)). rewrite seq_S, foldl_snoc, pick_S. cbn zeta in *.
    destruct (foldl (scan_body now) (os, None, 0) (seq 0 k))
      as [[os' best] m].
    cbn [fst snd] in IH. destruct IH as (Hos & Hlen & Htask & Hpick).
    rewrite <- Hpick. cbn [plus]. unfold scan_body, pick_body. cbn [snd].
    assert (Hsus : suspended os' k = suspended os k)
      by (rewrite Hos; done).
    assert (Hstep : forall j, ((j <? S k)%nat && negb (suspended os j)) =
                    if decide (j = k) then negb (suspended os k)
                    else (j <? k)%nat && negb (suspended os j)).
    { intros j. case_decide as Hj; [subst j|].
      - destruct (Nat.ltb_spec k (S k)); [done | lia].
      - destruct (Nat.ltb_spec j k), (Nat.ltb_spec j (S k)); (done || lia). }
    rewrite Hsus. destruct (suspended os k) eqn:Hsk; cbn [negb andb].
    + cbn [fst snd]. repeat split; [done | done |].
      intros j. rewrite Htask, Hstep. case_decide as Hj; [subst j|done].
      rewrite Hsk. by rewrite andb_false_r.
    + assert (Hk' : task (upd k (wake now) os') k = wake now (task os k)).
      { rewrite task1_upd_eq by lia. rewrite Htask.
        by rewrite Nat.ltb_irrefl. }
      rewrite Hk', priority_wake.
      assert (Hrest :
        upd k (wake now) os' = set_tasks (tasks (upd k (wake now) os')) os /\
        length (tasks (upd k (wake now) os')) = length (tasks os) /\
        forall j, task (upd k (wake now) os') j =
                  if (j <? S k)%nat && negb (suspended os j)
                  then wake now (task os j) else task os j).
      { split; [rewrite Hos at 1; done|].
        split; [unfold upd; cbn; by rewrite length_alter|].
        intros j. rewrite Hstep. case_decide as Hj; [subst j|].
        - by rewrite Hk'.
        - rewrite task1_upd_ne by done. by rewrite Htask. }
      destruct Hrest as (H1 & H2 & H3).
      destruct (due now (wake now (task os k)));
        [destruct (priority (task os k) >? m)|]; cbn [fst snd]; done.
Qed.

(** The compact variant dispatches an eligible task of the highest
    priority, the one with the lowest index, provided that priority is
    above 0; it dispatches nothing when no eligible task has a priority
    above 0. *)
Lemma selected1_spec now os :
  wf1 os ->
  match selected now os with
  | None =>
      forall i, eligible1 now os i = true -> priority (task os i) <= 0
  | Some b =>
      top1 now os b /\ 0 < priority (task os b) /\
      forall i, top1 now os i -> (b <= i)%nat
  end.
Proof.
  intros (Hlen & Hn). unfold selected, scan.
  destruct (scan1_prefix now os (taskCount os) ltac:(lia))
    as (_ & _ & _ & Hpick).
  pose proof (pick_gtb_spec
    (fun i => negb (suspended os i) && due now (wake now (task os i)))
    (fun i => priority (task os i)) (taskCount os)) as Hspec.
  cbn zeta in Hpick. rewrite <- Hpick in Hspec.
  assert (Hel : forall i, eligible1 now os i = true <->
    (i < taskCount os)%nat /\
    negb (suspended os i) && due now (wake now (task os i)) = true).
  { intros i. unfold eligible1. rewrite <- andb_assoc, andb_true_iff.
    by rewrite Nat.ltb_lt. }
  destruct (foldl (scan_body now) (os, None, 0) (seq 0 (taskCount os)))
    as [[os' best] m]. cbn [fst snd] in *.
  destruct best as [b|].
  - destruct Hspec as (Hb & Hcb & _ & Hpos & Hmax).
    split; [split|split; [done|]].
    + by apply Hel.
    + intros j [Hj Hcj]%Hel. by apply Hmax.
    + intros i [[Hi Hci]%Hel Hitop].
      assert (Hbel : eligible1 now os b = true) by by apply Hel.
      specialize (Hitop b Hbel). destruct (Hmax i Hi Hci) as [Hle Htie].
      apply Htie. lia.
  - destruct Hspec as [_ Hnone]. intros i [Hi Hci]%Hel. by apply Hnone.
Qed.

End Scan_V1.

(** ** The two variants on the same table *)

Lemma to_V1_task_lookup os i :
  V1.task (to_V1 os) i = to_V1_task (V2.task os i).
Proof.
  unfold V1.task, V2.task, to_V1. cbn [V1.tasks].
  rewrite !list_lookup_total_alt, list_lookup_fmap.
  by destruct (V2.t os !! i).
Qed.

Lemma to_V1_wake now x :
  V1.wake now (to_V1_task x) = to_V1_task (V2.wake now x).
Proof.
  unfold V1.wake, V2.wake. cbn [to_V1_task V1.state V1.wakeTime].
  change V1.TASK_WAITING with V2.T_WAIT.
  by destruct (_ && _).
Qed.

Lemma to_V1_due now x : V1.due now (to_V1_task x) = V2.due now x.
Proof. done. Qed.

Lemma to_V1_eligible now os i :
  eligible1 now (to_V1 os) i = eligible2 now os i.
Proof.
  unfold eligible1, eligible2.
  by rewrite to_V1_task_lookup, to_V1_wake, to_V1_due.
Qed.

Lemma to_V1_top now os i : top1 now (to_V1 os) i <-> top2 now os i.
Proof.
  unfold top1, top2. rewrite to_V1_eligible.
  setoid_rewrite to_V1_eligible. by setoid_rewrite to_V1_task_lookup.
Qed.

Lemma to_V1_wf os : wf2 os -> wf1 (to_V1 os).
Proof.
  intros (Hlen & Hn & _). split; [|done].
  unfold to_V1. cbn. by rewrite length_fmap.
Qed.

(** ** The tie-break between tasks of equal priority *)

Lemma top2_same_pri now os i j :
  top2 now os i -> top2 now os j ->
  V2.pri (V2.task os i) = V2.pri (V2.task os j).
Proof.
  intros [Hi Himax] [Hj Hjmax].
  specialize (Himax j Hj). specialize (Hjmax i Hi). lia.
Qed.

(** The unified variant picks the highest index among the eligible tasks
    of the highest priority. *)
Lemma selected2_highest now os hi :
  wf2 os -> top2 now os hi ->
  (forall i, top2 now os i -> (i <= hi)%nat) ->
  V2.selected now os = Some hi.
Proof.
  intros Hwf Hhi Hmax. pose proof (selected2_spec now os Hwf) as Hspec.
  destruct (V2.selected now os) as [b|].
  - destruct Hspec as [Hb Hbmax]. f_equal.
    specialize (Hmax b Hb). specialize (Hbmax hi Hhi). lia.
  - destruct Hhi as [Hel _]. rewrite Hspec in Hel. done.
Qed.

(** The compact variant picks the lowest index among them when their
    priority is above 0, and picks nothing when it is 0. *)
Lemma selected1_lowest now os lo :
  wf2 os -> top2 now os lo ->
  (forall i, top2 now os i -> (lo <= i)%nat) ->
  V1.selected now (to_V1 os) =
    if 0 <? V2.pri (V2.task os lo) then Some lo else None.
Proof.
  intros Hwf Hlo Hmin.
  pose proof (selected1_spec now (to_V1 os) (to_V1_wf os Hwf)) as Hspec.
  pose proof (wf2_pri os lo Hwf) as Hrange.
  destruct (V1.selected now (to_V1 os)) as [b|].
  - destruct Hspec as (Hb & Hpos & Hbmin). apply to_V1_top in Hb.
    rewrite to_V1_task_lookup in Hpos. cbn in Hpos.
    rewrite (top2_same_pri now os lo b Hlo Hb).
    destruct (Z.ltb_spec 0 (V2.pri (V2.task os b))); [|lia]. f_equal.
    specialize (Hmin b Hb).
    specialize (Hbmin lo (proj2 (to_V1_top now os lo) Hlo)). lia.
  - destruct Hlo as [Hel _]. rewrite <- to_V1_eligible in Hel.
    specialize (Hspec lo Hel). rewrite to_V1_task_lookup in Hspec.
    cbn in Hspec. destruct (Z.ltb_spec 0 (V2.pri (V2.task os lo))); [lia|done].
Qed.

(** C1. Where the claim fails: on the table [normal_pair] (tasks 0 and 1,
    both READY, period 0, priority NORMAL, nothing suspended) both tasks
    are eligible with the same priority, and the scan of the unified
    variant selects task 1, not task 0; the scan of the compact variant
    selects task 0 on the same table. *)
Theorem equal_priority_selects_last :
  eligible2 0 normal_pair 0 = true /\
  eligible2 0 normal_pair 1 = true /\
  V2.pri (V2.task normal_pair 0) = V2.pri (V2.task normal_pair 1) /\
  V2.selected 0 normal_pair = Some 1%nat /\
  V1.selected 0 (to_V1 normal_pair) = Some 0%nat.
Proof. by vm_compute. Qed.

(** C2, as stated, fails on [idle_pair]: tasks 0 and 1 are both eligible
    with the same, highest priority 0, and the scan of the compact variant
    picks no task at all instead of the lowest index; the unified variant
    picks task 1. *)
Lemma idle_tie_selects_none :
  eligible2 0 idle_pair 0 = true /\
  eligible2 0 idle_pair 1 = true /\
  V2.pri (V2.task idle_pair 0) = 0 /\
  V2.pri (V2.task idle_pair 1) = 0 /\
  V1.selected 0 (to_V1 idle_pair) = None /\
  V2.selected 0 idle_pair = Some 1%nat.
Proof. by vm_compute. Qed.

(** C2, amended. Let [lo] and [hi] be the lowest and the highest index
    among the eligible tasks of the highest priority.  The unified variant
    selects [hi].  The compact variant, on the same table, selects [lo]
    when that priority is at least 1 and selects nothing when it is 0.  So
    the two selections differ as soon as two tasks tie. *)
Theorem tie_break_differs now os lo hi :
  wf2 os ->
  top2 now os lo -> (forall i, top2 now os i -> (lo <= i)%nat) ->
  top2 now os hi -> (forall i, top2 now os i -> (i <= hi)%nat) ->
  V2.selected now os = Some hi /\
  (1 <= V2.pri (V2.task os lo) -> V1.selected now (to_V1 os) = Some lo) /\
  (V2.pri (V2.task os lo) = 0 -> V1.selected now (to_V1 os) = None) /\
  (lo <> hi -> V1.selected now (to_V1 os) <> V2.selected now os).
Proof.
  intros Hwf Hlo Hmin Hhi Hmax.
  rewrite (selected2_highest now os hi Hwf Hhi Hmax).
  rewrite (selected1_lowest now os lo Hwf Hlo Hmin).
  split; [done|]. repeat split.
  - intros Hpos. destruct (Z.ltb_spec 0 (V2.pri (V2.task os lo))); [done|lia].
  - intros ->. done.
  - intros Hne. destruct (0 <? _); congruence.
Qed.

(** ** The suspend mask *)

Lemma land_bit_eqb (x : Z) (i : nat) :
  (Z.land x (Z.shiftl 1 (Z.of_nat i)) =? 0) = negb (Z.testbit x (Z.of_nat i)).
Proof.
  rewrite Z.shiftl_1_l.
  assert (Hland : Z.land x (2 ^ Z.of_nat i) =
                  if Z.testbit x (Z.of_nat i) then 2 ^ Z.of_nat i else 0).
  { apply Z.bits_inj'. intros k Hk.
    rewrite Z.land_spec, Z.pow2_bits_eqb by lia.
    destruct (Z.eqb_spec (Z.of_nat i) k) as [<-|Hne].
    - destruct (Z.testbit x (Z.of_nat i)); cbn.
      + rewrite Z.pow2_bits_eqb by lia. by rewrite Z.eqb_refl.
      + by rewrite Z.bits_0.
    - rewrite andb_false_r. destruct (Z.testbit x (Z.of_nat i)).
      + rewrite Z.pow2_bits_eqb by lia. symmetry. by apply Z.eqb_neq.
      + by rewrite Z.bits_0. }
  rewrite Hland. destruct (Z.testbit x (Z.of_nat i)); cbn.
  - apply Z.eqb_neq. pose proof (Z.pow_pos_nonneg 2 (Z.of_nat i)). lia.
  - done.
Qed.

Lemma suspended2_testbit os i :
  V2.suspended os i = Z.testbit (V2.suspendFlags os) (Z.of_nat i).
Proof. unfold V2.suspended. rewrite land_bit_eqb. apply negb_involutive. Qed.

Lemma testbit_set (x : Z) (i j : nat) :
  (j < 8)%nat ->
  Z.testbit (u8 (Z.lor x (Z.shiftl 1 (Z.of_nat i)))) (Z.of_nat j) =
  Z.testbit x (Z.of_nat j) || bool_decide (i = j).
Proof.
  intros Hj. unfold u8, wrap.
  rewrite Z.mod_pow2_bits_low by lia.
  rewrite Z.lor_spec, Z.shiftl_1_l, Z.pow2_bits_eqb by lia. f_equal.
  case_bool_decide as Hij.
  - subst. apply Z.eqb_refl.
  - apply Z.eqb_neq. lia.
Qed.

Lemma testbit_clear (x : Z) (i j : nat) :
  (j < 8)%nat ->
  Z.testbit (u8 (Z.land x (Z.lnot (Z.shiftl 1 (Z.of_nat i))))) (Z.of_nat j) =
  Z.testbit x (Z.of_nat j) && negb (bool_decide (i = j)).
Proof.
  intros Hj. unfold u8, wrap.
  rewrite Z.mod_pow2_bits_low by lia.
  rewrite Z.land_spec, Z.lnot_spec, Z.shiftl_1_l, Z.pow2_bits_eqb by lia.
  do 2 f_equal. case_bool_decide as Hij.
  - subst. apply Z.eqb_refl.
  - apply Z.eqb_neq. lia.
Qed.

(** ** The shape of the table is kept by every operation *)

Section Invariants_V2.
Import V2.

Lemma task_upd i j f os :
  task (upd i f os) j =
  if decide (i = j /\ (i < length (t os))%nat) then f (task os i)
  else task os j.
Proof. unfold task, upd. cbn. apply list_lookup_total_alter. Qed.

Lemma wf2_upd i f os :
  (forall x, 0 <= pri x < 4 -> 0 <= pri (f x) < 4) ->
  wf2 os -> wf2 (upd i f os).
Proof.
  intros Hf (Hlen & Hn & Hcur & Hpri). unfold wf2, upd. cbn.
  rewrite length_alter. repeat split; try done.
  apply Forall_alter; [done|]. intros x _. apply Hf.
Qed.

Lemma wf2_init : wf2 init.
Proof.
  unfold wf2, init, MAX_TASKS. cbn. repeat split; try lia.
  apply Forall_forall. intros x Hx.
  repeat (apply elem_of_cons in Hx as [->|Hx]; [cbn; lia|]).
  by apply elem_of_nil in Hx.
Qed.

Lemma wf2_add f p pr os : wf2 os -> wf2 (snd (add f p pr os)).
Proof.
  intros Hwf. unfold add.
  destruct (Nat.leb_spec MAX_TASKS (n os)) as [Hfull|Hroom]; [done|].
  cbn [snd].
  match goal with |- wf2 (set_n _ (upd ?k ?f os)) =>
    assert (Hupd : wf2 (upd k f os)) end.
  { apply wf2_upd; [|done]. intros x _. cbn. unfold wrap.
    apply Z.mod_pos_bound. lia. }
  destruct Hupd as (Hlen & _ & Hcur & Hpri).
  unfold wf2. cbn in *. repeat split; first [done | lia].
Qed.

Lemma wf2_sleep clock ms os : wf2 os -> wf2 (sleep clock ms os).
Proof. intros Hwf. unfold sleep. by apply wf2_upd. Qed.

Lemma wf2_set_suspendFlags v os : wf2 os -> wf2 (set_suspendFlags v os).
Proof. done. Qed.

Lemma wf2_suspendTask i os : wf2 os -> wf2 (snd (suspendTask i os)).
Proof.
  intros Hwf. unfold suspendTask. destruct (i <? n os)%nat; [|done].
  cbn [snd]. destruct (negb _); [|done]. by apply wf2_upd.
Qed.

Lemma wf2_resumeTask i os : wf2 os -> wf2 (snd (resumeTask i os)).
Proof.
  intros Hwf. unfold resumeTask. destruct (i <? n os)%nat; [|done].
  cbn [snd]. destruct (_ =? _); [|done]. by apply wf2_upd.
Qed.

Lemma wf2_sendMessage k mt src sz os :
  wf2 os -> wf2 (snd (sendMessage k mt src sz os)).
Proof.
  intros Hwf. unfold sendMessage. destruct (_ || _); [done|].
  destruct (pending _); [done|]. by apply wf2_upd.
Qed.

Lemma wf2_receiveMessage mt buf mx os :
  wf2 os -> wf2 (snd (receiveMessage mt buf mx os)).
Proof.
  intros Hwf. unfold receiveMessage. destruct (negb _); [done|].
  by apply wf2_upd.
Qed.

Lemma wf2_call c os : wf2 os -> wf2 (call c os).
Proof.
  destruct c; cbn [call];
    eauto using wf2_sleep, wf2_suspendTask, wf2_resumeTask,
                wf2_sendMessage, wf2_receiveMessage, wf2_add.
Qed.

Lemma wf2_calls cs : forall os, wf2 os -> wf2 (calls cs os).
Proof.
  unfold calls. induction cs as [|c cs IH]; intros os Hwf; [done|].
  cbn. apply IH. by apply wf2_call.
Qed.

Lemma wf2_scan_fold now l : forall st,
  wf2 (fst (fst st)) -> wf2 (fst (fst (foldl (scan_body now) st l))).
Proof.
  induction l as [|i l IH]; intros [[os best] m] Hwf; [done|].
  cbn [foldl]. apply IH. unfold scan_body. cbn [fst] in *.
  destruct (suspended os i); [done|].
  assert (wf2 (upd i (wake now) os)).
  { apply wf2_upd; [|done]. intros x. by rewrite pri_wake. }
  destruct (due now _); [destruct (_ >=? _)|]; done.
Qed.

Lemma wf2_scanned now os : wf2 os -> wf2 (scanned now os).
Proof. intros Hwf. unfold scanned, scan. by apply wf2_scan_fold. Qed.

Lemma selected2_registered now os b :
  wf2 os -> selected now os = Some b -> (b < n os)%nat.
Proof.
  intros Hwf Hsel. pose proof (selected2_spec now os Hwf) as Hspec.
  rewrite Hsel in Hspec. destruct Hspec as [[Hel _] _].
  unfold eligible2 in Hel. apply andb_true_iff in Hel as [Hel _].
  apply andb_true_iff in Hel as [Hel _]. by apply Nat.ltb_lt.
Qed.

Lemma wf2_dispatch now b body os :
  (b < MAX_TASKS)%nat -> wf2 os -> wf2 (dispatch now b body os).
Proof.
  intros Hb Hwf. unfold dispatch.
  match goal with |- wf2 (set_ctxSw _ ?o) => assert (Ho : wf2 o) end; [|done].
  match goal with |- wf2 (if _ then upd _ _ ?o else ?o) =>
    assert (Ho : wf2 o) end.
  { apply wf2_calls, wf2_upd; [done|].
    destruct Hwf as (? & ? & ? & ?). done. }
  destruct (_ =? _); [by apply wf2_upd | done].
Qed.

Lemma wf2_iteration now body os :
  wf2 os -> wf2 (fst (iteration now body os)).
Proof.
  intros Hwf. unfold iteration.
  destruct (selected now os) as [b|] eqn:Hsel; cbn [fst].
  - apply wf2_dispatch; [|by apply wf2_scanned].
    pose proof (selected2_registered now os b Hwf Hsel).
    destruct Hwf as (_ & ? & _). lia.
  - by apply wf2_scanned.
Qed.

Lemma wf2_run its : forall os, wf2 os -> wf2 (fst (run its os)).
Proof.
  induction its as [|[now body] its IH]; intros os Hwf; [done|].
  cbn [run]. pose proof (wf2_iteration now body os Hwf) as Hit.
  destruct (iteration now body os) as [os1 d]. cbn [fst] in Hit.
  specialize (IH os1 Hit). by destruct (run its os1).
Qed.

End Invariants_V2.

(** ** A sleeping task stays asleep until its wake time *)

Section Sleeping.
Import V2.

Lemma sleeping_upd_same k f os i w :
  (forall x, state (f x) = state x /\ sleepUntil (f x) = sleepUntil x) ->
  sleeping i w os -> sleeping i w (upd k f os).
Proof.
  intros Hf (Hi & Hst & Hw). unfold sleeping. rewrite task_upd.
  split; [done|]. case_decide as Hk; [|done].
  destruct Hk as [-> _]. destruct (Hf (task os i)) as [-> ->]. done.
Qed.

Lemma sleeping_upd_ne k f os i w :
  k <> i -> sleeping i w os -> sleeping i w (upd k f os).
Proof.
  intros Hne (Hi & Hst & Hw). unfold sleeping. rewrite task_upd.
  split; [done|]. case_decide as Hk; [|done]. by destruct Hk.
Qed.

Lemma cur_call c os : cur (call c os) = cur os.
Proof.
  destruct c; cbn [call]; unfold sleep, suspendTask, resumeTask, sendMessage,
    receiveMessage, add; repeat case_match; done.
Qed.

Lemma cur_calls cs : forall os, cur (calls cs os) = cur os.
Proof.
  unfold calls. induction cs as [|c cs IH]; intros os; [done|].
  cbn. by rewrite IH, cur_call.
Qed.

(** [suspendTask] and [resumeTask] leave a sleeping task asleep, whoever
    makes the call. *)
Lemma sleeping_suspendTask k os i w :
  sleeping i w os -> sleeping i w (snd (suspendTask k os)).
Proof.
  intros Hs. unfold suspendTask. destruct (k <? n os)%nat; [|done].
  cbn [snd]. destruct (negb _) eqn:Hst; [|done].
  apply sleeping_upd_ne; [|done]. intros ->.
  destruct Hs as (_ & Hw & _). unfold task in *. cbn in Hst.
  rewrite Hw in Hst. done.
Qed.

Lemma sleeping_resumeTask k os i w :
  sleeping i w os -> sleeping i w (snd (resumeTask k os)).
Proof.
  intros Hs. unfold resumeTask. destruct (k <? n os)%nat; [|done].
  cbn [snd]. destruct (_ =? _) eqn:Hst; [|done].
  apply sleeping_upd_ne; [|done]. intros ->.
  destruct Hs as (_ & Hw & _). unfold task in *. cbn in Hst.
  rewrite Hw in Hst. done.
Qed.

(** A call of the interface leaves a sleeping task asleep, unless it is
    that task calling [sleep] again. *)
Lemma sleeping_call c os i w :
  cur os <> i \/ is_sleep c = false ->
  sleeping i w os -> sleeping i w (call c os).
Proof.
  intros Hc Hs. destruct c; cbn [call].
  - destruct Hc as [Hc|Hc]; [|done]. unfold sleep.
    by apply sleeping_upd_ne.
  - by apply sleeping_suspendTask.
  - by apply sleeping_resumeTask.
  - unfold sendMessage. destruct (_ || _); [done|].
    destruct (pending _); [done|]. by apply sleeping_upd_same.
  - unfold receiveMessage. destruct (negb _); [done|].
    by apply sleeping_upd_same.
  - unfold add. destruct (Nat.leb_spec MAX_TASKS (n os)); [done|].
    cbn [snd]. destruct Hs as (Hi & Hst & Hw).
    assert (Hs' : sleeping i w os) by done.
    eapply (sleeping_upd_ne (n os)) in Hs'; [|lia].
    destruct Hs' as (_ & Hst' & Hw'). split; [cbn; lia|]. split; [exact Hst'|exact Hw'].
Qed.

Lemma sleeping_calls cs : forall os i w,
  cur os <> i \/ forallb (fun c => negb (is_sleep c)) cs = true ->
  sleeping i w os -> sleeping i w (calls cs os).
Proof.
  unfold calls. induction cs as [|c cs IH]; intros os i w Hc Hs; [done|].
  cbn [foldl]. apply IH.
  - rewrite cur_call. destruct Hc as [Hc|Hc]; [by left|right].
    cbn in Hc. by apply andb_true_iff in Hc as [_ Hc].
  - apply sleeping_call; [|done].
    destruct Hc as [Hc|Hc]; [by left|right].
    cbn in Hc. apply andb_true_iff in Hc as [Hc _].
    by apply negb_true_iff in Hc.
Qed.

(** Before the wake time the scan neither wakes nor counts the task. *)
Lemma sleeping_scanned now os i w :
  wf2 os -> now < w -> sleeping i w os ->
  sleeping i w (scanned now os) /\ eligible2 now os i = false.
Proof.
  intros Hwf Hlt (Hi & Hst & Hw).
  assert (Hwake : wake now (task os i) = task os i).
  { unfold wake. rewrite Hst, Hw.
    destruct (Z.geb_spec now w); [lia|]. by rewrite andb_false_r. }
  split.
  - unfold sleeping. rewrite scanned_task by done. rewrite Hwake.
    destruct (scanned_frame now os Hwf) as [-> _]. cbn.
    split; [done|]. by destruct (_ && _).
  - unfold eligible2. rewrite Hwake. unfold due. rewrite Hst.
    cbn. by rewrite andb_false_r.
Qed.

Lemma sleeping_dispatch now b body os i w :
  b <> i -> sleeping i w os -> sleeping i w (dispatch now b body os).
Proof.
  intros Hne Hs. unfold dispatch.
  match goal with |- sleeping i w (set_ctxSw _ ?o) =>
    assert (Ho : sleeping i w o) end; [|done].
  match goal with |- sleeping i w (if _ then upd _ _ ?o else ?o) =>
    assert (Ho : sleeping i w o /\ cur o = b) end.
  { split; [|by rewrite cur_calls].
    apply sleeping_calls; [by left|]. by apply sleeping_upd_ne. }
  destruct Ho as [Ho Hcur]. destruct (_ =? _); [|done].
  apply sleeping_upd_ne; [|done]. by rewrite Hcur.
Qed.

Lemma sleeping_iteration now body os i w :
  wf2 os -> now < w -> sleeping i w os ->
  sleeping i w (fst (iteration now body os)) /\
  snd (iteration now body os) <> Some i.
Proof.
  intros Hwf Hlt Hs.
  destruct (sleeping_scanned now os i w Hwf Hlt Hs) as [Hs' Hel].
  unfold iteration. pose proof (selected2_spec now os Hwf) as Hspec.
  destruct (selected now os) as [b|]; cbn [fst snd]; [|done].
  destruct Hspec as [[Hb _] _].
  assert (b <> i) by (intros ->; congruence).
  split; [by apply sleeping_dispatch | congruence].
Qed.

Lemma sleeping_run its : forall os i w,
  wf2 os -> Forall (fun it => fst it < w) its -> sleeping i w os ->
  sleeping i w (fst (run its os)) /\
  Forall (fun d => d <> Some i) (snd (run its os)).
Proof.
  induction its as [|[now body] its IH]; intros os i w Hwf Hlt Hs.
  - by split.
  - apply Forall_cons in Hlt as [Hnow Hlt]. cbn [fst] in Hnow. cbn [run].
    destruct (sleeping_iteration now body os i w Hwf Hnow Hs) as [Hs1 Hd].
    pose proof (wf2_iteration now body os Hwf) as Hwf1.
    destruct (iteration now body os) as [os1 d]. cbn [fst snd] in *.
    destruct (IH os1 i w Hwf1 Hlt Hs1) as [Hs2 Hds].
    destruct (run its os1) as [os2 ds]. cbn [fst snd] in *.
    split; [done|]. by apply Forall_cons.
Qed.

End Sleeping.

Section Sleep_call.
Import V2.

Lemma n_call c os : (n os <= n (call c os))%nat.
Proof.
  destruct c; cbn [call]; unfold sleep, suspendTask, resumeTask, sendMessage,
    receiveMessage, add; repeat case_match; cbn; lia.
Qed.

Lemma n_calls cs : forall os, (n os <= n (calls cs os))%nat.
Proof.
  unfold calls. induction cs as [|c cs IH]; intros os; [done|].
  cbn. pose proof (n_call c os). specialize (IH (call c os)). lia.
Qed.




(** At or after the wake time the scan of an iteration returns a task that
    is not suspended to READY, clears its wake time, and counts it if its
    period has elapsed. *)
Lemma sleeping_wakes now os i w :
  wf2 os -> w <= now -> sleeping i w os -> suspended os i = false ->
  state (task (scanned now os) i) = T_READY /\
  sleepUntil (task (scanned now os) i) = 0 /\
  eligible2 now os i =
    (u32 (now - last (task os i)) >=? period (task os i)).
Proof.
  intros Hwf Hle (Hi & Hst & Hw) Hsus.
  assert (Hwake : wake now (task os i) =
                  set_sleepUntil 0 (set_state T_READY (task os i))).
  { unfold wake. rewrite Hst, Hw.
    destruct (Z.geb_spec now w); [done|lia]. }
  rewrite scanned_task by done. unfold eligible2. rewrite Hwake, Hsus.
  destruct (Nat.ltb_spec i (n os)); [|lia]. by cbn.
Qed.

End Sleep_call.



(** ** Suspend and resume *)

Section Suspend_resume.
Import V2.

Lemma suspendTask_waiting i os :
  (i < n os)%nat -> state (task os i) = T_WAIT ->
  suspendTask i os =
    (0, set_suspendFlags
          (u8 (Z.lor (suspendFlags os) (Z.shiftl 1 (Z.of_nat i)))) os).
Proof.
  intros Hi Hst. unfold suspendTask.
  destruct (Nat.ltb_spec i (n os)); [|lia].
  unfold task in *. cbn. by rewrite Hst.
Qed.

Lemma resumeTask_not_suspended i os :
  (i < n os)%nat -> state (task os i) <> T_SUSPENDED ->
  resumeTask i os =
    (0, set_suspendFlags
          (u8 (Z.land (suspendFlags os) (Z.lnot (Z.shiftl 1 (Z.of_nat i)))))
          os).
Proof.
  intros Hi Hst. unfold resumeTask.
  destruct (Nat.ltb_spec i (n os)); [|lia].
  unfold task in *. cbn. by destruct (Z.eqb_spec (state (t os !!! i)) T_SUSPENDED).
Qed.

Lemma resumeTask_suspended i os :
  (i < n os)%nat -> state (task os i) = T_SUSPENDED ->
  resumeTask i os =
    (0, upd i (set_state T_READY)
          (set_suspendFlags
             (u8 (Z.land (suspendFlags os)
                         (Z.lnot (Z.shiftl 1 (Z.of_nat i))))) os)).
Proof.
  intros Hi Hst. unfold resumeTask.
  destruct (Nat.ltb_spec i (n os)); [|lia].
  unfold task in *. cbn. by rewrite Hst.
Qed.

Lemma suspended_after_suspendTask i os :
  wf2 os -> (i < n os)%nat -> suspended (snd (suspendTask i os)) i = true.
Proof.
  intros (_ & Hn & _) Hi.
  assert (Hflags : suspendFlags (snd (suspendTask i os)) =
            u8 (Z.lor (suspendFlags os) (Z.shiftl 1 (Z.of_nat i)))).
  { unfold suspendTask. destruct (Nat.ltb_spec i (n os)); [|lia].
    cbn [snd]. by destruct (negb _). }
  rewrite suspended2_testbit, Hflags, testbit_set
    by (unfold MAX_TASKS in Hn; lia).
  rewrite bool_decide_eq_true_2 by done. apply orb_true_r.
Qed.

Lemma suspended_after_resumeTask i os :
  wf2 os -> (i < n os)%nat -> suspended (snd (resumeTask i os)) i = false.
Proof.
  intros (_ & Hn & _) Hi.
  assert (Hflags : suspendFlags (snd (resumeTask i os)) =
            u8 (Z.land (suspendFlags os) (Z.lnot (Z.shiftl 1 (Z.of_nat i))))).
  { unfold resumeTask. destruct (Nat.ltb_spec i (n os)); [|lia].
    cbn [snd]. by destruct (_ =? _). }
  rewrite suspended2_testbit, Hflags, testbit_clear
    by (unfold MAX_TASKS in Hn; lia).
  rewrite bool_decide_eq_true_2 by done. apply andb_false_r.
Qed.

(** The scan skips a suspended task: it is neither woken nor selected. *)
Lemma suspended_skipped now os i :
  wf2 os -> suspended os i = true ->
  task (scanned now os) i = task os i /\ selected now os <> Some i.
Proof.
  intros Hwf Hsus. split.
  - rewrite scanned_task by done. rewrite Hsus. by rewrite andb_false_r.
  - pose proof (selected2_spec now os Hwf) as Hspec. intros Hsel.
    rewrite Hsel in Hspec. destruct Hspec as [[Hel _] _].
    unfold eligible2 in Hel. rewrite Hsus in Hel.
    by rewrite andb_false_r in Hel.
Qed.

End Suspend_resume.

(** C7. For a registered task [i] that is WAITING with wake time [w]:
    [suspendTask(i)] returns 0, sets the suspend bit of [i] and leaves the
    table, so the state and the wake time of the task, as they were; while
    the bit is set no scan wakes or selects the task.  A following
    [resumeTask(i)] returns 0, clears the bit and leaves the table as it
    was; after it the task is still not dispatched in any run of
    iterations that read a time below [w], and it returns to READY in an
    iteration that reads a time at or after [w].  For any registered task,
    [resumeTask] moves a SUSPENDED task to READY, and for a task in any
    other state it changes nothing but the suspend mask. *)
Theorem suspend_keeps_wake_time os i w :
  wf2 os -> sleeping i w os ->
  fst (V2.suspendTask i os) = 0 /\
  V2.suspended (snd (V2.suspendTask i os)) i = true /\
  V2.t (snd (V2.suspendTask i os)) = V2.t os /\
  (forall now,
      V2.task (V2.scanned now (snd (V2.suspendTask i os))) i = V2.task os i /\
      V2.selected now (snd (V2.suspendTask i os)) <> Some i) /\
  fst (V2.resumeTask i (snd (V2.suspendTask i os))) = 0 /\
  V2.suspended (snd (V2.resumeTask i (snd (V2.suspendTask i os)))) i = false /\
  V2.t (snd (V2.resumeTask i (snd (V2.suspendTask i os)))) = V2.t os /\
  (forall its,
      Forall (fun it => fst it < w) its ->
      Forall (fun x => x <> Some i)
        (snd (V2.run its (snd (V2.resumeTask i (snd (V2.suspendTask i os))))))
      /\ sleeping i w
           (fst (V2.run its (snd (V2.resumeTask i (snd (V2.suspendTask i os))))))) /\
  (forall now,
      w <= now ->
      V2.state
        (V2.task (V2.scanned now
                    (snd (V2.resumeTask i (snd (V2.suspendTask i os))))) i)
        = V2.T_READY) /\
  (forall os' j,
      (j < V2.n os')%nat ->
      (V2.state (V2.task os' j) = V2.T_SUSPENDED ->
       wf2 os' ->
       V2.state (V2.task (snd (V2.resumeTask j os')) j) = V2.T_READY /\
       V2.suspended (snd (V2.resumeTask j os')) j = false) /\
      (V2.state (V2.task os' j) <> V2.T_SUSPENDED ->
       V2.resumeTask j os' =
         (0, V2.set_suspendFlags
               (u8 (Z.land (V2.suspendFlags os')
                           (Z.lnot (Z.shiftl 1 (Z.of_nat j))))) os'))).
Proof.
  intros Hwf Hs. pose proof Hs as (Hi & Hst & Hw).
  pose proof (suspended_after_suspendTask i os Hwf Hi) as Hsus.
  pose proof (wf2_suspendTask i os Hwf) as Hwf1.
  pose proof (sleeping_suspendTask i os i w Hs) as Hs1.
  assert (Ht1 : V2.t (snd (V2.suspendTask i os)) = V2.t os)
    by by rewrite suspendTask_waiting.
  set (os1 := snd (V2.suspendTask i os)) in *.
  pose proof (suspended_after_resumeTask i os1 Hwf1 (proj1 Hs1)) as Hres.
  pose proof (wf2_resumeTask i os1 Hwf1) as Hwf2.
  pose proof (sleeping_resumeTask i os1 i w Hs1) as Hs2.
  assert (Hne : V2.state (V2.task os1 i) <> V2.T_SUSPENDED).
  { destruct Hs1 as (_ & -> & _). done. }
  assert (Ht2 : V2.t (snd (V2.resumeTask i os1)) = V2.t os).
  { rewrite resumeTask_not_suspended by (done || apply Hs1). by cbn. }
  set (os2 := snd (V2.resumeTask i os1)) in *.
  split; [by rewrite suspendTask_waiting|].
  split; [done|]. split; [done|]. split.
  { intros now. destruct (suspended_skipped now os1 i Hwf1 Hsus) as [Htk Hsel].
    split; [|done]. rewrite Htk. unfold V2.task. by rewrite Ht1. }
  split; [unfold os1; by rewrite resumeTask_not_suspended by (done || apply Hs1)|].
  split; [done|]. split; [done|]. split.
  { intros its Hits.
    destruct (sleeping_run its os2 i w Hwf2 Hits Hs2). by split. }
  split.
  { intros now Hnow.
    by destruct (sleeping_wakes now os2 i w Hwf2 Hnow Hs2 Hres). }
  intros os' j Hj. split.
  - intros Hsusp Hwf'. split.
    + rewrite resumeTask_suspended by done. cbn [snd]. rewrite task_upd.
      case_decide as Hk; [done|]. exfalso. apply Hk. split; [done|].
      destruct Hwf' as (Hlen & Hn & _). cbn. lia.
    + by apply suspended_after_resumeTask.
  - intros Hnot. by apply resumeTask_not_suspended.
Qed.

(** ** Mailboxes *)

Lemma arduino_min_min a b : V2.arduino_min a b = Z.min a b.
Proof. unfold V2.arduino_min. destruct (Z.ltb_spec a b); lia. Qed.

Lemma memcpy_prefix dst src k :
  (Z.to_nat k <= length src)%nat ->
  take (Z.to_nat k) (memcpy dst src k) = take (Z.to_nat k) src /\
  drop (Z.to_nat k) (memcpy dst src k) = drop (Z.to_nat k) dst.
Proof.
  intros Hk. unfold memcpy.
  assert (Hlen : length (take (Z.to_nat k) src) = Z.to_nat k)
    by (rewrite length_take; lia).
  split.
  - by rewrite take_app_length'.
  - by rewrite drop_app_length'.
Qed.

(** C5. [sendMessage] returns -1 (invalid parameters) when the target is
    not a registered task and when the size is above 8, and -2 (queue full)
    when the parameters are valid and the mailbox of the target holds a
    pending message; in each of these cases the kernel it gives back is the
    kernel it was given, so the type, data, size and pending flag of every
    mailbox are as before.  Whatever the arguments, a call on a target
    whose message is pending returns an error and changes nothing. *)
Theorem send_rejects_unchanged taskId msgType src sz os :
  ((V2.n os <= taskId)%nat ->
     V2.sendMessage taskId msgType src sz os = (-1, os)) /\
  (8 < sz -> V2.sendMessage taskId msgType src sz os = (-1, os)) /\
  ((taskId < V2.n os)%nat -> sz <= 8 ->
     V2.pending (V2.message (V2.task os taskId)) = true ->
     V2.sendMessage taskId msgType src sz os = (-2, os)) /\
  (V2.pending (V2.message (V2.task os taskId)) = true ->
     fst (V2.sendMessage taskId msgType src sz os) < 0 /\
     snd (V2.sendMessage taskId msgType src sz os) = os).
Proof.
  unfold V2.sendMessage. repeat split.
  - intros Hid. destruct (Nat.leb_spec (V2.n os) taskId); [done|lia].
  - intros Hsz. destruct (Z.gtb_spec sz 8); [|lia]. by rewrite orb_true_r.
  - intros Hid Hsz Hpend.
    destruct (Nat.leb_spec (V2.n os) taskId); [lia|].
    destruct (Z.gtb_spec sz 8); [lia|]. cbn. by rewrite Hpend.
  - destruct (_ || _); [done|]. by rewrite H.
  - destruct (_ || _); [done|]. by rewrite H.
Qed.

(** C6. [receiveMessage] reads the mailbox of the current task.  With no
    message pending it returns 0 and changes neither the kernel nor the
    caller's variables.  With a message of stored size [s] pending it
    returns min(maxSize, s), stores the type tag in [*msgType], replaces
    exactly the first min(maxSize, s) bytes of the caller's buffer by the
    first bytes of the payload, clears the pending flag and keeps the rest
    of the mailbox, so that the next [receiveMessage] returns 0. *)
Theorem receive_once mt buf maxSize os :
  (V2.pending (V2.message (V2.task os (V2.cur os))) = false ->
     V2.receiveMessage mt buf maxSize os = (0, mt, buf, os)) /\
  (V2.pending (V2.message (V2.task os (V2.cur os))) = true ->
   wf2 os -> mailbox_ok (V2.message (V2.task os (V2.cur os))) ->
   let m := V2.message (V2.task os (V2.cur os)) in
   let r := V2.receiveMessage mt buf maxSize os in
   let c := Z.min maxSize (V2.size m) in
   r.1.1.1 = c /\
   r.1.1.2 = V2.type m /\
   take (Z.to_nat c) r.1.2 = take (Z.to_nat c) (V2.data m) /\
   drop (Z.to_nat c) r.1.2 = drop (Z.to_nat c) buf /\
   V2.message (V2.task r.2 (V2.cur r.2)) =
     V2.mkMessage (V2.type m) (V2.data m) (V2.size m) false /\
   forall mt' buf' maxSize',
     V2.receiveMessage mt' buf' maxSize' r.2 = (0, mt', buf', r.2)).
Proof.
  split.
  - intros Hpend. unfold V2.receiveMessage. by rewrite Hpend.
  - intros Hpend Hwf [Hlen Hsz]. cbn zeta. unfold V2.receiveMessage.
    rewrite Hpend. cbn [negb fst snd]. rewrite arduino_min_min.
    set (m := V2.message (V2.task os (V2.cur os))) in *.
    set (c := Z.min maxSize (V2.size m)).
    destruct (memcpy_prefix buf (V2.data m) c ltac:(lia)) as [Htake Hdrop].
    assert (Hmsg :
      V2.message
        (V2.task (V2.upd (V2.cur os)
           (V2.set_message
              (V2.mkMessage (V2.type m) (V2.data m) (V2.size m) false)) os)
           (V2.cur os)) =
      V2.mkMessage (V2.type m) (V2.data m) (V2.size m) false).
    { rewrite task_upd. case_decide as Hk; [done|]. exfalso. apply Hk.
      destruct Hwf as (Hl & _ & Hcur & _). split; [done|lia]. }
    repeat split; try done.
    intros mt' buf' maxSize'. cbn [V2.cur V2.upd V2.set_t] in *.
    change (V2.cur (V2.upd ?i ?f os)) with (V2.cur os). by rewrite Hmsg.
Qed.

(** ** Time comparisons *)

(** C8.  Where the claim fails.  A task that sleeps 100 ms when the
    counter reads 2^32 - 10 gets the wake time 90 and is dispatched again
    in the iteration that reads 2^32 - 9, one millisecond later.  A task of
    period 100 dispatched when the counter reads 70000 has 4464 stored as
    its last dispatch and is dispatched again at 70001; dispatched at
    2^32 - 10, it is dispatched again when the wrapped counter reads 5,
    fifteen milliseconds later. *)
Theorem wrapped_time_misjudged :
  V2.sleepUntil
    (V2.task (V2.sleep (2 ^ 32 - 10) 100 (one_task 0)) 0) = 90 /\
  snd (V2.run [(2 ^ 32 - 10, fun _ => [V2.CSleep (2 ^ 32 - 10) 100]);
               (2 ^ 32 - 9, fun _ => [])] (one_task 0))
    = [Some 0%nat; Some 0%nat] /\
  snd (V2.run [(70000, fun _ => []); (70001, fun _ => [])] (one_task 100))
    = [Some 0%nat; Some 0%nat] /\
  snd (V2.run [(2 ^ 32 - 10, fun _ => []); (5, fun _ => [])] (one_task 100))
    = [Some 0%nat; Some 0%nat].
Proof. by vm_compute. Qed.

Lemma u32_sub_back (a e : Z) :
  0 <= e < 2 ^ 32 -> u32 (u32 (a + e) - a) = e.
Proof.
  intros He. unfold u32, wrap.
  rewrite Zminus_mod_idemp_l. replace (a + e - a) with e by lia.
  by apply Z.mod_small.
Qed.

(** The ranges in which the two tests are right.  The period test compares
    the true elapsed time [e] with the period, also when the 32-bit counter
    has wrapped in between, provided the counter value [td] of the last
    dispatch was below 2^16, so that the 16-bit field holds it.  The sleep
    test wakes the task exactly when the elapsed time [e] has reached the
    duration [d], provided neither the wake time [t0 + d] nor the current
    time [t0 + e] has passed 2^32. *)
Lemma time_tests_in_range :
  (forall x td e,
      V2.state x = V2.T_READY -> V2.last x = u16 td ->
      0 <= td < 2 ^ 16 -> 0 <= e < 2 ^ 32 ->
      V2.due (u32 (td + e)) x = (e >=? V2.period x)) /\
  (forall x t0 d e,
      V2.state x = V2.T_WAIT -> V2.sleepUntil x = u32 (t0 + d) ->
      0 <= t0 -> 0 <= d -> 0 <= e ->
      t0 + d < 2 ^ 32 -> t0 + e < 2 ^ 32 ->
      V2.state (V2.wake (u32 (t0 + e)) x) =
        if e >=? d then V2.T_READY else V2.T_WAIT).
Proof.
  split.
  - intros x td e Hst Hlast Htd He. unfold V2.due. rewrite Hst, Hlast.
    replace (u16 td) with td by (unfold u16, wrap; by rewrite Z.mod_small).
    by rewrite u32_sub_back.
  - intros x t0 d e Hst Hw H0 Hd He Hwake Hnow. unfold V2.wake.
    rewrite Hst, Hw. unfold u32, wrap. rewrite !Z.mod_small by lia.
    cbn [andb Z.eqb V2.T_WAIT Pos.eqb].
    destruct (Z.geb_spec (t0 + e) (t0 + d)), (Z.geb_spec e d);
      (done || lia).
Qed.

(** Once the counter has passed 2^16 at a dispatch, the period test passes
    at every later reading below 2^32, whatever the period. *)
Lemma period_ignored_after_16_bits x td e :
  V2.state x = V2.T_READY -> V2.last x = u16 td ->
  2 ^ 16 <= td -> 0 <= e -> td + e < 2 ^ 32 ->
  0 <= V2.period x < 2 ^ 16 ->
  V2.due (td + e) x = true.
Proof.
  intros Hst Hlast Htd He Hnow Hper. unfold V2.due.
  rewrite Hst, Hlast. cbn [andb Z.eqb V2.T_READY Pos.eqb].
  apply Z.geb_le. unfold u16, u32, wrap.
  change (2 ^ 16) with 65536 in *. change (2 ^ 32) with 4294967296 in *.
  pose proof (Z.mod_pos_bound td 65536 ltac:(lia)) as Hr.
  pose proof (Z.div_mod td 65536 ltac:(lia)) as Hq.
  assert (1 <= td / 65536) by (apply Z.div_le_lower_bound; lia).
  rewrite Z.mod_small by lia. lia.
Qed.

(** The runtime-budget test of [shouldYield] is a difference of two
    32-bit values and is right across a wrap of the counter. *)
Lemma shouldYield_wrap_safe os start e :
  V2.startRun (V2.task os (V2.cur os)) = start ->
  0 <= e < 2 ^ 32 ->
  V2.shouldYield (u32 (start + e)) os = (V2.TASK_MAX_RUNTIME_MS <? e).
Proof.
  intros Hstart He. unfold V2.shouldYield.
  by rewrite Hstart, u32_sub_back.
Qed.

(** ** The bus manager *)

Lemma writes_nil pin v : writes pin v [] = 0%nat.
Proof. done. Qed.

Lemma writes_cons pin v q u tr :
  writes pin v ((q, u) :: tr) =
  ((if decide ((q, u) = (pin, v)) then 1 else 0) + writes pin v tr)%nat.
Proof. unfold writes. rewrite filter_cons. by case_decide. Qed.

Lemma drop_own_length {A} (l k : list A) : drop (length l) (l ++ k) = k.
Proof. by rewrite drop_app_length. Qed.

(** What one [select] does, in either variant. *)
Lemma choose_spec M :
  M = spi1 \/ M = spi2 ->
  forall (d : Z) (b : bus M),
    (current M b = d -> choose M d b = b) /\
    (current M b <> d ->
       current M (choose M d b) = d /\
       trace (wires M (choose M d b)) =
         trace (wires M b) ++ [(current M b, HIGH); (d, LOW)] /\
       latch (wires M (choose M d b)) =
         <[d := LOW]> (<[current M b := HIGH]> (latch (wires M b)))).
Proof.
  intros [-> | ->] d b; cbn; unfold V1.select, V2.sel; split.
  - intros ->. by rewrite Z.eqb_refl.
  - intros Hne. destruct (Z.eqb_spec (V1.currentDevice b) d); [done|].
    cbn. by rewrite <- app_assoc.
  - intros ->. by rewrite Z.eqb_refl.
  - intros Hne. destruct (Z.eqb_spec (V2.dev b) d); [done|].
    cbn. by rewrite <- app_assoc.
Qed.

(** What [deselect] does, in either variant. *)
Lemma release_spec M :
  M = spi1 \/ M = spi2 ->
  forall b : bus M,
    current M (release M b) = current M b /\
    trace (wires M (release M b)) =
      trace (wires M b) ++ [(4, HIGH); (10, HIGH)] /\
    latch (wires M (release M b)) =
      <[10 := HIGH]> (<[4 := HIGH]> (latch (wires M b))).
Proof.
  intros [-> | ->] b; cbn; unfold V1.deselect, V2.desel; cbn;
    by rewrite <- app_assoc.
Qed.

(** C9, as stated, fails: with device 10 already selected, the sequence
    select(10); select(4); select(10) asserts device 10 once, not twice,
    because the first call is coalesced. *)
Lemma reselect_asserts_once :
  V2.dev (V2.sel 10 V2.bus_init) = 10 /\
  made spi2 (V2.sel 10 V2.bus_init)
       (V2.sel 10 (V2.sel 4 (V2.sel 10 (V2.sel 10 V2.bus_init))))
    = [(10, HIGH); (4, LOW); (4, HIGH); (10, LOW)] /\
  writes 10 LOW
    (made spi2 (V2.sel 10 V2.bus_init)
       (V2.sel 10 (V2.sel 4 (V2.sel 10 (V2.sel 10 V2.bus_init)))))
    = 1%nat.
Proof. by vm_compute. Qed.

(** C9, amended.  In either variant, for devices [A <> B]: from a state
    whose recorded device is not [A], the sequence select(A); select(B);
    select(A) writes LOW to [A] exactly twice (from a state that records
    [A] the first call is coalesced and it does so once); a select of the
    recorded device changes nothing and writes nothing; and a select of
    another device writes HIGH to the recorded device, then LOW to the new
    one, and records the new one. *)
Theorem select_sequence M A B (b : bus M) :
  M = spi1 \/ M = spi2 ->
  A <> B ->
  (current M b <> A ->
     writes A LOW (made M b (choose M A (choose M B (choose M A b))))
       = 2%nat) /\
  (current M b = A ->
     writes A LOW (made M b (choose M A (choose M B (choose M A b))))
       = 1%nat) /\
  choose M B (choose M B b) = choose M B b /\
  made M (choose M B b) (choose M B (choose M B b)) = [] /\
  (forall d, current M b <> d ->
     made M b (choose M d b) = [(current M b, HIGH); (d, LOW)] /\
     current M (choose M d b) = d).
Proof.
  intros HM HAB.
  assert (Hsame : forall d (x : bus M), current M (choose M d x) = d).
  { intros d x. destruct (choose_spec M HM d x) as [Heq Hne].
    destruct (decide (current M x = d)) as [Hd|Hd].
    - by rewrite Heq.
    - by destruct (Hne Hd). }
  assert (Htr : forall d (x : bus M), current M x <> d ->
            trace (wires M (choose M d x)) =
            trace (wires M x) ++ [(current M x, HIGH); (d, LOW)]).
  { intros d x Hd. destruct (choose_spec M HM d x) as [_ Hne].
    by destruct (Hne Hd) as (_ & ? & _). }
  assert (Hidle : forall d (x : bus M), current M x = d -> choose M d x = x).
  { intros d x Hd. destruct (choose_spec M HM d x) as [Heq _].
    by apply Heq. }
  assert (Hlow : forall q, writes A LOW [(q, HIGH)] = 0%nat).
  { intros q. rewrite writes_cons, decide_False by congruence. done. }
  repeat split.
  - intros Hcur. unfold made.
    rewrite (Htr A (choose M B (choose M A b))) by (rewrite Hsame; congruence).
    rewrite (Htr B (choose M A b)) by (rewrite Hsame; congruence).
    rewrite (Htr A b) by done. rewrite !Hsame.
    rewrite <- !app_assoc, drop_own_length. cbn [app].
    rewrite !writes_cons, writes_nil.
    rewrite (decide_False (P := (current M b, HIGH) = (A, LOW))) by congruence.
    rewrite (decide_True (P := (A, LOW) = (A, LOW))) by done.
    rewrite (decide_False (P := (A, HIGH) = (A, LOW))) by congruence.
    rewrite (decide_False (P := (B, LOW) = (A, LOW))) by congruence.
    rewrite (decide_False (P := (B, HIGH) = (A, LOW))) by congruence.
    done.
  - intros Hcur. unfold made. rewrite (Hidle A b Hcur).
    rewrite (Htr A (choose M B b)) by (rewrite Hsame; congruence).
    rewrite (Htr B b) by congruence. rewrite !Hsame, Hcur.
    rewrite <- !app_assoc, drop_own_length. cbn [app].
    rewrite !writes_cons, writes_nil.
    rewrite (decide_True (P := (A, LOW) = (A, LOW))) by done.
    rewrite (decide_False (P := (A, HIGH) = (A, LOW))) by congruence.
    rewrite (decide_False (P := (B, LOW) = (A, LOW))) by congruence.
    rewrite (decide_False (P := (B, HIGH) = (A, LOW))) by congruence.
    done.
  - apply Hidle, Hsame.
  - unfold made. rewrite (Hidle B (choose M B b)) by apply Hsame.
    by rewrite drop_all.
  - unfold made. rewrite Htr by done. apply drop_own_length.
  - apply Hsame.
Qed.

(** C10.  In either variant [deselect] writes HIGH to pins 4 and 10 and
    keeps the recorded device; a select of the recorded device right
    after it returns the bus as it is, with no write made, so both lines
    stay HIGH and the device is not asserted. *)
Theorem deselect_keeps_record M (b : bus M) :
  M = spi1 \/ M = spi2 ->
  current M (release M b) = current M b /\
  made M b (release M b) = [(4, HIGH); (10, HIGH)] /\
  choose M (current M b) (release M b) = release M b /\
  made M (release M b) (choose M (current M b) (release M b)) = [] /\
  latch (wires M (choose M (current M b) (release M b))) !! 4 = Some HIGH /\
  latch (wires M (choose M (current M b) (release M b))) !! 10 = Some HIGH.
Proof.
  intros HM. destruct (release_spec M HM b) as (Hcur & Htr & Hlatch).
  assert (Hidle : choose M (current M b) (release M b) = release M b).
  { destruct (choose_spec M HM (current M b) (release M b)) as [Heq _].
    by apply Heq. }
  rewrite Hidle. repeat split; try done.
  - unfold made. rewrite Htr. apply drop_own_length.
  - unfold made. by rewrite drop_all.
  - rewrite Hlatch. rewrite lookup_insert_ne by done.
    by rewrite lookup_insert_eq.
  - rewrite Hlatch. by rewrite lookup_insert_eq.
Qed.

(** ** The mailboxes stay well formed *)

Section Mailboxes.
Import V2.

Lemma boxes_ok_init : boxes_ok init.
Proof.
  unfold boxes_ok, init, MAX_TASKS. cbn.
  apply Forall_forall. intros x Hx.
  repeat (apply elem_of_cons in Hx as [->|Hx]; [by split|]).
  by apply elem_of_nil in Hx.
Qed.

Lemma boxes_ok_upd i f os :
  (forall x, mailbox_ok (message x) -> mailbox_ok (message (f x))) ->
  boxes_ok os -> boxes_ok (upd i f os).
Proof.
  intros Hf Hok. unfold boxes_ok, upd. cbn.
  apply Forall_alter; [done|]. intros x _. apply Hf.
Qed.

Lemma boxes_ok_add f p pr os : boxes_ok os -> boxes_ok (snd (add f p pr os)).
Proof.
  intros Hok. unfold add. destruct (MAX_TASKS <=? n os)%nat; [done|].
  cbn [snd]. apply (boxes_ok_upd (n os)); [|done]. by intros x [? ?].
Qed.

(** [sendMessage] keeps them so when the caller's buffer holds the [sz]
    bytes it announces. *)
Lemma boxes_ok_sendMessage k mt src sz os :
  (Z.to_nat sz <= length src)%nat ->
  boxes_ok os -> boxes_ok (snd (sendMessage k mt src sz os)).
Proof.
  intros Hsrc Hok. unfold sendMessage.
  destruct (Nat.leb_spec (n os) k); [done|].
  destruct (Z.gtb_spec sz 8); [done|]. cbn [orb].
  destruct (pending _); [done|]. cbn [snd].
  apply boxes_ok_upd; [|done]. intros x [Hlen Hsz].
  split; [|done]. cbn. unfold memcpy.
  rewrite length_app, length_take, length_drop. lia.
Qed.

Lemma boxes_ok_receiveMessage mt buf mx os :
  wf2 os -> boxes_ok os -> boxes_ok (snd (receiveMessage mt buf mx os)).
Proof.
  intros (Hlen & _ & Hcur & _) Hok. unfold receiveMessage.
  destruct (negb _); [done|]. cbn [snd].
  apply boxes_ok_upd; [|done]. intros x _. cbn.
  assert (Hin : t os !! cur os = Some (task os (cur os))).
  { apply list_lookup_lookup_total_lt. lia. }
  by apply (Forall_lookup_1 _ _ _ _ Hok Hin).
Qed.

End Mailboxes.

(** ** The model run on small inputs *)

(** The scenario of the three tasks: A is dispatched first and sleeps; B
    is dispatched while A sleeps; A is dispatched again at time 100. *)
Example three_tasks_run :
  snd (V2.run [(0, a_sleeps 0); (50, a_sleeps 50); (100, a_sleeps 100)]
              three_tasks)
    = [Some 0%nat; Some 1%nat; Some 0%nat].
Proof. by vm_compute. Qed.

(** With every task asleep or suspended the iteration dispatches nothing. *)
Example nothing_to_run :
  snd (V2.run [(0, a_sleeps 0); (1, a_sleeps 1)]
              (snd (V2.suspendTask 2 (snd (V2.suspendTask 1 three_tasks)))))
    = [Some 0%nat; None].
Proof. by vm_compute. Qed.

(** A message sent to task 1 is rejected until task 1 has received it. *)
Example send_receive_send :
  let os1 := snd (V2.sendMessage 1 7 [11; 12; 13] 3 three_tasks) in
  let os2 := V2.set_cur 1 os1 in
  fst (V2.sendMessage 1 8 [21] 1 os1) = -2 /\
  (V2.receiveMessage 0 (replicate 8 0) 8 os2).1.1.1 = 3 /\
  (V2.receiveMessage 0 (replicate 8 0) 8 os2).1.2
    = [11; 12; 13; 0; 0; 0; 0; 0] /\
  fst (V2.sendMessage 1 8 [21] 1
         (V2.receiveMessage 0 (replicate 8 0) 8 os2).2) = 0.
Proof. by vm_compute. Qed.

(** The registrations of the compact variant's [setup()]. *)
Example setup_ids :
  fst (V1.addTask_all
         [(0%nat, 50, V1.PRIORITY_HIGH, 0%nat);
          (1%nat, 500, V1.PRIORITY_LOW, 1%nat);
          (2%nat, 100, V1.PRIORITY_LOW, 2%nat);
          (3%nat, 1000, V1.PRIORITY_HIGH, 3%nat)] V1.init)
    = [0; 1; 2; 3].
Proof. by vm_compute. Qed.

(** * The theorems at concrete inputs *)

Ltac table_shape :=
  unfold wf2; cbn;
  repeat match goal with
         | |- _ /\ _ => split
         | |- Forall _ (_ :: _) => apply Forall_cons
         | |- Forall _ [] => apply Forall_nil
         end;
  first [ reflexivity
        | unfold MAX_TASKS; lia
        | vm_compute; first [reflexivity | discriminate] ].

Lemma wf2_normal_pair : wf2 normal_pair.
Proof. table_shape. Defined.

Lemma registration_capacity_at_seven :
  fst (V2.add_all (replicate 7 (0%nat, 10, 1)) V2.init)
    = [0; 1; 2; 3; 4; 5; -1] /\
  snd (V2.add_all (replicate 7 (0%nat, 10, 1)) V2.init)
    = snd (V2.add_all (replicate 6 (0%nat, 10, 1)) V2.init) /\
  fst (V1.addTask_all (replicate 7 (0%nat, 10, 1, 0%nat)) V1.init)
    = [0; 1; 2; 3; 4; 5; -1].
Proof.
  destruct registration_capacity as (H2 & _ & H1 & _).
  destruct (H2 (replicate 7 (0%nat, 10, 1))) as [Hids Hst].
  destruct (H1 (replicate 7 (0%nat, 10, 1, 0%nat))) as [Hids1 _].
  split; [exact Hids|]. split; [exact Hst|exact Hids1].
Defined.

Lemma tie_break_differs_at_normal_pair :
  wf2 normal_pair /\
  top2 0 normal_pair 0 /\ top2 0 normal_pair 1 /\
  V2.selected 0 normal_pair = Some 1%nat /\
  V1.selected 0 (to_V1 normal_pair) = Some 0%nat.
Proof.
  assert (Hwf : wf2 normal_pair) by exact wf2_normal_pair.
  assert (Hreg : forall i, eligible2 0 normal_pair i = true -> (i < 2)%nat).
  { intros i Hel. unfold eligible2 in Hel.
    apply andb_true_iff in Hel as [Hel _].
    apply andb_true_iff in Hel as [Hel _].
    by apply Nat.ltb_lt in Hel. }
  assert (Hpri : forall i j, (i < 2)%nat -> (j < 2)%nat ->
            V2.pri (V2.task normal_pair j) <= V2.pri (V2.task normal_pair i)).
  { intros i j Hi Hj.
    destruct i as [|[|i]]; [| |lia]; (destruct j as [|[|j]]; [| |lia]);
      vm_compute; discriminate. }
  assert (Htop0 : top2 0 normal_pair 0).
  { split; [by vm_compute|]. intros j Hj. apply Hpri; [lia|by apply Hreg]. }
  assert (Htop1 : top2 0 normal_pair 1).
  { split; [by vm_compute|]. intros j Hj. apply Hpri; [lia|by apply Hreg]. }
  destruct (tie_break_differs 0 normal_pair 0 1 Hwf Htop0
              ltac:(intros; lia) Htop1
              ltac:(intros i [Hi _]; apply Hreg in Hi; lia))
    as (Hsel2 & Hsel1 & _).
  split; [exact Hwf|]. split; [exact Htop0|]. split; [exact Htop1|].
  split; [exact Hsel2|]. apply Hsel1. vm_compute. discriminate.
Defined.


Lemma suspend_keeps_wake_time_at_one_asleep :
  wf2 one_asleep /\ sleeping 1 100 one_asleep /\
  fst (V2.suspendTask 1 one_asleep) = 0 /\
  V2.suspended (snd (V2.suspendTask 1 one_asleep)) 1 = true /\
  V2.t (snd (V2.suspendTask 1 one_asleep)) = V2.t one_asleep /\
  V2.suspended
    (snd (V2.resumeTask 1 (snd (V2.suspendTask 1 one_asleep)))) 1 = false.
Proof.
  assert (Hwf : wf2 one_asleep).
  { vm_compute. table_shape. }
  assert (Hs : sleeping 1 100 one_asleep).
  { unfold sleeping. vm_compute. repeat split; lia. }
  destruct (suspend_keeps_wake_time one_asleep 1 100 Hwf Hs)
    as (Hret & Hbit & Htab & _ & _ & Hclear & _).
  split; [exact Hwf|]. split; [exact Hs|]. split; [exact Hret|].
  split; [exact Hbit|]. split; [exact Htab|exact Hclear].
Defined.

Lemma send_rejects_unchanged_at_one_pending :
  V2.pending (V2.message (V2.task one_pending 1)) = true /\
  V2.sendMessage 1 9 [21] 1 one_pending = (-2, one_pending) /\
  V2.sendMessage 1 9 [21] 9 one_pending = (-1, one_pending) /\
  V2.sendMessage 5 9 [21] 1 one_pending = (-1, one_pending).
Proof.
  assert (Hpend : V2.pending (V2.message (V2.task one_pending 1)) = true)
    by by vm_compute.
  destruct (send_rejects_unchanged 1 9 [21] 1 one_pending)
    as (_ & _ & Hfull & _).
  destruct (send_rejects_unchanged 1 9 [21] 9 one_pending)
    as (_ & Hsize & _).
  destruct (send_rejects_unchanged 5 9 [21] 1 one_pending)
    as (Hid & _).
  split; [exact Hpend|].
  split; [apply Hfull; [vm_compute; lia | lia | exact Hpend]|].
  split; [apply Hsize; lia|]. apply Hid. vm_compute. lia.
Defined.

Lemma receive_once_at_one_pending :
  V2.pending (V2.message (V2.task one_pending (V2.cur one_pending))) = true /\
  wf2 one_pending /\
  mailbox_ok (V2.message (V2.task one_pending (V2.cur one_pending))) /\
  (V2.receiveMessage 0 (replicate 8 0) 2 one_pending).1.1.1 = 2 /\
  take 2 (V2.receiveMessage 0 (replicate 8 0) 2 one_pending).1.2 = [11; 12] /\
  drop 2 (V2.receiveMessage 0 (replicate 8 0) 2 one_pending).1.2
    = replicate 6 0.
Proof.
  assert (Hpend :
    V2.pending (V2.message (V2.task one_pending (V2.cur one_pending))) = true)
    by by vm_compute.
  assert (Hwf : wf2 one_pending).
  { vm_compute. table_shape. }
  assert (Hbox :
    mailbox_ok (V2.message (V2.task one_pending (V2.cur one_pending)))).
  { unfold mailbox_ok. vm_compute. split; [reflexivity|discriminate]. }
  destruct (receive_once 0 (replicate 8 0) 2 one_pending) as [_ Hrecv].
  destruct (Hrecv Hpend Hwf Hbox) as (Hret & _ & Htake & Hdrop & _).
  split; [exact Hpend|]. split; [exact Hwf|]. split; [exact Hbox|].
  split; [exact Hret|]. split; [exact Htake|exact Hdrop].
Defined.

Lemma time_tests_in_range_across_wrap :
  V2.due (u32 (100 + (2 ^ 32 - 50)))
         (V2.mkTask 0 1000 (u16 100) V2.T_READY 1 0 0 0 V2.zero_message)
    = true /\
  V2.state (V2.wake (u32 (1000 + 50))
              (V2.mkTask 0 0 0 V2.T_WAIT 1 0 (u32 (1000 + 100)) 0
                         V2.zero_message))
    = V2.T_WAIT.
Proof.
  destruct time_tests_in_range as [Hdue Hwake]. split.
  - apply (Hdue (V2.mkTask 0 1000 (u16 100) V2.T_READY 1 0 0 0
                           V2.zero_message) 100 (2 ^ 32 - 50));
      first [reflexivity | lia].
  - apply (Hwake (V2.mkTask 0 0 0 V2.T_WAIT 1 0 (u32 (1000 + 100)) 0
                            V2.zero_message) 1000 100 50);
      first [reflexivity | lia].
Defined.

Lemma select_sequence_from_reset :
  (spi2 = spi1 \/ spi2 = spi2) /\ 10 <> 4 /\
  V2.dev V2.bus_init <> 10 /\
  writes 10 LOW
    (made spi2 V2.bus_init (V2.sel 10 (V2.sel 4 (V2.sel 10 V2.bus_init))))
    = 2%nat /\
  made spi2 (V2.sel 4 V2.bus_init) (V2.sel 4 (V2.sel 4 V2.bus_init)) = [].
Proof.
  assert (HM : spi2 = spi1 \/ spi2 = spi2) by (right; reflexivity).
  assert (HAB : 10 <> 4) by lia.
  assert (Hdev : V2.dev V2.bus_init <> 10) by (cbn; lia).
  destruct (select_sequence spi2 10 4 V2.bus_init HM HAB)
    as (Htwice & _ & _ & Hnone & _).
  split; [exact HM|]. split; [exact HAB|]. split; [exact Hdev|].
  split; [exact (Htwice Hdev)|exact Hnone].
Defined.

Lemma deselect_keeps_record_after_select :
  (spi1 = spi1 \/ spi1 = spi2) /\
  V1.currentDevice (V1.deselect (V1.select 10 V1.bus_init)) = 10 /\
  V1.select 10 (V1.deselect (V1.select 10 V1.bus_init))
    = V1.deselect (V1.select 10 V1.bus_init) /\
  latch (V1.hw (V1.select 10 (V1.deselect (V1.select 10 V1.bus_init)))) !! 10
    = Some HIGH.
Proof.
  assert (HM : spi1 = spi1 \/ spi1 = spi2) by (left; reflexivity).
  destruct (deselect_keeps_record spi1 (V1.select 10 V1.bus_init) HM)
    as (Hcur & _ & Hsame & _ & _ & Hline).
  split; [exact HM|]. split; [exact Hcur|]. split; [exact Hsame|exact Hline].
Defined.

(** * Further properties of the code *)

(** ** The selection of the unified variant *)

(** X1.  The task that a scan of the unified variant selects is eligible
    and no eligible task has a higher priority; the scan selects nothing
    exactly when no task is eligible. *)
Theorem scan_selects_highest_priority now os :
  wf2 os ->
  match V2.selected now os with
  | Some b =>
      eligible2 now os b = true /\
      forall i, eligible2 now os i = true ->
                V2.pri (V2.task os i) <= V2.pri (V2.task os b)
  | None => forall i, eligible2 now os i = false
  end.
Proof.
  intros Hwf. pose proof (selected2_spec now os Hwf) as Hspec.
  destruct (V2.selected now os) as [b|]; [|done].
  destruct Hspec as [[Hel Hmax] _]. by split.
Qed.

Lemma scan_selects_highest_priority_at_three_tasks :
  wf2 three_tasks /\ V2.selected 0 three_tasks = Some 0%nat /\
  eligible2 0 three_tasks 0 = true.
Proof.
  assert (Hwf : wf2 three_tasks) by table_shape.
  pose proof (scan_selects_highest_priority 0 three_tasks Hwf) as Hspec.
  assert (Hsel : V2.selected 0 three_tasks = Some 0%nat) by by vm_compute.
  rewrite Hsel in Hspec. destruct Hspec as [Hel _].
  split; [exact Hwf|]. split; [exact Hsel|exact Hel].
Defined.

(** ** What the calls of the interface leave alone *)

Section Frames.
Import V2.

Ltac open_call :=
  unfold sleep, suspendTask, resumeTask, sendMessage, receiveMessage, add;
  repeat case_match; cbn [fst snd].

Lemma flags_upd i f os : suspendFlags (upd i f os) = suspendFlags os.
Proof. done. Qed.

Lemma suspended_upd i f os j : suspended (upd i f os) j = suspended os j.
Proof. done. Qed.

(** Only [resumeTask(i)] clears the suspend bit of task [i]. *)
Lemma suspended_call c os i :
  (i < 8)%nat -> is_resume i c = false ->
  suspended os i = true -> suspended (call c os) i = true.
Proof.
  intros Hi Hres Hsus. rewrite suspended2_testbit in Hsus.
  destruct c; cbn [call]; open_call; rewrite ?suspended_upd;
    try (rewrite suspended2_testbit; exact Hsus).
  - rewrite suspended2_testbit. cbn. rewrite testbit_set by done.
    by rewrite Hsus.
  - rewrite suspended2_testbit. cbn. rewrite testbit_set by done.
    by rewrite Hsus.
  - rewrite suspended2_testbit. cbn. rewrite testbit_clear by done.
    rewrite Hsus. cbn in Hres. apply Nat.eqb_neq in Hres.
    by rewrite bool_decide_eq_false_2.
  - rewrite suspended2_testbit. cbn. rewrite testbit_clear by done.
    rewrite Hsus. cbn in Hres. apply Nat.eqb_neq in Hres.
    by rewrite bool_decide_eq_false_2.
Qed.

Lemma suspended_calls cs : forall os i,
  (i < 8)%nat -> forallb (fun c => negb (is_resume i c)) cs = true ->
  suspended os i = true -> suspended (calls cs os) i = true.
Proof.
  unfold calls. induction cs as [|c cs IH]; intros os i Hi Hcs Hsus; [done|].
  cbn in Hcs. apply andb_true_iff in Hcs as [Hc Hcs].
  cbn [foldl]. apply IH; [done|done|].
  apply suspended_call; [done| |done]. by apply negb_true_iff.
Qed.

Lemma suspended_dispatch now b body os i :
  (i < 8)%nat -> forallb (fun c => negb (is_resume i c)) body = true ->
  suspended os i = true -> suspended (dispatch now b body os) i = true.
Proof.
  intros Hi Hbody Hsus. unfold dispatch.
  match goal with |- context [calls body ?o] => set (os2 := o) end.
  assert (H3 : suspended (calls body os2) i = true)
    by by apply suspended_calls.
  by destruct (_ =? _).
Qed.

Lemma suspended_scanned now os i :
  wf2 os -> suspended (scanned now os) i = suspended os i.
Proof. intros Hwf. by destruct (scanned_frame now os Hwf) as [-> _]. Qed.

Lemma suspended_iteration now body os i :
  wf2 os -> (i < 8)%nat ->
  (forall j, forallb (fun c => negb (is_resume i c)) (body j) = true) ->
  suspended os i = true ->
  suspended (fst (iteration now body os)) i = true /\
  snd (iteration now body os) <> Some i.
Proof.
  intros Hwf Hi Hbody Hsus.
  destruct (suspended_skipped now os i Hwf Hsus) as [_ Hsel].
  unfold iteration. destruct (selected now os) as [b|]; cbn [fst snd].
  - split; [|done]. apply suspended_dispatch; [done|done|].
    by rewrite suspended_scanned.
  - split; [|done]. by rewrite suspended_scanned.
Qed.

End Frames.

(** X2.  A task whose suspend bit is set is dispatched in no iteration of
    a run in which no entry point calls [resumeTask] on it, and its bit is
    still set at the end. *)
Theorem suspended_until_resumed its : forall os i,
  wf2 os -> (i < 8)%nat ->
  Forall (fun it => forall j,
            forallb (fun c => negb (is_resume i c)) (snd it j) = true) its ->
  V2.suspended os i = true ->
  Forall (fun d => d <> Some i) (snd (V2.run its os)) /\
  V2.suspended (fst (V2.run its os)) i = true.
Proof.
  induction its as [|[now body] its IH]; intros os i Hwf Hi Hits Hsus.
  - by split.
  - apply Forall_cons in Hits as [Hbody Hits]. cbn [snd] in Hbody.
    cbn [V2.run].
    destruct (suspended_iteration now body os i Hwf Hi Hbody Hsus)
      as [Hsus1 Hd].
    pose proof (wf2_iteration now body os Hwf) as Hwf1.
    destruct (V2.iteration now body os) as [os1 d]. cbn [fst snd] in *.
    destruct (IH os1 i Hwf1 Hi Hits Hsus1) as [Hds Hsus2].
    destruct (V2.run its os1) as [os2 ds]. cbn [fst snd] in *.
    split; [by apply Forall_cons|done].
Qed.

Section Frames_fields.
Import V2.

(** A field that [f] keeps is kept by [t[i] = f(t[i])]. *)
Lemma task_upd_field {A} (g : Task -> A) i f os j :
  (forall x, g (f x) = g x) -> g (task (upd i f os) j) = g (task os j).
Proof.
  intros Hf. rewrite task_upd. case_decide as Hk; [|done].
  destruct Hk as [-> _]. apply Hf.
Qed.

Lemma call_keeps_timing c os j :
  (j < n os)%nat -> timing (task (call c os) j) = timing (task os j).
Proof.
  intros Hj. destruct c; cbn [call].
  - unfold sleep. by rewrite (task_upd_field timing).
  - unfold suspendTask. destruct (_ <? _)%nat; [|done]. cbn [snd].
    destruct (negb _); [|done]. by rewrite (task_upd_field timing).
  - unfold resumeTask. destruct (_ <? _)%nat; [|done]. cbn [snd].
    destruct (_ =? _); [|done]. by rewrite (task_upd_field timing).
  - unfold sendMessage. destruct (_ || _); [done|].
    destruct (pending _); [done|]. cbn [snd].
    by rewrite (task_upd_field timing).
  - unfold receiveMessage. destruct (negb _); [done|]. cbn [snd].
    by rewrite (task_upd_field timing).
  - unfold add. destruct (_ <=? _)%nat; [done|]. cbn [snd].
    change (task (set_n ?k ?o) j) with (task o j).
    rewrite task_upd_ne by lia. done.
Qed.

Lemma calls_keep_timing cs : forall os j,
  (j < n os)%nat -> timing (task (calls cs os) j) = timing (task os j).
Proof.
  unfold calls. induction cs as [|c cs IH]; intros os j Hj; [done|].
  cbn [foldl]. rewrite IH by (pose proof (n_call c os); lia).
  by apply call_keeps_timing.
Qed.

(** No call of the interface puts a task in the RUNNING state. *)
Lemma call_never_runs c os j :
  state (task (call c os) j) = T_RUN -> state (task os j) = T_RUN.
Proof.
  destruct c; cbn [call].
  - unfold sleep. rewrite task_upd. by case_decide.
  - unfold suspendTask. destruct (_ <? _)%nat; [|done]. cbn [snd].
    destruct (negb _); [|done]. rewrite task_upd. by case_decide.
  - unfold resumeTask. destruct (_ <? _)%nat; [|done]. cbn [snd].
    destruct (_ =? _); [|done]. rewrite task_upd. by case_decide.
  - unfold sendMessage. destruct (_ || _); [done|].
    destruct (pending _); [done|]. cbn [snd].
    by rewrite (task_upd_field state).
  - unfold receiveMessage. destruct (negb _); [done|]. cbn [snd].
    by rewrite (task_upd_field state).
  - unfold add. destruct (_ <=? _)%nat; [done|]. cbn [snd].
    change (task (set_n ?k ?o) j) with (task o j).
    rewrite task_upd. by case_decide.
Qed.

Lemma calls_never_run cs : forall os j,
  state (task (calls cs os) j) = T_RUN -> state (task os j) = T_RUN.
Proof.
  unfold calls. induction cs as [|c cs IH]; intros os j Hrun; [done|].
  cbn [foldl] in Hrun. apply (call_never_runs c). by apply IH.
Qed.

Lemma ctxSw_call c os : ctxSw (call c os) = ctxSw os.
Proof.
  destruct c; cbn [call]; unfold sleep, suspendTask, resumeTask,
    sendMessage, receiveMessage, add; repeat case_match; done.
Qed.

Lemma ctxSw_calls cs : forall os, ctxSw (calls cs os) = ctxSw os.
Proof.
  unfold calls. induction cs as [|c cs IH]; intros os; [done|].
  cbn. by rewrite IH, ctxSw_call.
Qed.

End Frames_fields.

(** ** The RUNNING state and the context-switch counter *)

Section Running.
Import V2.

Lemma scanned_never_runs now os j :
  wf2 os ->
  state (task (scanned now os) j) = T_RUN -> state (task os j) = T_RUN.
Proof.
  intros Hwf. rewrite scanned_task by done.
  destruct (_ && _); [|done]. unfold wake. by destruct (_ && _).
Qed.

Lemma dispatch_never_runs now b body os j :
  wf2 os -> (b < MAX_TASKS)%nat ->
  state (task (dispatch now b body os) j) = T_RUN ->
  j <> b /\ state (task os j) = T_RUN.
Proof.
  intros Hwf Hb. unfold dispatch.
  match goal with |- context [calls body ?o] => set (os2 := o) end.
  assert (Hwf3 : wf2 (calls body os2)).
  { apply wf2_calls, wf2_upd; [done|].
    destruct Hwf as (? & ? & ? & ?). by repeat split. }
  assert (Hcur : cur (calls body os2) = b) by by rewrite cur_calls.
  set (os3 := calls body os2) in *. rewrite Hcur.
  assert (Hback : state (task os3 j) = T_RUN -> j <> b ->
                  state (task os j) = T_RUN).
  { intros Hrun Hne. apply calls_never_run in Hrun. unfold os2 in Hrun.
    by rewrite task_upd_ne in Hrun. }
  change (task (set_ctxSw ?v ?o) j) with (task o j).
  destruct (Z.eqb_spec (state (task os3 b)) T_RUN) as [Heq|Hneq].
  - rewrite task_upd. case_decide as Hk; [done|]. intros Hrun.
    assert (j <> b).
    { intros ->. apply Hk. split; [done|].
      destruct Hwf3 as (-> & _). done. }
    split; [done|]. by apply Hback.
  - intros Hrun. assert (j <> b) by (intros ->; done).
    split; [done|]. by apply Hback.
Qed.

Lemma iteration_never_runs now body os j :
  wf2 os ->
  state (task (fst (iteration now body os)) j) = T_RUN ->
  state (task os j) = T_RUN.
Proof.
  intros Hwf. unfold iteration.
  destruct (selected now os) as [b|] eqn:Hsel; cbn [fst].
  - intros Hrun. apply dispatch_never_runs in Hrun as [_ Hrun].
    + by apply scanned_never_runs in Hrun.
    + by apply wf2_scanned.
    + pose proof (selected2_registered now os b Hwf Hsel).
      destruct Hwf as (_ & ? & _). lia.
  - by apply scanned_never_runs.
Qed.

Lemma run_never_runs its : forall os j,
  wf2 os ->
  state (task (fst (run its os)) j) = T_RUN -> state (task os j) = T_RUN.
Proof.
  induction its as [|[now body] its IH]; intros os j Hwf; [done|].
  cbn [run]. pose proof (wf2_iteration now body os Hwf) as Hwf1.
  pose proof (iteration_never_runs now body os j Hwf) as Hit.
  destruct (iteration now body os) as [os1 d]. cbn [fst] in *.
  specialize (IH os1 j Hwf1). destruct (run its os1) as [os2 ds].
  cbn [fst] in *. auto.
Qed.

Lemma wf2_add_all adds : forall os, wf2 os -> wf2 (snd (add_all adds os)).
Proof.
  induction adds as [|[[f p] pr] adds IH]; intros os Hwf; [done|].
  cbn [add_all]. pose proof (wf2_add f p pr os Hwf) as Hwf1.
  destruct (add f p pr os) as [r os1]. cbn [snd] in Hwf1.
  specialize (IH os1 Hwf1). by destruct (add_all adds os1).
Qed.

Lemma add_all_never_runs adds : forall os j,
  state (task (snd (add_all adds os)) j) = T_RUN ->
  state (task os j) = T_RUN.
Proof.
  induction adds as [|[[f p] pr] adds IH]; intros os j; [done|].
  cbn [add_all]. pose proof (call_never_runs (CAdd f p pr) os j) as Hadd.
  cbn [call] in Hadd. destruct (add f p pr os) as [r os1]. cbn [snd] in Hadd.
  specialize (IH os1 j). destruct (add_all adds os1). cbn [snd] in *. auto.
Qed.

End Running.

(** X3.  Between two iterations of the scheduler no task is RUNNING: after
    any registrations on a fresh kernel and any run of iterations,
    whatever the entry points call, the state of every slot differs from
    [T_RUN]. *)
Theorem none_running_between_iterations adds its j :
  (V2.state
     (V2.task (fst (V2.run its (snd (V2.add_all adds V2.init)))) j)
     =? V2.T_RUN) = false.
Proof.
  apply Z.eqb_neq. intros Hrun.
  apply run_never_runs in Hrun; [|apply wf2_add_all, wf2_init].
  apply add_all_never_runs in Hrun. revert Hrun.
  unfold V2.task, V2.init, MAX_TASKS.
  do 6 (destruct j as [|j]; [done|]). done.
Qed.

Section Counter.
Import V2.

Lemma dispatches_cons d ds :
  dispatches (d :: ds) =
  match d with Some _ => 1 | None => 0 end + dispatches ds.
Proof.
  unfold dispatches. rewrite filter_cons.
  destruct d as [b|]; case_decide as Hd; cbn [length]; try lia.
  - exfalso. apply Hd. by eexists.
  - by destruct Hd.
Qed.

Lemma ctxSw_iteration now body os :
  ctxSw (fst (iteration now body os)) =
  match snd (iteration now body os) with
  | Some _ => u32 (ctxSw os + 1)
  | None => ctxSw os
  end.
Proof.
  assert (Hscan : forall l st,
            ctxSw (fst (fst (foldl (scan_body now) st l))) =
            ctxSw (fst (fst st))).
  { induction l as [|i l IH]; intros [[o b] m]; [done|].
    cbn [foldl]. rewrite IH. unfold scan_body. cbn [fst].
    destruct (suspended o i); [done|].
    destruct (due now _); [destruct (_ >=? _)|]; done. }
  assert (Hsc : ctxSw (scanned now os) = ctxSw os).
  { unfold scanned, scan. by rewrite Hscan. }
  unfold iteration. destruct (selected now os) as [b|]; cbn [fst snd]; [|done].
  unfold dispatch. cbn [ctxSw set_ctxSw]. f_equal. f_equal.
  match goal with |- context [calls (body b) ?o] => set (os2 := o) end.
  assert (H3 : ctxSw (calls (body b) os2) = ctxSw os)
    by (rewrite ctxSw_calls; exact Hsc).
  by destruct (_ =? _).
Qed.

End Counter.

(** X4.  The context-switch counter counts the dispatches: after a run it
    has advanced, modulo 2^32, by the number of iterations that dispatched
    a task; iterations that found nothing to run and the calls made by the
    entry points do not move it. *)
Theorem context_switches_count_dispatches its : forall os,
  u32 (V2.ctxSw (fst (V2.run its os))) =
  u32 (V2.ctxSw os + dispatches (snd (V2.run its os))).
Proof.
  induction its as [|[now body] its IH]; intros os.
  - cbn. unfold dispatches. cbn. by rewrite Z.add_0_r.
  - cbn [V2.run]. pose proof (ctxSw_iteration now body os) as Hit.
    destruct (V2.iteration now body os) as [os1 d]. cbn [fst snd] in Hit.
    specialize (IH os1). destruct (V2.run its os1) as [os2 ds].
    cbn [fst snd] in *. rewrite IH, Hit, dispatches_cons.
    destruct d as [b|].
    + unfold u32, wrap. rewrite Zplus_mod_idemp_l. f_equal. lia.
    + f_equal.
Qed.

(** ** The runtime budget and the period *)

Section Budget.
Import V2.

Lemma dispatch_started now b body os :
  dispatch now b body os =
  let os3 := calls body (started now b os) in
  let os4 :=
    if state (task os3 (cur os3)) =? T_RUN
    then upd (cur os3) (set_state T_READY) os3 else os3 in
  set_ctxSw (u32 (ctxSw os4 + 1)) os4.
Proof. reflexivity. Qed.

Lemma timing_started now b os :
  wf2 os -> (b < n os)%nat ->
  cur (started now b os) = b /\ n (started now b os) = n os /\
  last (task (started now b os) b) = u16 now /\
  startRun (task (started now b os) b) = now /\
  period (task (started now b os) b) = period (task os b) /\
  pri (task (started now b os) b) = pri (task os b).
Proof.
  intros (Hlen & Hn & _) Hb. unfold started.
  rewrite task_upd_eq by (cbn; unfold MAX_TASKS in *; lia).
  by repeat split.
Qed.

End Budget.

(** X5.  During a dispatch [shouldYield] measures the time since the
    dispatch began: whatever the entry point has called so far, it is
    true exactly when more than 2000 ms have passed, also when the 32-bit
    counter has wrapped in between. *)
Theorem budget_runs_from_dispatch now b cs e os :
  wf2 os -> (b < V2.n os)%nat -> 0 <= e < 2 ^ 32 ->
  V2.shouldYield (u32 (now + e)) (V2.calls cs (started now b os))
    = (2000 <? e).
Proof.
  intros Hwf Hb He.
  destruct (timing_started now b os Hwf Hb) as (Hcur & Hn & _ & Hstart & _).
  unfold V2.shouldYield. rewrite cur_calls, Hcur.
  pose proof (calls_keep_timing cs (started now b os) b ltac:(lia)) as Htim.
  unfold timing in Htim. injection Htim as _ _ _ _ ->.
  by rewrite Hstart, u32_sub_back.
Qed.

Lemma budget_runs_from_dispatch_across_wrap :
  wf2 three_tasks /\
  V2.shouldYield (u32 (2 ^ 32 - 5 + 3000))
    (V2.calls [V2.CSend 1 7 [1] 1] (started (2 ^ 32 - 5) 0 three_tasks))
    = true.
Proof.
  assert (Hwf : wf2 three_tasks) by table_shape.
  split; [exact Hwf|].
  rewrite (budget_runs_from_dispatch (2 ^ 32 - 5) 0 [V2.CSend 1 7 [1] 1]
             3000 three_tasks Hwf); [reflexivity | vm_compute; lia | lia].
Defined.

Section Period.
Import V2.

Lemma timing_wake now x : timing (wake now x) = timing x.
Proof. unfold wake. by destruct (_ && _). Qed.

Lemma timing_scanned now os j :
  wf2 os -> timing (task (scanned now os) j) = timing (task os j).
Proof.
  intros Hwf. rewrite scanned_task by done.
  destruct (_ && _); [apply timing_wake | done].
Qed.

Lemma n_scanned now os : wf2 os -> n (scanned now os) = n os.
Proof. intros Hwf. by destruct (scanned_frame now os Hwf) as [-> _]. Qed.

Lemma n_dispatch now b body os : (n os <= n (dispatch now b body os))%nat.
Proof.
  rewrite dispatch_started. cbn zeta. cbn [n set_ctxSw].
  pose proof (n_calls body (started now b os)) as Hn.
  destruct (_ =? _); cbn; exact Hn.
Qed.

(** A dispatch of another task leaves the timing fields of task [j]. *)
Lemma timing_dispatch_other now b body os j :
  (j < n os)%nat -> b <> j ->
  timing (task (dispatch now b body os) j) = timing (task os j).
Proof.
  intros Hj Hne. rewrite dispatch_started. cbn zeta.
  change (task (set_ctxSw ?v ?o) j) with (task o j).
  assert (H3 : timing (task (calls body (started now b os)) j) =
               timing (task os j)).
  { rewrite calls_keep_timing by done. unfold started.
    by rewrite task_upd_ne. }
  destruct (_ =? _); [|done]. by rewrite (task_upd_field timing).
Qed.

(** A task whose period has not elapsed is not dispatched, and the
    iteration leaves its timing fields. *)
Lemma not_due_iteration now body os i :
  wf2 os -> (i < n os)%nat ->
  u32 (now - last (task os i)) < period (task os i) ->
  snd (iteration now body os) <> Some i /\
  (i < n (fst (iteration now body os)))%nat /\
  timing (task (fst (iteration now body os)) i) = timing (task os i).
Proof.
  intros Hwf Hi Hearly.
  assert (Hel : eligible2 now os i = false).
  { unfold eligible2, due.
    pose proof (timing_wake now (task os i)) as Htim. unfold timing in Htim.
    injection Htim as _ -> -> _ _.
    destruct (Z.geb_spec (u32 (now - last (task os i))) (period (task os i)));
      [lia|]. by rewrite !andb_false_r. }
  pose proof (selected2_spec now os Hwf) as Hspec. unfold iteration.
  destruct (selected now os) as [b|]; cbn [fst snd].
  - destruct Hspec as [[Hb _] _].
    assert (b <> i) by (intros ->; congruence).
    split; [congruence|]. split.
    + pose proof (n_dispatch now b (body b) (scanned now os)).
      rewrite n_scanned in H0 by done. lia.
    + rewrite timing_dispatch_other; [by apply timing_scanned| |done].
      by rewrite n_scanned.
  - split; [done|]. split; [by rewrite n_scanned|by apply timing_scanned].
Qed.

Lemma not_due_run its : forall os i,
  wf2 os -> (i < n os)%nat ->
  Forall (fun it => u32 (fst it - last (task os i)) < period (task os i)) its ->
  Forall (fun d => d <> Some i) (snd (run its os)).
Proof.
  induction its as [|[now body] its IH]; intros os i Hwf Hi Hits.
  - constructor.
  - apply Forall_cons in Hits as [Hnow Hits]. cbn [fst] in Hnow. cbn [run].
    destruct (not_due_iteration now body os i Hwf Hi Hnow)
      as (Hd & Hi1 & Htim).
    pose proof (wf2_iteration now body os Hwf) as Hwf1.
    destruct (iteration now body os) as [os1 d]. cbn [fst snd] in *.
    unfold timing in Htim. injection Htim as _ Hper Hlast _ _.
    specialize (IH os1 i Hwf1 Hi1). rewrite Hper, Hlast in IH.
    specialize (IH Hits). destruct (run its os1) as [os2 ds].
    cbn [snd] in *. by apply Forall_cons.
Qed.

(** What the dispatch of task [i] leaves in its timing fields. *)
Lemma timing_dispatch_self now body os i :
  wf2 os -> (i < n os)%nat ->
  last (task (dispatch now i body os) i) = u16 now /\
  period (task (dispatch now i body os) i) = period (task os i).
Proof.
  intros Hwf Hi. rewrite dispatch_started. cbn zeta.
  change (task (set_ctxSw ?v ?o) i) with (task o i).
  destruct (timing_started now i os Hwf Hi) as (_ & Hn & Hlast & _ & Hper & _).
  pose proof (calls_keep_timing body (started now i os) i ltac:(lia)) as H3.
  assert (H4 : forall o, timing (task o i) = timing (task (started now i os) i) ->
               last (task o i) = u16 now /\
               period (task o i) = period (task os i)).
  { intros o Ho. unfold timing in Ho. injection Ho as _ -> -> _ _. done. }
  destruct (_ =? _); [|by apply H4].
  apply H4. by rewrite (task_upd_field timing).
Qed.

End Period.

(** X6.  While the counter is below 2^16 the period is a minimum interval
    between dispatches: a task dispatched in an iteration that reads
    [now0 < 2^16] is dispatched in no later iteration that reads a time
    from [now0] up to, but not including, [now0] plus its period. *)
Theorem period_is_minimum_interval os now0 body0 i its :
  wf2 os ->
  V2.selected now0 os = Some i ->
  0 <= now0 < 2 ^ 16 ->
  Forall (fun it => now0 <= fst it < now0 + V2.period (V2.task os i)
                    /\ fst it < 2 ^ 32) its ->
  Forall (fun d => d <> Some i)
         (snd (V2.run its (fst (V2.iteration now0 body0 os)))).
Proof.
  intros Hwf Hsel Hnow0 Hits.
  pose proof (selected2_registered now0 os i Hwf Hsel) as Hi.
  pose proof (wf2_iteration now0 body0 os Hwf) as Hwf1.
  assert (Hfirst :
    (i < V2.n (fst (V2.iteration now0 body0 os)))%nat /\
    V2.last (V2.task (fst (V2.iteration now0 body0 os)) i) = now0 /\
    V2.period (V2.task (fst (V2.iteration now0 body0 os)) i)
      = V2.period (V2.task os i)).
  { unfold V2.iteration. rewrite Hsel. cbn [fst].
    pose proof (wf2_scanned now0 os Hwf) as Hwfs.
    assert (His : (i < V2.n (V2.scanned now0 os))%nat)
      by by rewrite n_scanned.
    destruct (timing_dispatch_self now0 (body0 i) _ i Hwfs His) as [Hl Hp].
    split; [|split].
    - pose proof (n_dispatch now0 i (body0 i) (V2.scanned now0 os)). lia.
    - rewrite Hl. unfold u16, wrap. by apply Z.mod_small.
    - rewrite Hp. pose proof (timing_scanned now0 os i Hwf) as Htim.
      unfold timing in Htim. by injection Htim as _ -> _ _ _. }
  destruct Hfirst as (Hi1 & Hlast & Hper).
  apply not_due_run; [done|done|]. rewrite Hlast, Hper.
  eapply Forall_impl; [exact Hits|]. intros [now body] [Hrange Hmax].
  cbn [fst] in *. unfold u32, wrap. rewrite Z.mod_small; lia.
Qed.

Section Starvation.
Import V2.

Lemma n_call_keeps_ready h c os :
  keeps_ready h c = true -> n (call c os) = n os.
Proof.
  destruct c; cbn [call keeps_ready]; try done;
    unfold suspendTask, resumeTask, sendMessage, receiveMessage;
    intros _; repeat case_match; done.
Qed.

(** A call that [keeps_ready h], made while [h] is RUNNING and not
    suspended, leaves it RUNNING and not suspended. *)
Lemma running_call h c os :
  (h < 8)%nat -> keeps_ready h c = true ->
  state (task os h) = T_RUN -> suspended os h = false ->
  state (task (call c os) h) = T_RUN /\ suspended (call c os) h = false.
Proof.
  intros Hh Hc Hrun Hsus. rewrite suspended2_testbit in Hsus.
  destruct c; cbn [call keeps_ready] in *; try done.
  - apply negb_true_iff, Nat.eqb_neq in Hc.
    unfold suspendTask. destruct (_ <? _)%nat; cbn [snd];
      [|by rewrite suspended2_testbit].
    assert (Hbit : suspended
              (set_suspendFlags
                 (u8 (Z.lor (suspendFlags os) (Z.shiftl 1 (Z.of_nat i)))) os) h
              = false).
    { rewrite suspended2_testbit. cbn. rewrite testbit_set by done.
      rewrite Hsus. by rewrite bool_decide_eq_false_2. }
    destruct (negb _); [|done]. split; [|done].
    by rewrite task_upd_ne.
  - unfold resumeTask. destruct (_ <? _)%nat; cbn [snd];
      [|by rewrite suspended2_testbit].
    assert (Hbit : suspended
              (set_suspendFlags
                 (u8 (Z.land (suspendFlags os)
                             (Z.lnot (Z.shiftl 1 (Z.of_nat i))))) os) h
              = false).
    { rewrite suspended2_testbit. cbn. rewrite testbit_clear by done.
      by rewrite Hsus. }
    destruct (Z.eqb_spec (state (task
       (set_suspendFlags
          (u8 (Z.land (suspendFlags os) (Z.lnot (Z.shiftl 1 (Z.of_nat i)))))
          os) i)) T_SUSPENDED) as [Heq|Hne]; [|done].
    split; [|done]. rewrite task_upd. case_decide as Hk; [|done].
    destruct Hk as [-> _]. change (task (set_suspendFlags ?v os) h)
      with (task os h) in Heq. rewrite Hrun in Heq. done.
  - unfold sendMessage. destruct (_ || _); [by rewrite suspended2_testbit|].
    destruct (pending _); cbn [snd]; [by rewrite suspended2_testbit|].
    split; [by rewrite (task_upd_field state)|by rewrite suspended2_testbit].
  - unfold receiveMessage. destruct (negb _); cbn [snd];
      [by rewrite suspended2_testbit|].
    split; [by rewrite (task_upd_field state)|by rewrite suspended2_testbit].
Qed.

Lemma running_calls h cs : forall os,
  (h < 8)%nat -> forallb (keeps_ready h) cs = true ->
  state (task os h) = T_RUN -> suspended os h = false ->
  state (task (calls cs os) h) = T_RUN /\
  suspended (calls cs os) h = false /\ n (calls cs os) = n os.
Proof.
  unfold calls. induction cs as [|c cs IH]; intros os Hh Hcs Hrun Hsus;
    [done|].
  cbn in Hcs. apply andb_true_iff in Hcs as [Hc Hcs]. cbn [foldl].
  destruct (running_call h c os Hh Hc Hrun Hsus) as [Hrun1 Hsus1].
  destruct (IH (call c os) Hh Hcs Hrun1 Hsus1) as (? & ? & Hn).
  split; [done|]. split; [done|].
  by rewrite Hn, (n_call_keeps_ready h).
Qed.

(** The task dispatched when a monopolist exists is the monopolist, and it
    is one again after its dispatch. *)
Lemma monopolist_iteration now body os h :
  wf2 os -> monopolist h os ->
  forallb (keeps_ready h) (body h) = true ->
  snd (iteration now body os) = Some h /\
  monopolist h (fst (iteration now body os)).
Proof.
  intros Hwf (Hh & Hst & Hsus & Hper & Htop) Hbody.
  assert (Hh8 : (h < 8)%nat).
  { destruct Hwf as (_ & Hn & _). unfold MAX_TASKS in Hn. lia. }
  assert (Hwake : wake now (task os h) = task os h).
  { unfold wake. by rewrite Hst. }
  assert (Hel : eligible2 now os h = true).
  { unfold eligible2, due. rewrite Hwake, Hsus, Hst, Hper.
    destruct (Nat.ltb_spec h (n os)); [|lia]. cbn.
    apply Z.geb_le. unfold u32, wrap. apply Z.mod_pos_bound. lia. }
  assert (Hsel : selected now os = Some h).
  { pose proof (selected2_spec now os Hwf) as Hspec.
    destruct (selected now os) as [b|]; [|by rewrite Hspec in Hel].
    destruct Hspec as [[Hb Hmax] _]. f_equal.
    destruct (decide (b = h)) as [|Hne]; [done|]. exfalso.
    specialize (Hmax h Hel).
    assert (b < n os)%nat.
    { unfold eligible2 in Hb. apply andb_true_iff in Hb as [Hb _].
      apply andb_true_iff in Hb as [Hb _]. by apply Nat.ltb_lt. }
    specialize (Htop b ltac:(done) Hne). lia. }
  unfold iteration. rewrite Hsel. cbn [fst snd]. split; [done|].
  pose proof (wf2_scanned now os Hwf) as Hwfs.
  assert (Hns : n (scanned now os) = n os) by by apply n_scanned.
  rewrite dispatch_started. cbn zeta.
  destruct (timing_started now h (scanned now os) Hwfs ltac:(lia))
    as (Hcur & Hn & _ & _ & Hp & _).
  assert (Hrun0 : state (task (started now h (scanned now os)) h) = T_RUN).
  { unfold started. rewrite task_upd_eq; [done|].
    destruct Hwfs as (Hl & Hn' & _). cbn. lia. }
  assert (Hsus0 : suspended (started now h (scanned now os)) h = false).
  { unfold started. change (suspended (upd ?i ?f (set_cur ?b ?o)) h)
      with (suspended o h). by rewrite suspended_scanned. }
  destruct (running_calls h (body h) _ Hh8 Hbody Hrun0 Hsus0)
    as (Hrun3 & Hsus3 & Hn3).
  set (os3 := calls (body h) (started now h (scanned now os))) in *.
  assert (Hcur3 : cur os3 = h) by (unfold os3; by rewrite cur_calls).
  assert (Hwf3 : wf2 os3).
  { apply wf2_calls, wf2_upd; [done|].
    destruct Hwfs as (? & ? & ? & ?). repeat split; try done. cbn.
    unfold MAX_TASKS in *. lia. }
  rewrite Hcur3, Hrun3. cbn [Z.eqb T_RUN Pos.eqb].
  assert (Htim : forall j, (j < n os)%nat ->
            timing (task os3 j) =
            timing (task (started now h (scanned now os)) j)).
  { intros j Hj. apply calls_keep_timing. lia. }
  unfold monopolist.
  change (n (set_ctxSw ?v (upd ?i ?f ?o))) with (n o).
  change (suspended (set_ctxSw ?v (upd ?i ?f ?o)) h) with (suspended o h).
  change (task (set_ctxSw ?v ?o)) with (task o).
  rewrite Hn3, Hn, Hns. split; [done|]. split.
  { rewrite task_upd_eq; [done|]. destruct Hwf3 as (-> & _).
    destruct Hwf as (_ & ? & _). lia. }
  split; [done|]. split.
  { rewrite (task_upd_field period) by done.
    specialize (Htim h Hh). unfold timing in Htim.
    injection Htim as _ -> _ _ _. rewrite Hp.
    pose proof (timing_scanned now os h Hwf) as Hts. unfold timing in Hts.
    by injection Hts as _ -> _ _ _. }
  intros j Hj Hne. rewrite !(task_upd_field pri) by done.
  assert (Hpri : forall k, (k < n os)%nat -> pri (task os3 k) = pri (task os k)).
  { intros k Hk. specialize (Htim k Hk). unfold timing in Htim.
    injection Htim as _ _ _ -> _. unfold started.
    rewrite (task_upd_field pri) by done.
    change (task (set_cur ?b ?o) k) with (task o k).
    pose proof (timing_scanned now os k Hwf) as Hts. unfold timing in Hts.
    by injection Hts as _ _ _ -> _. }
  rewrite !Hpri by done. by apply Htop.
Qed.

End Starvation.

(** X7.  A READY task of period 0 that is not suspended and whose
    priority is above that of every other registered task is the task
    dispatched in every iteration, as long as its entry point neither
    sleeps, nor suspends it, nor registers a task: no other task runs. *)
Theorem top_priority_task_monopolises its : forall os h,
  wf2 os -> monopolist h os ->
  Forall (fun it => forallb (keeps_ready h) (snd it h) = true) its ->
  snd (V2.run its os) = replicate (length its) (Some h).
Proof.
  induction its as [|[now body] its IH]; intros os h Hwf Hmon Hits; [done|].
  apply Forall_cons in Hits as [Hbody Hits]. cbn [snd] in Hbody.
  cbn [V2.run length replicate].
  destruct (monopolist_iteration now body os h Hwf Hmon Hbody) as [Hd Hmon1].
  pose proof (wf2_iteration now body os Hwf) as Hwf1.
  destruct (V2.iteration now body os) as [os1 d]. cbn [fst snd] in *.
  specialize (IH os1 h Hwf1 Hmon1 Hits).
  destruct (V2.run its os1) as [os2 ds]. cbn [snd] in *.
  by rewrite Hd, IH.
Qed.

(** ** Messages *)

(** X8.  A message goes through: when the mailbox of a registered task
    [k] is free, [sendMessage] of [sz <= 8] bytes returns 0; when [k] then
    runs, [receiveMessage] with room for [sz] bytes returns [sz], the type
    tag and the [sz] bytes sent, and after it a new [sendMessage] to [k]
    returns 0 again. *)
Theorem message_round_trip os k mt src sz mt0 buf maxSize :
  wf2 os -> (k < V2.n os)%nat ->
  V2.pending (V2.message (V2.task os k)) = false ->
  0 <= sz <= 8 -> (Z.to_nat sz <= length src)%nat -> sz <= maxSize ->
  let sent := V2.sendMessage k mt src sz os in
  let got := V2.receiveMessage mt0 buf maxSize (V2.set_cur k (snd sent)) in
  fst sent = 0 /\
  got.1.1.1 = sz /\ got.1.1.2 = mt /\
  take (Z.to_nat sz) got.1.2 = take (Z.to_nat sz) src /\
  drop (Z.to_nat sz) got.1.2 = drop (Z.to_nat sz) buf /\
  forall mt' src' sz',
    sz' <= 8 -> fst (V2.sendMessage k mt' src' sz' got.2) = 0.
Proof.
  intros Hwf Hk Hfree Hsz Hsrc Hmax. cbn zeta.
  pose proof Hwf as (Hlen & Hn & _).
  assert (Hk6 : (k < length (V2.t os))%nat) by lia.
  set (stored := memcpy (V2.data (V2.message (V2.task os k))) src sz).
  set (os1 := V2.upd k (fun x =>
         V2.set_message
           (V2.mkMessage mt (memcpy (V2.data (V2.message x)) src sz) sz true)
           x) os).
  assert (Hsent : V2.sendMessage k mt src sz os = (0, os1)).
  { unfold V2.sendMessage. destruct (Nat.leb_spec (V2.n os) k); [lia|].
    destruct (Z.gtb_spec sz 8); [lia|]. cbn [orb]. by rewrite Hfree. }
  assert (Hbox : V2.message (V2.task os1 k) = V2.mkMessage mt stored sz true).
  { unfold os1. by rewrite task_upd_eq. }
  set (os2 := V2.upd k (V2.set_message (V2.mkMessage mt stored sz false))
                (V2.set_cur k os1)).
  assert (Hgot : V2.receiveMessage mt0 buf maxSize (V2.set_cur k os1) =
                 (sz, mt, memcpy buf stored sz, os2)).
  { unfold V2.receiveMessage. cbn [V2.cur V2.set_cur].
    change (V2.task (V2.set_cur k os1) k) with (V2.task os1 k).
    rewrite Hbox. cbn [V2.pending negb V2.size V2.type V2.data].
    by rewrite arduino_min_min, Z.min_r by lia. }
  rewrite Hsent. cbn [fst snd]. rewrite Hgot. cbn [fst snd].
  assert (Hpre : take (Z.to_nat sz) stored = take (Z.to_nat sz) src).
  { by destruct (memcpy_prefix (V2.data (V2.message (V2.task os k))) src sz
                   Hsrc). }
  assert (Hcopy : (Z.to_nat sz <= length stored)%nat).
  { unfold stored, memcpy. rewrite length_app, length_take. lia. }
  destruct (memcpy_prefix buf stored sz Hcopy) as [Htake Hdrop].
  split; [done|]. split; [done|]. split; [done|].
  split; [by rewrite Htake|]. split; [done|].
  intros mt' src' sz' Hsz'. unfold V2.sendMessage.
  assert (Hn2 : V2.n os2 = V2.n os) by done.
  assert (Hfree2 : V2.pending (V2.message (V2.task os2 k)) = false).
  { unfold os2. rewrite task_upd_eq; [done|].
    unfold os1. cbn. by rewrite length_alter. }
  rewrite Hn2, Hfree2.
  destruct (Nat.leb_spec (V2.n os) k); [lia|].
  by destruct (Z.gtb_spec sz' 8); [lia|].
Qed.

Section Schedule_congruence.
Import V2.

Lemma pick_ext better c c' p p' k :
  (forall i, (i < k)%nat -> c i = c' i /\ p i = p' i) ->
  pick better c p k = pick better c' p' k.
Proof.
  induction k as [|k IH]; intros Hext; [done|].
  rewrite !pick_S, IH by (intros; apply Hext; lia).
  unfold pick_body. by destruct (Hext k ltac:(lia)) as [-> ->].
Qed.

Lemma sched_due_wake now x y :
  sched x = sched y ->
  due now (wake now x) = due now (wake now y) /\ pri x = pri y.
Proof.
  destruct x, y. unfold sched. cbn. intros [= -> -> -> -> ->].
  split; [|done]. unfold due, wake. cbn.
  destruct ((state1 =? T_WAIT) && (now >=? sleepUntil1)); reflexivity.
Qed.

(** The selection of a scan depends on the table through the count, the
    suspend mask and the fields [sched] of the registered tasks only. *)
Lemma selected_congruence now os os' :
  wf2 os -> wf2 os' -> n os' = n os -> suspendFlags os' = suspendFlags os ->
  (forall i, (i < n os)%nat -> sched (task os' i) = sched (task os i)) ->
  selected now os' = selected now os.
Proof.
  intros Hwf Hwf' Hn Hfl Hsched. unfold selected, scan.
  destruct Hwf as (Hlen & Hle & _). destruct Hwf' as (Hlen' & Hle' & _).
  destruct (scan_prefix now os (n os) ltac:(lia)) as (_ & _ & _ & Hp).
  destruct (scan_prefix now os' (n os') ltac:(lia)) as (_ & _ & _ & Hp').
  cbn zeta in Hp, Hp'.
  destruct (foldl (scan_body now) (os, None, 0) (seq 0 (n os)))
    as [[o b] m].
  destruct (foldl (scan_body now) (os', None, 0) (seq 0 (n os')))
    as [[o' b'] m'].
  cbn [fst snd] in *. rewrite Hn in Hp'.
  rewrite (pick_ext Z.geb _
             (fun i => negb (suspended os i) && due now (wake now (task os i)))
             _ (fun i => pri (task os i))) in Hp'.
  - rewrite <- Hp in Hp'. by injection Hp' as -> _.
  - intros i Hi. destruct (sched_due_wake now _ _ (Hsched i Hi)) as [-> ->].
    split; [|done]. unfold suspended. by rewrite Hfl.
Qed.

End Schedule_congruence.

(** X9.  Messages do not interfere with scheduling: after a
    [sendMessage] or a [receiveMessage], with whatever arguments and
    result, every scan selects the task it would have selected before,
    and the state and the wake time of every task are unchanged.  In
    particular a message does not wake a sleeping receiver. *)
Theorem messaging_keeps_schedule os k mt src sz mt0 buf maxSize :
  wf2 os ->
  (forall now,
      V2.selected now (snd (V2.sendMessage k mt src sz os))
        = V2.selected now os /\
      V2.selected now (V2.receiveMessage mt0 buf maxSize os).2
        = V2.selected now os) /\
  (forall j,
      sched (V2.task (snd (V2.sendMessage k mt src sz os)) j)
        = sched (V2.task os j) /\
      sched (V2.task (V2.receiveMessage mt0 buf maxSize os).2 j)
        = sched (V2.task os j)).
Proof.
  intros Hwf.
  assert (Hs : forall j,
    sched (V2.task (snd (V2.sendMessage k mt src sz os)) j)
      = sched (V2.task os j)).
  { intros j. unfold V2.sendMessage. destruct (_ || _); [done|].
    destruct (V2.pending _); [done|]. cbn [snd].
    by rewrite (task_upd_field sched). }
  assert (Hr : forall j,
    sched (V2.task (V2.receiveMessage mt0 buf maxSize os).2 j)
      = sched (V2.task os j)).
  { intros j. unfold V2.receiveMessage. destruct (negb _); [done|].
    cbn [snd]. by rewrite (task_upd_field sched). }
  split; [|by split].
  intros now. split.
  - apply selected_congruence; try done.
    + by apply wf2_sendMessage.
    + unfold V2.sendMessage. by repeat case_match.
    + unfold V2.sendMessage. by repeat case_match.
  - apply selected_congruence; try done.
    + by apply wf2_receiveMessage.
    + unfold V2.receiveMessage. by repeat case_match.
    + unfold V2.receiveMessage. by repeat case_match.
Qed.

(** ** Suspend and resume, continued *)

Lemma set_then_clear_bit (f : Z) (i : nat) :
  0 <= f < 256 -> (i < 8)%nat -> Z.testbit f (Z.of_nat i) = false ->
  u8 (Z.land (u8 (Z.lor f (Z.shiftl 1 (Z.of_nat i))))
             (Z.lnot (Z.shiftl 1 (Z.of_nat i)))) = f.
Proof.
  intros Hf Hi Hbit. apply Z.bits_inj'. intros j Hj.
  destruct (Z.lt_ge_cases j 8) as [Hlow|Hhigh].
  - replace j with (Z.of_nat (Z.to_nat j)) by lia.
    rewrite testbit_clear, testbit_set by lia.
    case_bool_decide as Hij.
    + subst i. rewrite Z2Nat.id in Hbit by lia.
      rewrite Z2Nat.id by lia. rewrite Hbit. done.
    + cbn. by rewrite orb_false_r, andb_true_r.
  - unfold u8 at 1, wrap. rewrite Z.mod_pow2_bits_high by lia.
    symmetry. replace f with (f mod 2 ^ 8) by (apply Z.mod_small; lia).
    apply Z.mod_pow2_bits_high. lia.
Qed.

(** X10.  Suspending a READY task and resuming it is a round trip:
    [suspendTask(i)] followed by [resumeTask(i)] returns 0 twice and gives
    back the kernel unchanged, table and suspend mask included. *)
Theorem suspend_resume_round_trip os i :
  wf2 os -> (i < V2.n os)%nat ->
  V2.state (V2.task os i) = V2.T_READY ->
  V2.suspended os i = false ->
  0 <= V2.suspendFlags os < 256 ->
  fst (V2.suspendTask i os) = 0 /\
  V2.state (V2.task (snd (V2.suspendTask i os)) i) = V2.T_SUSPENDED /\
  V2.resumeTask i (snd (V2.suspendTask i os)) = (0, os).
Proof.
  intros (Hlen & Hn & _) Hi Hst Hsus Hfl.
  assert (Hi8 : (i < 8)%nat) by (unfold MAX_TASKS in Hn; lia).
  rewrite suspended2_testbit in Hsus.
  unfold V2.suspendTask. destruct (Nat.ltb_spec i (V2.n os)); [|lia].
  change (V2.task (V2.set_suspendFlags ?v os) i) with (V2.task os i).
  rewrite Hst. cbn [Z.eqb V2.T_READY V2.T_WAIT Pos.eqb negb fst snd].
  split; [done|].
  set (os1 := V2.upd i (V2.set_state V2.T_SUSPENDED)
                (V2.set_suspendFlags _ os)).
  assert (Hst1 : V2.state (V2.task os1 i) = V2.T_SUSPENDED).
  { unfold os1. rewrite task_upd_eq by (cbn; lia). done. }
  split; [done|].
  unfold V2.resumeTask.
  change (V2.n os1) with (V2.n os). destruct (Nat.ltb_spec i (V2.n os)); [|lia].
  change (V2.task (V2.set_suspendFlags ?v os1) i) with (V2.task os1 i).
  rewrite Hst1. cbn [Z.eqb V2.T_SUSPENDED Pos.eqb]. f_equal.
  unfold os1, V2.upd, V2.set_t, V2.set_suspendFlags. cbn.
  rewrite set_then_clear_bit by done.
  destruct os as [tbl cnt cr tk cs fl lp]. cbn in *. f_equal.
  rewrite list_alter_alter_eq. apply list_eq. intros j.
  rewrite list_lookup_alter. case_decide as Hj; [subst j|done].
  unfold V2.task in Hst. cbn in Hst.
  rewrite list_lookup_total_alt in Hst.
  destruct (tbl !! i) as [x|]; [|done]. cbn in *.
  destruct x. cbn in *. by subst.
Qed.

(** X11.  [suspendTask(i)] and [resumeTask(i)] touch task [i] only: the
    descriptor and the suspend bit of every other task are as before;
    with an id that is not registered both return -1 and change
    nothing. *)
Theorem suspend_resume_touch_one_task os i j :
  i <> j -> (j < 8)%nat ->
  V2.task (snd (V2.suspendTask i os)) j = V2.task os j /\
  V2.suspended (snd (V2.suspendTask i os)) j = V2.suspended os j /\
  V2.task (snd (V2.resumeTask i os)) j = V2.task os j /\
  V2.suspended (snd (V2.resumeTask i os)) j = V2.suspended os j /\
  ((V2.n os <= i)%nat ->
     V2.suspendTask i os = (-1, os) /\ V2.resumeTask i os = (-1, os)).
Proof.
  intros Hne Hj.
  assert (Hset : V2.suspended
            (V2.set_suspendFlags
               (u8 (Z.lor (V2.suspendFlags os) (Z.shiftl 1 (Z.of_nat i)))) os) j
            = V2.suspended os j).
  { rewrite !suspended2_testbit. cbn. rewrite testbit_set by done.
    rewrite bool_decide_eq_false_2 by done. apply orb_false_r. }
  assert (Hclr : V2.suspended
            (V2.set_suspendFlags
               (u8 (Z.land (V2.suspendFlags os)
                           (Z.lnot (Z.shiftl 1 (Z.of_nat i))))) os) j
            = V2.suspended os j).
  { rewrite !suspended2_testbit. cbn. rewrite testbit_clear by done.
    rewrite bool_decide_eq_false_2 by done. apply andb_true_r. }
  unfold V2.suspendTask, V2.resumeTask.
  destruct (Nat.ltb_spec i (V2.n os)) as [Hi|Hi]; cbn [snd].
  - split; [destruct (negb _); [by rewrite task_upd_ne|done]|].
    split; [by destruct (negb _)|].
    split; [destruct (_ =? _); [by rewrite task_upd_ne|done]|].
    split; [by destruct (_ =? _)|]. lia.
  - by repeat split.
Qed.

(** ** The invariants of the kernel hold in every reachable state *)

Section Reachable.
Import V2.

Lemma boxes_ok_keep i f os :
  (forall x, message (f x) = message x) ->
  boxes_ok os -> boxes_ok (upd i f os).
Proof. intros Hf. apply boxes_ok_upd. intros x. by rewrite Hf. Qed.

Lemma boxes_ok_call c os :
  wf2 os -> call_ok c -> boxes_ok os -> boxes_ok (call c os).
Proof.
  intros Hwf Hc Hok. destruct c; cbn [call].
  - unfold sleep. by apply boxes_ok_keep.
  - unfold suspendTask. destruct (_ <? _)%nat; [|done]. cbn [snd].
    destruct (negb _); [|done]. by apply (boxes_ok_keep i).
  - unfold resumeTask. destruct (_ <? _)%nat; [|done]. cbn [snd].
    destruct (_ =? _); [|done]. by apply (boxes_ok_keep i).
  - by apply boxes_ok_sendMessage.
  - by apply boxes_ok_receiveMessage.
  - by apply boxes_ok_add.
Qed.

Lemma boxes_ok_calls cs : forall os,
  wf2 os -> Forall call_ok cs -> boxes_ok os -> boxes_ok (calls cs os).
Proof.
  unfold calls. induction cs as [|c cs IH]; intros os Hwf Hcs Hok; [done|].
  apply Forall_cons in Hcs as [Hc Hcs]. cbn [foldl].
  apply IH; [by apply wf2_call|done|by apply boxes_ok_call].
Qed.

Lemma message_wake now x : message (wake now x) = message x.
Proof. unfold wake. by destruct (_ && _). Qed.

Lemma boxes_ok_scan_fold now l : forall st,
  boxes_ok (fst (fst st)) ->
  boxes_ok (fst (fst (foldl (scan_body now) st l))).
Proof.
  induction l as [|i l IH]; intros [[os best] m] Hok; [done|].
  cbn [foldl]. apply IH. unfold scan_body. cbn [fst] in *.
  destruct (suspended os i); [done|].
  assert (boxes_ok (upd i (wake now) os))
    by (apply boxes_ok_keep; [apply message_wake|done]).
  destruct (due now _); [destruct (_ >=? _)|]; done.
Qed.

Lemma boxes_ok_iteration now body os :
  wf2 os -> (forall j, Forall call_ok (body j)) ->
  boxes_ok os -> boxes_ok (fst (iteration now body os)).
Proof.
  intros Hwf Hbody Hok.
  assert (Hsc : boxes_ok (scanned now os))
    by (unfold scanned, scan; by apply boxes_ok_scan_fold).
  unfold iteration. destruct (selected now os) as [b|] eqn:Hsel;
    cbn [fst]; [|done].
  rewrite dispatch_started. cbn zeta.
  assert (Hb : (b < MAX_TASKS)%nat).
  { pose proof (selected2_registered now os b Hwf Hsel).
    destruct Hwf as (_ & ? & _). lia. }
  pose proof (wf2_scanned now os Hwf) as Hwfs.
  assert (H3 : boxes_ok (calls (body b) (started now b (scanned now os)))).
  { apply boxes_ok_calls; [|done|].
    - apply wf2_upd; [done|]. destruct Hwfs as (? & ? & ? & ?).
      by repeat split.
    - by apply boxes_ok_keep. }
  change (boxes_ok (set_ctxSw ?v ?o)) with (boxes_ok o).
  destruct (_ =? _); [by apply boxes_ok_keep|done].
Qed.

Lemma boxes_ok_add_all adds : forall os,
  boxes_ok os -> boxes_ok (snd (add_all adds os)).
Proof.
  induction adds as [|[[f p] pr] adds IH]; intros os Hok; [done|].
  cbn [add_all]. pose proof (boxes_ok_add f p pr os Hok) as Hok1.
  destruct (add f p pr os) as [r os1]. cbn [snd] in Hok1.
  specialize (IH os1 Hok1). by destruct (add_all adds os1).
Qed.

Lemma boxes_ok_run its : forall os,
  wf2 os ->
  Forall (fun it => forall j, Forall call_ok (snd it j)) its ->
  boxes_ok os -> boxes_ok (fst (run its os)).
Proof.
  induction its as [|[now body] its IH]; intros os Hwf Hits Hok; [done|].
  apply Forall_cons in Hits as [Hbody Hits]. cbn [snd] in Hbody. cbn [run].
  pose proof (wf2_iteration now body os Hwf) as Hwf1.
  pose proof (boxes_ok_iteration now body os Hwf Hbody Hok) as Hok1.
  destruct (iteration now body os) as [os1 d]. cbn [fst] in *.
  specialize (IH os1 Hwf1 Hits Hok1). by destruct (run its os1).
Qed.

End Reachable.

(** X12.  The shape of the kernel is an invariant: after any
    registrations on a fresh kernel and any run of iterations in which
    every [sendMessage] is given a buffer that holds the bytes it
    announces, the table has its six slots, at most six tasks are
    registered, the current task is one of the six slots, every priority
    fits its two bits, and every mailbox has its eight bytes of storage
    and a stored size of at most 8, so that [receiveMessage] never copies
    from beyond the storage. *)
Theorem reachable_kernel_well_formed adds its :
  Forall (fun it => forall j, Forall call_ok (snd it j)) its ->
  wf2 (fst (V2.run its (snd (V2.add_all adds V2.init)))) /\
  boxes_ok (fst (V2.run its (snd (V2.add_all adds V2.init)))).
Proof.
  intros Hits.
  assert (Hwf : wf2 (snd (V2.add_all adds V2.init)))
    by apply wf2_add_all, wf2_init.
  split; [by apply wf2_run|].
  apply boxes_ok_run; [done|done|]. apply boxes_ok_add_all, boxes_ok_init.
Qed.

(** ** The bus manager, continued *)

Lemma only_current_low_op M (o : BusOp) (b : bus M) :
  M = spi1 \/ M = spi2 ->
  only_current_low M b -> only_current_low M (bus_op M b o).
Proof.
  intros HM Hinv. destruct o as [d|]; cbn [bus_op].
  - destruct (choose_spec M HM d b) as [Hsame Hother].
    destruct (decide (current M b = d)) as [Hd|Hd].
    + by rewrite Hsame.
    + destruct (Hother Hd) as (Hcur & _ & Hlatch).
      intros p. rewrite Hcur, Hlatch.
      destruct (decide (p = d)) as [->|Hpd]; [done|].
      rewrite lookup_insert_ne by done.
      destruct (decide (p = current M b)) as [->|Hpc].
      * by rewrite lookup_insert_eq.
      * rewrite lookup_insert_ne by done. intros Hlow.
        by apply Hinv in Hlow.
  - destruct (release_spec M HM b) as (Hcur & _ & Hlatch).
    intros p. rewrite Hcur, Hlatch.
    destruct (decide (p = 10)) as [->|H10]; [by rewrite lookup_insert_eq|].
    rewrite lookup_insert_ne by done.
    destruct (decide (p = 4)) as [->|H4]; [by rewrite lookup_insert_eq|].
    rewrite lookup_insert_ne by done. apply Hinv.
Qed.

(** X13.  The bus manager keeps at most one device asserted: if no pin
    other than the recorded device is LOW, this is so again after any
    sequence of select and deselect calls, in either variant.  It holds
    at reset, when no pin has been written. *)
Theorem one_device_asserted M (ops : list BusOp) : forall b : bus M,
  M = spi1 \/ M = spi2 ->
  only_current_low M b -> only_current_low M (bus_run M ops b).
Proof.
  unfold bus_run. induction ops as [|o ops IH]; intros b HM Hinv; [done|].
  cbn [foldl]. apply IH; [done|]. by apply only_current_low_op.
Qed.

Lemma one_device_asserted_from_reset :
  (spi2 = spi1 \/ spi2 = spi2) /\
  only_current_low spi2 V2.bus_init /\
  only_current_low spi2
    (bus_run spi2 [OSelect 10; ODeselect; OSelect 4; OSelect 10] V2.bus_init).
Proof.
  assert (HM : spi2 = spi1 \/ spi2 = spi2) by (right; reflexivity).
  assert (Hinit : only_current_low spi2 V2.bus_init).
  { intros p Hp. cbn in Hp. by rewrite lookup_empty in Hp. }
  split; [exact HM|]. split; [exact Hinit|].
  exact (one_device_asserted spi2 [OSelect 10; ODeselect; OSelect 4; OSelect 10]
           V2.bus_init HM Hinit).
Defined.

Lemma bus_run_app M ops1 ops2 (b : bus M) :
  bus_run M (ops1 ++ ops2) b = bus_run M ops2 (bus_run M ops1 b).
Proof. unfold bus_run. apply foldl_app. Qed.

(** The trace only grows. *)
Lemma bus_run_grows M ops : forall y : bus M,
  M = spi1 \/ M = spi2 ->
  trace (wires M (bus_run M ops y)) = trace (wires M y) ++ made M y (bus_run M ops y).
Proof.
  induction ops as [|o ops IH]; intros y HM.
  - cbn. unfold made. by rewrite drop_all, app_nil_r.
  - unfold bus_run. cbn [foldl]. fold (bus_run M ops (bus_op M y o)).
    assert (Hstep : exists tr,
              trace (wires M (bus_op M y o)) = trace (wires M y) ++ tr).
    { destruct o as [e|]; cbn [bus_op].
      - destruct (choose_spec M HM e y) as [Hs Ho].
        destruct (decide (current M y = e)) as [He|He].
        + rewrite (Hs He). exists []. by rewrite app_nil_r.
        + destruct (Ho He) as (_ & -> & _). by eexists.
      - destruct (release_spec M HM y) as (_ & -> & _). by eexists. }
    destruct Hstep as [tr Htr]. rewrite (IH _ HM), Htr.
    unfold made at 2. rewrite (IH _ HM), Htr, <- app_assoc.
    by rewrite drop_own_length.
Qed.

(** X14.  Once a device is recorded, bracketed transactions on that same
    device never assert it: in any number of select(d); deselect() pairs
    made from a state that records [d], every select is coalesced, the
    only writes are the HIGH writes of deselect to pins 4 and 10, and no
    LOW is written to any pin. *)
Theorem same_device_never_reasserted M (k : nat) : forall (b : bus M) d,
  M = spi1 \/ M = spi2 ->
  current M b = d ->
  current M (bus_run M (transactions k d) b) = d /\
  made M b (bus_run M (transactions k d) b)
    = concat (replicate k [(4, HIGH); (10, HIGH)]) /\
  forall p, writes p LOW (made M b (bus_run M (transactions k d) b)) = 0%nat.
Proof.
  induction k as [|k IH]; intros b d HM Hcur.
  - cbn. unfold made. rewrite drop_all. by repeat split.
  - unfold transactions. cbn [replicate concat].
    fold (transactions k d). rewrite bus_run_app.
    change (bus_run M [OSelect d; ODeselect] b)
      with (release M (choose M d b)).
    destruct (choose_spec M HM d b) as [Hsame _]. rewrite (Hsame Hcur).
    destruct (release_spec M HM b) as (Hrc & Hrt & _).
    destruct (IH (release M b) d HM ltac:(by rewrite Hrc)) as (Hc & Hm & Hw).
    split; [done|].
    assert (Hmade : made M b (bus_run M (transactions k d) (release M b)) =
              [(4, HIGH); (10, HIGH)]
                ++ concat (replicate k [(4, HIGH); (10, HIGH)])).
    { unfold made at 1. rewrite (bus_run_grows M _ _ HM), Hm, Hrt.
      rewrite <- app_assoc. by rewrite drop_own_length. }
    split; [exact Hmade|].
    intros p. rewrite Hmade. cbn [app].
    rewrite !writes_cons, !decide_False by congruence.
    rewrite <- Hm. apply Hw.
Qed.

(** ** The kernel of the compact variant *)

Section Frames_V1.
Import V1.

Lemma task1_upd i j f os :
  task (upd i f os) j =
  if decide (i = j /\ (i < length (tasks os))%nat) then f (task os i)
  else task os j.
Proof. unfold task, upd. cbn. apply list_lookup_total_alter. Qed.

Lemma task1_upd_field {A} (g : Task -> A) i f os j :
  (forall x, g (f x) = g x) -> g (task (upd i f os) j) = g (task os j).
Proof.
  intros Hf. rewrite task1_upd. case_decide as Hk; [|done].
  destruct Hk as [-> _]. apply Hf.
Qed.

Lemma wf1_upd i f os : wf1 os -> wf1 (upd i f os).
Proof. intros [Hlen Hn]. split; [|done]. cbn. by rewrite length_alter. Qed.

Lemma wf1_call c os : wf1 os -> wf1 (call c os).
Proof.
  intros Hwf. destruct c; cbn [call].
  - by apply wf1_upd.
  - unfold suspendTask. destruct (_ <? _)%nat; [|done]. cbn [snd].
    destruct (negb _); [|done]. by apply (wf1_upd i).
  - unfold resumeTask. destruct (_ <? _)%nat; [|done]. cbn [snd].
    destruct (_ =? _); [|done]. by apply (wf1_upd i).
  - unfold addTask. destruct (Nat.leb_spec MAX_TASKS (taskCount os)); [done|].
    cbn [snd]. destruct Hwf as [Hlen Hn]. split; cbn.
    + by rewrite length_alter.
    + lia.
Qed.

Lemma wf1_calls cs : forall os, wf1 os -> wf1 (calls cs os).
Proof.
  unfold calls. induction cs as [|c cs IH]; intros os Hwf; [done|].
  cbn. by apply IH, wf1_call.
Qed.

Lemma call1_frame c os j :
  (j < taskCount os)%nat ->
  timing1 (task (call c os) j) = timing1 (task os j) /\
  (taskCount os <= taskCount (call c os))%nat /\
  currentTask (call c os) = currentTask os.
Proof.
  intros Hj. destruct c; cbn [call].
  - unfold sleep. by rewrite (task1_upd_field timing1).
  - unfold suspendTask. destruct (_ <? _)%nat; [|done]. cbn [snd].
    destruct (negb _); [|done]. by rewrite (task1_upd_field timing1).
  - unfold resumeTask. destruct (_ <? _)%nat; [|done]. cbn [snd].
    destruct (_ =? _); [|done]. by rewrite (task1_upd_field timing1).
  - unfold addTask. destruct (_ <=? _)%nat; [done|]. cbn [snd].
    change (task (set_taskCount ?k ?o) j) with (task o j).
    rewrite task1_upd_ne by lia. cbn. split; [done|]. split; [lia|done].
Qed.

Lemma calls1_frame cs : forall os j,
  (j < taskCount os)%nat ->
  timing1 (task (calls cs os) j) = timing1 (task os j) /\
  (taskCount os <= taskCount (calls cs os))%nat /\
  currentTask (calls cs os) = currentTask os.
Proof.
  unfold calls. induction cs as [|c cs IH]; intros os j Hj; [done|].
  cbn [foldl]. destruct (call1_frame c os j Hj) as (Ht & Hn & Hc).
  destruct (IH (call c os) j ltac:(lia)) as (Ht' & Hn' & Hc').
  rewrite Ht', Ht, Hc', Hc. split; [done|]. split; [lia|done].
Qed.

Lemma started1_frame now b os :
  wf1 os -> (b < taskCount os)%nat ->
  currentTask (started1 now b os) = b /\
  taskCount (started1 now b os) = taskCount os /\
  lastRun (task (started1 now b os) b) = u16 now /\
  wf1 (started1 now b os).
Proof.
  intros [Hlen Hn] Hb. unfold started1.
  rewrite task1_upd_eq by (cbn; lia).
  repeat split; try done. cbn. by rewrite length_alter.
Qed.

End Frames_V1.

(** X15.  In the compact variant [shouldYield] compares the 32-bit clock
    with the 16-bit copy of the dispatch time.  For a dispatch at a time
    below 2^16 it is true exactly when more than 2000 ms have passed; for
    a dispatch at any later time it is true at every moment of the
    dispatch, from the first check on, whatever the entry point has
    called. *)
Theorem compact_budget_lost_after_16_bits os now b cs :
  wf1 os -> (b < V1.taskCount os)%nat ->
  (forall e, 0 <= now < 2 ^ 16 -> 0 <= e < 2 ^ 32 ->
     V1.shouldYield (u32 (now + e)) (V1.calls cs (started1 now b os))
       = (e >? 2000)) /\
  (forall clock, 2 ^ 16 <= now -> now <= clock < 2 ^ 32 ->
     V1.shouldYield clock (V1.calls cs (started1 now b os)) = true).
Proof.
  intros Hwf Hb.
  destruct (started1_frame now b os Hwf Hb) as (Hcur & Hn & Hlast & _).
  destruct (calls1_frame cs (started1 now b os) b ltac:(lia))
    as (Htim & _ & Hcur').
  assert (Hl : V1.lastRun (V1.task (V1.calls cs (started1 now b os)) b)
               = u16 now).
  { unfold timing1 in Htim. by injection Htim as _ _ -> _. }
  unfold V1.shouldYield. rewrite Hcur', Hcur, Hl. split.
  - intros e Hnow He.
    replace (u16 now) with now by (unfold u16, wrap; by rewrite Z.mod_small).
    by rewrite u32_sub_back.
  - intros clock Hnow Hclock. apply Z.gtb_lt. unfold u16, u32, wrap.
    change (2 ^ 16) with 65536 in *. change (2 ^ 32) with 4294967296 in *.
    pose proof (Z.mod_pos_bound now 65536 ltac:(lia)) as Hr.
    pose proof (Z.div_mod now 65536 ltac:(lia)) as Hq.
    assert (1 <= now / 65536) by (apply Z.div_le_lower_bound; lia).
    rewrite Z.mod_small by lia. lia.
Qed.

Section Run_V1.
Import V1.

Lemma scanned1_frame now os :
  wf1 os ->
  scanned now os = set_tasks (tasks (scanned now os)) os /\
  length (tasks (scanned now os)) = length (tasks os) /\
  forall j, task (scanned now os) j =
            if (j <? taskCount os)%nat && negb (suspended os j)
            then wake now (task os j) else task os j.
Proof.
  intros [Hlen Hn]. unfold scanned, scan.
  by destruct (scan1_prefix now os (taskCount os) ltac:(lia))
    as (? & ? & ? & _).
Qed.

Lemma wf1_scanned now os : wf1 os -> wf1 (scanned now os).
Proof.
  intros Hwf. destruct (scanned1_frame now os Hwf) as (Heq & Hlen & _).
  destruct Hwf as [Hl Hn]. split; [by rewrite Hlen|]. by rewrite Heq.
Qed.

Lemma priority_scanned now os j :
  wf1 os -> priority (task (scanned now os) j) = priority (task os j).
Proof.
  intros Hwf. destruct (scanned1_frame now os Hwf) as (_ & _ & ->).
  destruct (_ && _); [apply priority_wake|done].
Qed.

Lemma selected1_registered now os b :
  wf1 os -> selected now os = Some b ->
  (b < taskCount os)%nat /\ 0 < priority (task os b).
Proof.
  intros Hwf Hsel. pose proof (selected1_spec now os Hwf) as Hspec.
  rewrite Hsel in Hspec. destruct Hspec as ([Hel _] & Hpos & _).
  split; [|done]. unfold eligible1 in Hel.
  apply andb_true_iff in Hel as [Hel _].
  apply andb_true_iff in Hel as [Hel _]. by apply Nat.ltb_lt.
Qed.

Lemma dispatch1_frame now b body os j :
  wf1 os -> (b < taskCount os)%nat -> (j < taskCount os)%nat ->
  wf1 (dispatch now b body os) /\
  (taskCount os <= taskCount (dispatch now b body os))%nat /\
  priority (task (dispatch now b body os) j) = priority (task os j).
Proof.
  intros Hwf Hb Hj.
  change (dispatch now b body os) with
    (let os3 := calls body (started1 now b os) in
     let os4 := if state (task os3 (currentTask os3)) =? TASK_RUNNING
                then upd (currentTask os3) (set_state TASK_READY) os3
                else os3 in
     set_contextSwitches (u16 (contextSwitches os4 + 1)) os4).
  cbn zeta.
  destruct (started1_frame now b os Hwf Hb) as (_ & Hn & _ & Hwf2).
  pose proof (wf1_calls body _ Hwf2) as Hwf3.
  destruct (calls1_frame body (started1 now b os) j ltac:(lia))
    as (Htim & Hn3 & _).
  assert (Hp : priority (task (calls body (started1 now b os)) j)
               = priority (task os j)).
  { unfold timing1 in Htim. injection Htim as _ _ _ ->.
    unfold started1. by rewrite (task1_upd_field priority). }
  destruct (_ =? _).
  - split; [by apply (wf1_upd _ _ _ Hwf3)|]. split; [cbn; lia|].
    change (task (set_contextSwitches ?v ?o) j) with (task o j).
    by rewrite (task1_upd_field priority).
  - split; [exact Hwf3|]. split; [cbn; lia|done].
Qed.

Lemma iteration1_frame now body os j :
  wf1 os -> (j < taskCount os)%nat ->
  wf1 (fst (iteration now body os)) /\
  (j < taskCount (fst (iteration now body os)))%nat /\
  priority (task (fst (iteration now body os)) j) = priority (task os j) /\
  (priority (task os j) = 0 -> snd (iteration now body os) <> Some j).
Proof.
  intros Hwf Hj. pose proof (wf1_scanned now os Hwf) as Hwfs.
  assert (Hns : taskCount (scanned now os) = taskCount os).
  { by destruct (scanned1_frame now os Hwf) as (-> & _). }
  unfold iteration. destruct (selected now os) as [b|] eqn:Hsel;
    cbn [fst snd].
  - destruct (selected1_registered now os b Hwf Hsel) as [Hb Hpos].
    destruct (dispatch1_frame now b (body b) (scanned now os) j Hwfs
                ltac:(lia) ltac:(lia)) as (Hwfd & Hnd & Hpd).
    split; [done|]. split; [lia|]. split.
    + by rewrite Hpd, priority_scanned.
    + intros Hzero [= ->]. lia.
  - split; [done|]. split; [lia|]. split; [by apply priority_scanned|done].
Qed.

End Run_V1.

(** X16.  The compact variant never runs a task of priority 0: a task
    registered with priority 0 is dispatched in no iteration of any run,
    whatever the times read and whatever the entry points call. *)
Theorem compact_never_runs_priority_zero its : forall os i,
  wf1 os -> (i < V1.taskCount os)%nat ->
  V1.priority (V1.task os i) = 0 ->
  Forall (fun d => d <> Some i) (snd (V1.run its os)).
Proof.
  induction its as [|[now body] its IH]; intros os i Hwf Hi Hzero.
  - constructor.
  - cbn [V1.run].
    destruct (iteration1_frame now body os i Hwf Hi) as (Hwf1 & Hi1 & Hp & Hd).
    destruct (V1.iteration now body os) as [os1 d]. cbn [fst snd] in *.
    specialize (IH os1 i Hwf1 Hi1 ltac:(by rewrite Hp)).
    destruct (V1.run its os1) as [os2 ds]. cbn [snd] in *.
    apply Forall_cons. split; [by apply Hd|done].
Qed.

(** ** The compact variant follows the unified one *)

Lemma to_V1_upd i f g os :
  (forall x, to_V1_task (f x) = g (to_V1_task x)) ->
  to_V1 (V2.upd i f os) = V1.upd i g (to_V1 os).
Proof.
  intros Hfg. unfold to_V1, V2.upd, V1.upd, V1.set_tasks. cbn. f_equal.
  apply list_fmap_alter, Forall_forall. intros x _. apply Hfg.
Qed.

Lemma to_V1_upd_same i f os :
  (forall x, to_V1_task (f x) = to_V1_task x) ->
  to_V1 (V2.upd i f os) = to_V1 os.
Proof.
  intros Hf. rewrite (to_V1_upd i f (fun x => x)) by done.
  unfold V1.upd. rewrite list_alter_id by done. by destruct os.
Qed.

Lemma to_V1_sleep clock ms os :
  to_V1 (V2.sleep clock ms os) = V1.sleep clock ms (to_V1 os).
Proof. unfold V2.sleep, V1.sleep. by apply to_V1_upd. Qed.

Lemma to_V1_suspendTask i os :
  V1.suspendTask i (to_V1 os) =
  (fst (V2.suspendTask i os), to_V1 (snd (V2.suspendTask i os))).
Proof.
  unfold V1.suspendTask, V2.suspendTask. cbn [V1.taskCount to_V1].
  destruct (_ <? _)%nat; [|done]. cbn [fst snd]. f_equal.
  change (V1.set_suspendFlags ?v (to_V1 os))
    with (to_V1 (V2.set_suspendFlags v os)).
  rewrite to_V1_task_lookup. cbn [V1.state to_V1_task].
  change V1.TASK_WAITING with V2.T_WAIT.
  destruct (negb _); [|done]. symmetry. by apply to_V1_upd.
Qed.

Lemma to_V1_resumeTask i os :
  V1.resumeTask i (to_V1 os) =
  (fst (V2.resumeTask i os), to_V1 (snd (V2.resumeTask i os))).
Proof.
  unfold V1.resumeTask, V2.resumeTask. cbn [V1.taskCount to_V1].
  destruct (_ <? _)%nat; [|done]. cbn [fst snd]. f_equal.
  change (V1.set_suspendFlags ?v (to_V1 os))
    with (to_V1 (V2.set_suspendFlags v os)).
  rewrite to_V1_task_lookup. cbn [V1.state to_V1_task].
  change V1.TASK_SUSPENDED with V2.T_SUSPENDED.
  destruct (_ =? _); [|done]. symmetry. by apply to_V1_upd.
Qed.

Lemma to_V1_add f p pr os :
  0 <= pr < 4 ->
  V1.addTask f p pr 0 (to_V1 os) =
  (fst (V2.add f p pr os), to_V1 (snd (V2.add f p pr os))).
Proof.
  intros Hpr.
  assert (Hfit : wrap 2 pr = pr) by (unfold wrap; by apply Z.mod_small).
  unfold V1.addTask, V2.add. rewrite Hfit. cbn [V1.taskCount to_V1].
  destruct (_ <=? _)%nat; [done|]. cbn [fst snd]. f_equal.
  change (to_V1 (V2.set_n ?k ?o)) with (V1.set_taskCount k (to_V1 o)).
  f_equal. symmetry. by apply to_V1_upd.
Qed.

Lemma to_V1_calls_one c os :
  priority_fits c ->
  V1.calls (to_V1_call c) (to_V1 os) = to_V1 (V2.call c os).
Proof.
  intros Hfit.
  destruct c; cbn [to_V1_call V2.call]; unfold V1.calls; cbn [foldl V1.call].
  - by rewrite to_V1_sleep.
  - by rewrite to_V1_suspendTask.
  - by rewrite to_V1_resumeTask.
  - unfold V2.sendMessage. destruct (_ || _); [done|].
    destruct (V2.pending _); [done|]. cbn [snd]. symmetry.
    by apply to_V1_upd_same.
  - unfold V2.receiveMessage. destruct (negb _); [done|]. cbn [snd].
    symmetry. by apply to_V1_upd_same.
  - by rewrite to_V1_add.
Qed.

Lemma V1_calls_app cs1 cs2 os :
  V1.calls (cs1 ++ cs2) os = V1.calls cs2 (V1.calls cs1 os).
Proof. unfold V1.calls. apply foldl_app. Qed.

Lemma to_V1_calls cs : forall os,
  Forall priority_fits cs ->
  V1.calls (concat (to_V1_call <$> cs)) (to_V1 os) = to_V1 (V2.calls cs os).
Proof.
  induction cs as [|c cs IH]; intros os Hfit; [done|].
  apply Forall_cons in Hfit as [Hc Hcs].
  cbn [fmap list_fmap concat].
  rewrite V1_calls_app, to_V1_calls_one by done.
  by apply IH.
Qed.

(** With room in the table, [addTask] stores the priority it is given and
    [add] stores its two low bits. *)
Lemma add_priority_stored f p pr os :
  length (V2.t os) = MAX_TASKS -> (V2.n os < MAX_TASKS)%nat ->
  V1.priority (V1.task (snd (V1.addTask f p pr 0 (to_V1 os))) (V2.n os)) = pr /\
  V2.pri (V2.task (snd (V2.add f p pr os)) (V2.n os)) = wrap 2 pr.
Proof.
  intros Hlen Hn. unfold V1.addTask, V2.add. cbn [V1.taskCount to_V1].
  destruct (Nat.leb_spec MAX_TASKS (V2.n os)) as [Hfull|_]; [lia|].
  cbn [snd]. split.
  - change (V1.task (V1.set_taskCount ?k ?o) ?i) with (V1.task o i).
    rewrite task1_upd_eq; [done|].
    cbn. rewrite length_fmap. lia.
  - change (V2.task (V2.set_n ?k ?o) ?i) with (V2.task o i).
    rewrite task_upd_eq by lia. done.
Qed.

Lemma to_V1_scan_fold now l : forall os b2 m2 b1 m1,
  fst (fst (foldl (V1.scan_body now) (to_V1 os, b1, m1) l)) =
  to_V1 (fst (fst (foldl (V2.scan_body now) (os, b2, m2) l))).
Proof.
  induction l as [|i l IH]; intros os b2 m2 b1 m1; [done|].
  cbn [foldl]. unfold V1.scan_body at 2, V2.scan_body at 2.
  change (V1.suspended (to_V1 os) i) with (V2.suspended os i).
  destruct (V2.suspended os i); [apply IH|].
  rewrite <- (to_V1_upd i (V2.wake now) (V1.wake now))
    by (intros; by rewrite to_V1_wake).
  destruct (V1.due now _); [destruct (_ >? _)|];
    (destruct (V2.due now _); [destruct (_ >=? _)|]); apply IH.
Qed.

Lemma to_V1_scanned now os :
  V1.scanned now (to_V1 os) = to_V1 (V2.scanned now os).
Proof. unfold V1.scanned, V2.scanned, V1.scan, V2.scan. apply to_V1_scan_fold. Qed.

Lemma dispatch1_started now b body os :
  V1.dispatch now b body os =
  let os3 := V1.calls body (started1 now b os) in
  let os4 :=
    if V1.state (V1.task os3 (V1.currentTask os3)) =? V1.TASK_RUNNING
    then V1.upd (V1.currentTask os3) (V1.set_state V1.TASK_READY) os3
    else os3 in
  V1.set_contextSwitches (u16 (V1.contextSwitches os4 + 1)) os4.
Proof. reflexivity. Qed.

Lemma to_V1_started now b os :
  started1 now b (to_V1 os) = to_V1 (started now b os).
Proof. unfold started1, started. symmetry. by apply to_V1_upd. Qed.

Lemma to_V1_count o :
  V1.set_contextSwitches (u16 (V1.contextSwitches (to_V1 o) + 1)) (to_V1 o)
  = to_V1 (V2.set_ctxSw (u32 (V2.ctxSw o + 1)) o).
Proof.
  unfold to_V1, V1.set_contextSwitches. cbn. f_equal.
  unfold u16, u32, wrap. rewrite Zplus_mod_idemp_l.
  change (2 ^ 32) with (2 ^ 16 * 2 ^ 16).
  rewrite Z.rem_mul_r by lia.
  rewrite Z.mul_comm, Z_mod_plus_full. by rewrite Z.mod_mod.
Qed.

Lemma to_V1_dispatch now b body os :
  Forall priority_fits body ->
  V1.dispatch now b (concat (to_V1_call <$> body)) (to_V1 os) =
  to_V1 (V2.dispatch now b body os).
Proof.
  intros Hfit.
  rewrite dispatch1_started, dispatch_started. cbn zeta.
  rewrite to_V1_started, to_V1_calls by done.
  set (os3 := V2.calls body (started now b os)).
  change (V1.currentTask (to_V1 os3)) with (V2.cur os3).
  rewrite to_V1_task_lookup.
  change (V1.state (to_V1_task ?x)) with (V2.state x).
  change V1.TASK_RUNNING with V2.T_RUN.
  destruct (V2.state (V2.task os3 (V2.cur os3)) =? V2.T_RUN).
  - rewrite <- (to_V1_upd (V2.cur os3) (V2.set_state V2.T_READY)
                 (V1.set_state V1.TASK_READY)) by done.
    apply to_V1_count.
  - apply to_V1_count.
Qed.

(** X17.  On the fields they share the two variants are the same kernel,
    up to the width of the priority.  Every call of the interface of the
    unified variant does to the table read as a compact one what the
    compact call with the same arguments does ([sleep], [suspendTask],
    [resumeTask], and registration with a priority from 0 to 3; messages
    leave it alone), and whenever the two selection loops pick the same
    task, one iteration of the compact scheduler leaves exactly the table
    that one iteration of the unified scheduler leaves.  Registration
    with a larger priority is where they part: [addTask] stores the
    priority as given, [add] only its two low bits. *)
Theorem compact_follows_unified os :
  (forall c, priority_fits c ->
      V1.calls (to_V1_call c) (to_V1 os) = to_V1 (V2.call c os)) /\
  (forall i,
      V1.suspendTask i (to_V1 os) =
        (fst (V2.suspendTask i os), to_V1 (snd (V2.suspendTask i os))) /\
      V1.resumeTask i (to_V1 os) =
        (fst (V2.resumeTask i os), to_V1 (snd (V2.resumeTask i os)))) /\
  (forall now body,
      (forall j, Forall priority_fits (body j)) ->
      V1.selected now (to_V1 os) = V2.selected now os ->
      V1.iteration now (fun j => concat (to_V1_call <$> body j)) (to_V1 os) =
        (to_V1 (fst (V2.iteration now body os)),
         snd (V2.iteration now body os))) /\
  (forall f p pr,
      length (V2.t os) = MAX_TASKS -> (V2.n os < MAX_TASKS)%nat ->
      V1.priority
        (V1.task (snd (V1.addTask f p pr 0 (to_V1 os))) (V2.n os)) = pr /\
      V2.pri (V2.task (snd (V2.add f p pr os)) (V2.n os)) = wrap 2 pr).
Proof.
  split; [intros c Hc; by apply to_V1_calls_one|]. split; [|split].
  - intros i. split; [apply to_V1_suspendTask|apply to_V1_resumeTask].
  - intros now body Hfit Hsel. unfold V1.iteration, V2.iteration.
    rewrite Hsel.
    destruct (V2.selected now os) as [b|]; cbn [fst snd]; f_equal.
    + rewrite to_V1_scanned. by apply to_V1_dispatch.
    + apply to_V1_scanned.
  - intros f p pr. apply add_priority_stored.
Qed.

(** On the table of three tasks: a registration with priority 3 is the
    same in both variants, one with priority 5 is stored as 5 by
    [addTask] and as 1 by [add]. *)
Lemma compact_follows_unified_at_three_tasks :
  V1.calls (to_V1_call (V2.CAdd 7 10 3)) (to_V1 three_tasks)
    = to_V1 (V2.call (V2.CAdd 7 10 3) three_tasks) /\
  V1.priority
    (V1.task (snd (V1.addTask 7 10 5 0 (to_V1 three_tasks))) 3) = 5 /\
  V2.pri (V2.task (snd (V2.add 7 10 5 three_tasks)) 3) = 1.
Proof.
  destruct (compact_follows_unified three_tasks) as (Hcall & _ & _ & Hadd).
  split.
  - apply (Hcall (V2.CAdd 7 10 3)). cbn. lia.
  - apply (Hadd 7%nat 10 5); [reflexivity | unfold MAX_TASKS; cbn; lia].
Defined.

(** ** The shell's line editor *)

Lemma cstr_terminated (b : list Z) : forall n,
  (n < length b)%nat -> Forall (fun c => c <> 0) (take n b) ->
  cstr (<[n := 0]> b) = take n b.
Proof.
  induction b as [|c b IH]; intros n Hn Hall; [cbn in Hn; lia|].
  destruct n as [|n]; [done|].
  cbn in Hall. apply Forall_cons in Hall as [Hc Hall].
  cbn. apply Z.eqb_neq in Hc. rewrite Hc. f_equal.
  apply IH; [cbn in Hn; lia|done].
Qed.

Lemma length_pokes (ws : list (nat * Z)) : forall b : list Z,
  length (foldl (fun b' w => <[fst w := snd w]> b') b ws) = length b.
Proof.
  induction ws as [|w ws IH]; intros b; [done|].
  cbn. by rewrite IH, length_insert.
Qed.

Lemma shell_in_bounds_event pc s e :
  shell_in_bounds s -> shell_in_bounds (Shell.event pc s e).
Proof.
  unfold shell_in_bounds, Shell.BUFFER_SIZE. intros [Hi Hl].
  destruct e as [c|i c]; cbn [Shell.event].
  - unfold Shell.shellTask_char, Shell.BUFFER_SIZE.
    destruct (is_newline c).
    { cbn. rewrite length_pokes, length_insert. lia. }
    destruct ((c =? 127) || (c =? 8)).
    { destruct (0 <? Shell.idx s)%nat; cbn; lia. }
    destruct ((Shell.idx s <? 20 - 1)%nat && (c >=? 32)) eqn:Hg; [|done].
    apply andb_true_iff in Hg as [Hg _]. apply Nat.ltb_lt in Hg.
    cbn. rewrite length_insert. lia.
  - cbn. rewrite length_insert. lia.
Qed.

Lemma shell_holds_char pc s st c :
  shell_in_bounds s -> shell_holds s st ->
  shell_holds (Shell.shellTask_char pc c s) (edit_char st c).
Proof.
  unfold shell_in_bounds, Shell.BUFFER_SIZE.
  intros [Hi Hl] (Hline & Hnz & Hcmds).
  assert (Hlen : length (fst st) = Shell.idx s).
  { rewrite <- Hline, length_take. lia. }
  unfold Shell.shellTask_char, edit_char, Shell.BUFFER_SIZE.
  destruct (is_newline c).
  { repeat split; cbn; [constructor|].
    rewrite Hcmds. f_equal. f_equal. rewrite <- Hline in Hnz |- *.
    by apply cstr_terminated. }
  destruct ((c =? 127) || (c =? 8)).
  { destruct (0 <? Shell.idx s)%nat eqn:Hpos.
    - repeat split; cbn; [| |done].
      + rewrite <- Hline at 2. rewrite take_take, Hlen. f_equal. lia.
      + by apply Forall_take.
    - apply Nat.ltb_ge in Hpos.
      repeat split; cbn; [|by apply Forall_take|done].
      rewrite Hlen. replace (Shell.idx s) with 0%nat in * by lia.
      cbn. by rewrite <- Hline. }
  rewrite Hlen. change (20 - 1)%nat with 19%nat.
  destruct ((Shell.idx s <? 19)%nat && (c >=? 32)) eqn:Hg; [|done].
  apply andb_true_iff in Hg as [_ Hc]. apply Z.geb_le in Hc.
  repeat split; cbn; [| |done].
  - rewrite Nat.add_1_r.
    rewrite (take_S_r _ _ c) by by apply list_lookup_insert_eq.
    by rewrite take_insert_ge, Hline by lia.
  - apply Forall_app. split; [done|]. apply Forall_cons. split; [lia|constructor].
Qed.

Lemma shell_holds_keys pc keys : forall s st,
  shell_in_bounds s -> shell_holds s st ->
  shell_holds (Shell.shellTask pc (Shell.Key <$> keys) s)
              (foldl edit_char st keys).
Proof.
  induction keys as [|c keys IH]; intros s st Hb Hh; [done|].
  cbn. apply IH.
  - apply (shell_in_bounds_event pc s (Shell.Key c) Hb).
  - by apply shell_holds_char.
Qed.

(** X18.  The shell never indexes outside its buffer: whatever characters
    arrive, whatever [processCommand] and other code write into the
    20-byte buffer in between, the index at which the shell stores the
    next character or the terminating NUL stays below the size of the
    buffer. *)
Theorem shell_index_in_bounds pc es : forall s,
  (Shell.idx s < Shell.BUFFER_SIZE)%nat ->
  length (Shell.globalBuffer s) = Shell.BUFFER_SIZE ->
  (Shell.idx (Shell.shellTask pc es s) < Shell.BUFFER_SIZE)%nat /\
  length (Shell.globalBuffer (Shell.shellTask pc es s)) = Shell.BUFFER_SIZE.
Proof.
  induction es as [|e es IH]; intros s Hi Hl; [done|].
  cbn.
  assert (Hb : shell_in_bounds (Shell.event pc s e)).
  { apply shell_in_bounds_event. split; [by rewrite Hl|done]. }
  destruct Hb as [Hi' Hl']. apply IH; [by rewrite <- Hl'|done].
Qed.

(** X19.  The shell is a line editor.  Starting with an empty line, and
    with nobody else writing to the buffer while a line is typed, the
    lines handed to [processCommand] are exactly those of the editor in
    which a newline or carriage return completes the line, DEL and
    backspace remove its last character, and a character of code 32 or
    more is appended while the line has fewer than 19 characters;
    whatever [processCommand] leaves in the buffer does not show in later
    lines. *)
Theorem shell_is_line_editor pc keys s :
  Shell.idx s = 0%nat ->
  length (Shell.globalBuffer s) = Shell.BUFFER_SIZE ->
  Shell.commands (Shell.shellTask pc (Shell.Key <$> keys) s) =
  snd (foldl edit_char ([], Shell.commands s) keys).
Proof.
  intros Hi Hl.
  destruct (shell_holds_keys pc keys s ([], Shell.commands s))
    as (_ & _ & Hcmds); [| |done].
  - split; [|done]. rewrite Hi, Hl. unfold Shell.BUFFER_SIZE. lia.
  - unfold shell_holds. rewrite Hi. by repeat split.
Qed.

(** ** The telnet login *)

Lemma kept_nonzero l : Forall (fun c => c <> 0) (kept l).
Proof.
  unfold kept. apply Forall_take.
  induction l as [|c l IH]; [constructor|].
  rewrite filter_cons. case_decide; [|done].
  apply Forall_cons. split; [lia|done].
Qed.

Lemma length_kept l : (length (kept l) <= 23)%nat.
Proof. unfold kept. rewrite length_take. lia. Qed.

Lemma kept_snoc pre c :
  kept (pre ++ [c]) =
  if (length (kept pre) <? 23)%nat && (c >=? 32) then kept pre ++ [c]
  else kept pre.
Proof.
  unfold kept. rewrite filter_app, length_take.
  set (f := filter (fun c0 : Z => 32 <= c0) pre).
  rewrite filter_cons, filter_nil.
  destruct (c >=? 32) eqn:Hc.
  - apply Z.geb_le in Hc. rewrite decide_True by done.
    destruct (23 `min` length f <? 23)%nat eqn:Hlt; cbn [andb].
    + apply Nat.ltb_lt in Hlt.
      rewrite (take_ge f) by lia. apply take_ge. rewrite length_app. cbn. lia.
    + apply Nat.ltb_ge in Hlt. apply take_app_le. lia.
  - rewrite andb_false_r.
    assert (~ 32 <= c) by (intros H; apply Z.geb_le in H; congruence).
    rewrite decide_False by done. by rewrite app_nil_r.
Qed.

Lemma telnet_holds_char c s pre :
  is_newline c = false -> telnet_holds s pre ->
  telnet_holds (Telnet.telnetAuth_char c s) (pre ++ [c]) /\
  Telnet.telnetState (Telnet.telnetAuth_char c s) = Telnet.telnetState s.
Proof.
  unfold telnet_holds, Telnet.BUF_SIZE. intros Hnl (Hc & Hl & Hi & Ht).
  unfold Telnet.telnetAuth_char, Telnet.BUF_SIZE. rewrite Hnl, kept_snoc.
  change (24 - 1)%nat with 23%nat. rewrite <- Hi.
  destruct ((Telnet.telnetIndex s <? 23)%nat && (c >=? 32)) eqn:Hg; [|done].
  apply andb_true_iff in Hg as [Hlt _]. apply Nat.ltb_lt in Hlt.
  cbn. rewrite length_insert, length_app, <- Hi. cbn.
  split; [|done]. split; [done|]. split; [done|]. split; [done|].
  rewrite Nat.add_1_r.
  rewrite (take_S_r _ _ c) by (apply list_lookup_insert_eq; lia).
  by rewrite take_insert_ge, Ht by lia.
Qed.

Lemma telnet_holds_terminated s pre :
  telnet_holds s pre ->
  cstr (<[Telnet.telnetIndex s := 0]> (Telnet.gbuf s)) = kept pre.
Proof.
  unfold telnet_holds, Telnet.BUF_SIZE. intros (Hc & Hl & Hi & Ht).
  rewrite <- Ht. apply cstr_terminated.
  - pose proof (length_kept pre). lia.
  - rewrite Ht. apply kept_nonzero.
Qed.

(** What a newline does in each state of the login. *)
Lemma telnet_newline c s pre :
  is_newline c = true -> telnet_holds s pre ->
  let s' := Telnet.telnetAuth_char c s in
  (Telnet.telnetState s = 1 ->
     if decide (kept pre = Telnet.admin)
     then telnet_holds s' [] /\ Telnet.telnetState s' = 2
     else Telnet.connected s' = false /\ Telnet.telnetState s' = 1) /\
  (Telnet.telnetState s = 2 ->
     if decide (kept pre = Telnet.nimbus)
     then telnet_holds s' [] /\ Telnet.telnetState s' = 3
     else Telnet.connected s' = false /\ Telnet.telnetState s' = 2) /\
  (Telnet.telnetState s = 3 ->
     telnet_holds s' [] /\ Telnet.telnetState s' = 3).
Proof.
  intros Hnl Hh. pose proof (telnet_holds_terminated s pre Hh) as Hstr.
  destruct Hh as (Hc & Hl & Hi & Ht).
  cbn zeta. unfold Telnet.telnetAuth_char, Telnet.strcmp_eq.
  rewrite Hnl, Hstr. unfold telnet_holds.
  split; [|split]; intros Hs; rewrite Hs; cbn [Z.eqb Pos.eqb].
  - case_bool_decide; [rewrite decide_True by done|rewrite decide_False by done];
      cbn; rewrite ?length_insert; by repeat split.
  - case_bool_decide; [rewrite decide_True by done|rewrite decide_False by done];
      cbn; rewrite ?length_insert; by repeat split.
  - cbn. rewrite length_insert. by repeat split.
Qed.

Lemma telnet_stopped cs s :
  Telnet.connected s = false -> Telnet.telnetAuth cs s = s.
Proof. intros H. destruct cs; cbn; [done|by rewrite H]. Qed.

Lemma telnet_logged_in cs : forall s pre,
  telnet_holds s pre -> Telnet.telnetState s = 3 ->
  Telnet.telnetState (Telnet.telnetAuth cs s) = 3 /\
  Telnet.connected (Telnet.telnetAuth cs s) = true.
Proof.
  induction cs as [|c cs IH]; intros s pre Hh H3.
  { split; [done|]. by destruct Hh. }
  cbn. destruct Hh as [Hc Hh]. rewrite Hc.
  assert (Hh' : telnet_holds s pre) by done.
  destruct (is_newline c) eqn:Hnl.
  - destruct (telnet_newline c s pre Hnl Hh') as (_ & _ & H).
    destruct (H H3) as [Hh2 H32]. by apply (IH _ []).
  - destruct (telnet_holds_char c s pre Hnl Hh') as [Hh2 H32].
    apply (IH _ (pre ++ [c])); [done|congruence].
Qed.

(** Receiving up to the first newline. *)
Lemma telnet_line cs : forall s pre,
  telnet_holds s pre ->
  match split_line cs with
  | None =>
      telnet_holds (Telnet.telnetAuth cs s) (pre ++ cs) /\
      Telnet.telnetState (Telnet.telnetAuth cs s) = Telnet.telnetState s
  | Some (l, r) =>
      exists s1 nl,
        is_newline nl = true /\ telnet_holds s1 (pre ++ l) /\
        Telnet.telnetState s1 = Telnet.telnetState s /\
        Telnet.telnetAuth cs s =
          Telnet.telnetAuth r (Telnet.telnetAuth_char nl s1)
  end.
Proof.
  induction cs as [|c cs IH]; intros s pre Hh.
  { cbn. by rewrite app_nil_r. }
  cbn [split_line Telnet.telnetAuth].
  assert (Hc : Telnet.connected s = true) by by destruct Hh.
  rewrite Hc. destruct (is_newline c) eqn:Hnl.
  { exists s, c. by rewrite app_nil_r. }
  destruct (telnet_holds_char c s pre Hnl Hh) as [Hh2 Hst].
  specialize (IH _ _ Hh2).
  destruct (split_line cs) as [[l r]|].
  - destruct IH as (s1 & nl & H1 & H2 & H3 & H4).
    exists s1, nl. rewrite <- app_assoc in H2. cbn in H2.
    split; [done|]. split; [done|]. split; [congruence|done].
  - rewrite <- app_assoc in IH. cbn in IH.
    destruct IH as [H1 H2]. split; [done|congruence].
Qed.

Lemma telnet_holds_accept s :
  length (Telnet.gbuf s) = Telnet.BUF_SIZE ->
  telnet_holds (Telnet.accept s) [].
Proof. intros Hl. by repeat split. Qed.

Lemma telnetAuth_login cs s :
  length (Telnet.gbuf s) = Telnet.BUF_SIZE ->
  (Telnet.telnetState (Telnet.telnetAuth cs (Telnet.accept s)),
   Telnet.connected (Telnet.telnetAuth cs (Telnet.accept s))) = login cs.
Proof.
  intros Hl. pose proof (telnet_holds_accept s Hl) as Hh.
  pose proof (telnet_line cs _ _ Hh) as H1. unfold login.
  destruct (split_line cs) as [[l1 r1]|].
  2:{ destruct H1 as [(Hc & _) Hst]. by rewrite Hst, Hc. }
  destruct H1 as (s1 & nl & Hnl & Hh1 & Hst1 & ->).
  destruct (telnet_newline nl s1 _ Hnl Hh1) as (Hadmin & _ & _).
  specialize (Hadmin Hst1). cbn [app] in Hadmin.
  destruct (decide (kept l1 = Telnet.admin)).
  2:{ destruct Hadmin as [Hc Hst]. rewrite telnet_stopped by done.
      by rewrite Hc, Hst. }
  destruct Hadmin as [Hh2 Hst2].
  pose proof (telnet_line r1 _ _ Hh2) as H2.
  destruct (split_line r1) as [[l2 r2]|].
  2:{ destruct H2 as [(Hc & _) Hst]. by rewrite Hst, Hc, Hst2. }
  destruct H2 as (s3 & nl2 & Hnl2 & Hh3 & Hst3 & ->).
  destruct (telnet_newline nl2 s3 _ Hnl2 Hh3) as (_ & Hpw & _).
  rewrite Hst2 in Hst3. specialize (Hpw Hst3). cbn [app] in Hpw.
  destruct (decide (kept l2 = Telnet.nimbus)).
  - destruct Hpw as [Hh4 Hst4].
    destruct (telnet_logged_in r2 _ _ Hh4 Hst4) as [-> ->]. done.
  - destruct Hpw as [Hc Hst]. rewrite telnet_stopped by done.
    by rewrite Hc, Hst.
Qed.

Lemma split_line_app l c r :
  one_line l = true -> is_newline c = true ->
  split_line (l ++ c :: r) = Some (l, r).
Proof.
  intros Hl Hc. induction l as [|x l IH]; cbn.
  { by rewrite Hc. }
  cbn in Hl. apply andb_true_iff in Hl as [Hx Hl].
  apply negb_true_iff in Hx. by rewrite Hx, IH.
Qed.

Lemma split_line_Some cs : forall l r,
  split_line cs = Some (l, r) ->
  exists c, cs = l ++ c :: r /\ one_line l = true /\ is_newline c = true.
Proof.
  induction cs as [|x cs IH]; intros l r H; [done|].
  cbn in H. destruct (is_newline x) eqn:Hx.
  { inversion H; subst. by exists x. }
  destruct (split_line cs) as [[l' r']|]; [|done].
  inversion H; subst. destruct (IH _ _ eq_refl) as (c & -> & Hl & Hc).
  exists c. repeat split; [|done]. cbn. by rewrite Hx.
Qed.

(** X20.  The telnet login as a function of the input.  On a new
    connection, with nobody else writing to the buffer meanwhile, the
    client is logged in (state 3) exactly when the input starts with two
    lines, each ended by a single CR or LF, whose kept characters (those
    of code 32 or more, at most 23 of them) spell the user name and then
    the password; a first line that spells anything else, or a second line
    that does, stops the client; and whatever follows a successful login
    leaves the client logged in and connected. *)
Theorem telnet_login_decided_by_two_lines cs s :
  length (Telnet.gbuf s) = Telnet.BUF_SIZE ->
  let s' := Telnet.telnetAuth cs (Telnet.accept s) in
  (Telnet.telnetState s', Telnet.connected s') = login cs /\
  (Telnet.telnetState s' = 3 <->
   exists l1 c1 l2 c2 rest,
     cs = l1 ++ c1 :: l2 ++ c2 :: rest /\
     one_line l1 = true /\ is_newline c1 = true /\
     one_line l2 = true /\ is_newline c2 = true /\
     kept l1 = Telnet.admin /\ kept l2 = Telnet.nimbus).
Proof.
  intros Hl s'. pose proof (telnetAuth_login cs s Hl) as Hlog.
  fold s' in Hlog. split; [done|].
  assert (Hst : Telnet.telnetState s' = fst (login cs)) by by rewrite <- Hlog.
  rewrite Hst. clear. unfold login. split.
  - destruct (split_line cs) as [[l1 r1]|] eqn:H1; [|done].
    destruct (decide (kept l1 = Telnet.admin)) as [Ha|]; [|done].
    destruct (split_line r1) as [[l2 r2]|] eqn:H2; [|done].
    destruct (decide (kept l2 = Telnet.nimbus)) as [Hn|]; [|done].
    intros _.
    destruct (split_line_Some _ _ _ H1) as (c1 & -> & Hl1 & Hc1).
    destruct (split_line_Some _ _ _ H2) as (c2 & -> & Hl2 & Hc2).
    by exists l1, c1, l2, c2, r2.
  - intros (l1 & c1 & l2 & c2 & rest & -> & Hl1 & Hc1 & Hl2 & Hc2 & Ha & Hn).
    rewrite split_line_app by done. rewrite decide_True by done.
    rewrite split_line_app by done. by rewrite decide_True by done.
Qed.

(** X21.  A client that ends the user name with CR LF cannot log in.  The
    CR completes the user name; the LF that follows completes an empty
    password, which is rejected, and the client is stopped in state 2
    whatever it sends next. *)
Theorem telnet_crlf_login_rejected l1 rest s :
  length (Telnet.gbuf s) = Telnet.BUF_SIZE ->
  one_line l1 = true -> kept l1 = Telnet.admin ->
  let s' := Telnet.telnetAuth (l1 ++ 13 :: 10 :: rest) (Telnet.accept s) in
  Telnet.telnetState s' = 2 /\ Telnet.connected s' = false.
Proof.
  intros Hl Hl1 Ha s'.
  pose proof (telnetAuth_login (l1 ++ 13 :: 10 :: rest) s Hl) as Hlog.
  fold s' in Hlog. unfold login in Hlog.
  rewrite split_line_app in Hlog by done.
  rewrite decide_True in Hlog by done. cbn in Hlog.
  by inversion Hlog.
Qed.

(** ** Task numbers given to the shell *)

Lemma u8_task_id (i : nat) (k : Z) :
  (i < 256)%nat -> Z.to_nat (u8 (Z.of_nat i + 256 * k)) = i.
Proof.
  intros Hi. unfold u8, wrap. change (2 ^ 8) with 256.
  rewrite Z.mul_comm, Z_mod_plus_full, Z.mod_small by lia. lia.
Qed.

Lemma suspended1_after_suspend os i :
  (i < V1.taskCount os)%nat -> (i < 8)%nat ->
  V1.suspended (snd (V1.suspendTask i os)) i = true.
Proof.
  intros Hi H8. unfold V1.suspendTask.
  apply Nat.ltb_lt in Hi. rewrite Hi. cbn [snd].
  assert (Hflags : forall o, V1.suspended o i =
                     Z.testbit (V1.suspendFlags o) (Z.of_nat i)).
  { intros o. unfold V1.suspended. rewrite land_bit_eqb.
    apply negb_involutive. }
  rewrite Hflags.
  match goal with
  | |- context [if ?c then _ else _] => destruct c
  end; cbn; rewrite testbit_set by done;
    rewrite bool_decide_eq_true_2 by done; apply orb_true_r.
Qed.

(** X22.  The compact shell takes the task number of [suspend] and
    [resume] modulo 256: a number that differs from the number of a
    registered task by a multiple of 256 suspends, or resumes, that task.
    The unified shell changes nothing for a number that is negative or
    not below the number of registered tasks. *)
Theorem compact_shell_takes_id_modulo_256 os i k :
  wf1 os -> (i < V1.taskCount os)%nat ->
  (processCommand1_suspend (Z.of_nat i + 256 * k) os =
     snd (V1.suspendTask i os) /\
   V1.suspended (processCommand1_suspend (Z.of_nat i + 256 * k) os) i = true /\
   processCommand1_resume (Z.of_nat i + 256 * k) os =
     snd (V1.resumeTask i os)) /\
  (forall os2 id,
     id < 0 \/ Z.of_nat (V2.n os2) <= id ->
     processCommand2_suspend id os2 = os2 /\
     processCommand2_resume id os2 = os2).
Proof.
  intros [_ Hn] Hi. unfold MAX_TASKS in Hn. split.
  - unfold processCommand1_suspend, processCommand1_resume.
    rewrite u8_task_id by lia.
    split; [done|]. split; [|done].
    apply suspended1_after_suspend; lia.
  - intros os2 id Hid.
    unfold processCommand2_suspend, processCommand2_resume.
    replace ((id >=? 0) && (id <? Z.of_nat (V2.n os2))) with false; [done|].
    symmetry. apply andb_false_iff. rewrite Z.geb_leb, Z.leb_gt, Z.ltb_ge. lia.
Qed.

(** * The further properties at concrete inputs *)

Lemma wf2_three_tasks : wf2 three_tasks.
Proof. table_shape. Defined.

Lemma wf1_three_tasks : wf1 (to_V1 three_tasks).
Proof. split; [reflexivity | unfold MAX_TASKS; cbn; lia]. Defined.

(** Task 1 of the three is suspended; nobody resumes it in two iterations. *)
Lemma suspended_until_resumed_at_three_tasks :
  V2.suspended (snd (V2.suspendTask 1 three_tasks)) 1 = true /\
  Forall (fun d => d <> Some 1%nat)
         (snd (V2.run quiet (snd (V2.suspendTask 1 three_tasks)))) /\
  V2.suspended (fst (V2.run quiet (snd (V2.suspendTask 1 three_tasks)))) 1
    = true.
Proof.
  assert (Hwf : wf2 (snd (V2.suspendTask 1 three_tasks))).
  { apply wf2_suspendTask, wf2_three_tasks. }
  assert (Hs : V2.suspended (snd (V2.suspendTask 1 three_tasks)) 1 = true)
    by reflexivity.
  assert (Hq : Forall (fun it : Z * (nat -> list V2.Call) => forall j,
                forallb (fun c => negb (is_resume 1 c)) (snd it j) = true)
                quiet).
  { apply Forall_cons. split; [intros j; reflexivity|].
    apply Forall_cons. split; [intros j; reflexivity|]. constructor. }
  split; [exact Hs|].
  exact (suspended_until_resumed quiet _ 1%nat Hwf ltac:(lia) Hq Hs).
Defined.

(** A task of period 100 dispatched at 100 is not dispatched at 150 or at
    199. *)
Lemma period_is_minimum_interval_at_one_task :
  V2.selected 100 (one_task 100) = Some 0%nat /\
  Forall (fun d => d <> Some 0%nat)
         (snd (V2.run [(150, fun _ => []); (199, fun _ => [])]
                 (fst (V2.iteration 100 (fun _ => []) (one_task 100))))).
Proof.
  assert (Hwf : wf2 (one_task 100)) by table_shape.
  assert (Hsel : V2.selected 100 (one_task 100) = Some 0%nat) by reflexivity.
  split; [exact Hsel|].
  apply (period_is_minimum_interval (one_task 100) 100 (fun _ => []) 0
           [(150, fun _ => []); (199, fun _ => [])] Hwf Hsel); [lia|].
  apply Forall_cons. split; [cbn; lia|].
  apply Forall_cons. split; [cbn; lia|]. constructor.
Defined.

Lemma top_priority_task_monopolises_at_three_tasks :
  monopolist 0 three_tasks /\
  snd (V2.run [(0, fun _ => [V2.CSend 1 7 [1] 1]); (1, fun _ => [])]
         three_tasks)
    = replicate 2 (Some 0%nat).
Proof.
  assert (Hm : monopolist 0 three_tasks).
  { split; [cbn; lia|]. split; [reflexivity|]. split; [reflexivity|].
    split; [reflexivity|].
    intros j Hj Hne. destruct j as [|[|[|j]]];
      [congruence | vm_compute; reflexivity | vm_compute; reflexivity
      | cbn in Hj; lia]. }
  split; [exact Hm|].
  apply (top_priority_task_monopolises
           [(0, fun _ => [V2.CSend 1 7 [1] 1]); (1, fun _ => [])]
           three_tasks 0%nat wf2_three_tasks Hm).
  apply Forall_cons. split; [reflexivity|].
  apply Forall_cons. split; [reflexivity|]. constructor.
Defined.

Lemma message_round_trip_at_normal_pair :
  V2.pending (V2.message (V2.task normal_pair 1)) = false /\
  let sent := V2.sendMessage 1 7 [11; 12; 13] 3 normal_pair in
  let got := V2.receiveMessage 0 [0; 0; 0; 0] 4 (V2.set_cur 1 (snd sent)) in
  fst sent = 0 /\
  got.1.1.1 = 3 /\ got.1.1.2 = 7 /\
  take (Z.to_nat 3) got.1.2 = take (Z.to_nat 3) [11; 12; 13] /\
  drop (Z.to_nat 3) got.1.2 = drop (Z.to_nat 3) [0; 0; 0; 0] /\
  forall mt' src' sz',
    sz' <= 8 -> fst (V2.sendMessage 1 mt' src' sz' got.2) = 0.
Proof.
  split; [reflexivity|].
  apply (message_round_trip normal_pair 1 7 [11; 12; 13] 3 0 [0; 0; 0; 0] 4
           wf2_normal_pair);
    [cbn; lia | reflexivity | lia | cbn; lia | lia].
Defined.

Lemma messaging_keeps_schedule_at_normal_pair :
  V2.selected 5 (snd (V2.sendMessage 1 7 [11; 12; 13] 3 normal_pair))
    = V2.selected 5 normal_pair /\
  V2.selected 5 (V2.receiveMessage 0 [] 0 one_pending).2
    = V2.selected 5 one_pending.
Proof.
  assert (Hwf : wf2 one_pending) by (vm_compute; table_shape).
  destruct (messaging_keeps_schedule normal_pair 1 7 [11; 12; 13] 3 0 [] 0
              wf2_normal_pair) as [Hsend _].
  destruct (messaging_keeps_schedule one_pending 1 7 [] 0 0 [] 0 Hwf)
    as [Hrecv _].
  split; [exact (proj1 (Hsend 5)) | exact (proj2 (Hrecv 5))].
Defined.

Lemma suspend_resume_round_trip_at_normal_pair :
  V2.state (V2.task normal_pair 0) = V2.T_READY /\
  V2.suspended normal_pair 0 = false /\
  V2.state (V2.task (snd (V2.suspendTask 0 normal_pair)) 0)
    = V2.T_SUSPENDED /\
  V2.resumeTask 0 (snd (V2.suspendTask 0 normal_pair)) = (0, normal_pair).
Proof.
  assert (Hst : V2.state (V2.task normal_pair 0) = V2.T_READY) by reflexivity.
  assert (Hs : V2.suspended normal_pair 0 = false) by reflexivity.
  split; [exact Hst|]. split; [exact Hs|].
  eapply proj2.
  apply (suspend_resume_round_trip normal_pair 0 wf2_normal_pair);
    [cbn; lia | exact Hst | exact Hs | cbn; lia].
Defined.

Lemma suspend_resume_touch_one_task_at_normal_pair :
  V2.task (snd (V2.suspendTask 0 normal_pair)) 1 = V2.task normal_pair 1 /\
  V2.suspended (snd (V2.suspendTask 0 normal_pair)) 1 = false /\
  V2.suspendTask 7 normal_pair = (-1, normal_pair).
Proof.
  destruct (suspend_resume_touch_one_task normal_pair 0 1
              ltac:(lia) ltac:(lia)) as (Ht & Hs & _).
  destruct (suspend_resume_touch_one_task normal_pair 7 1
              ltac:(lia) ltac:(lia)) as (_ & _ & _ & _ & Hout).
  split; [exact Ht|]. split; [exact Hs|].
  apply Hout. cbn. lia.
Defined.

Lemma reachable_kernel_well_formed_after_send :
  wf2 (fst (V2.run [(0, fun _ => [V2.CSend 0 7 [1; 2] 2])]
              (snd (V2.add_all [(0%nat, 0, V2.PRIORITY_NORMAL)] V2.init)))) /\
  boxes_ok (fst (V2.run [(0, fun _ => [V2.CSend 0 7 [1; 2] 2])]
              (snd (V2.add_all [(0%nat, 0, V2.PRIORITY_NORMAL)] V2.init)))).
Proof.
  apply (reachable_kernel_well_formed [(0%nat, 0, V2.PRIORITY_NORMAL)]
           [(0, fun _ => [V2.CSend 0 7 [1; 2] 2])]).
  apply Forall_cons. split; [|constructor].
  intros j. apply Forall_cons. split; [cbn; lia|constructor].
Defined.

Lemma same_device_never_reasserted_twice :
  current spi2 (V2.sel 10 V2.bus_init) = 10 /\
  made spi2 (V2.sel 10 V2.bus_init)
       (bus_run spi2 (transactions 2 10) (V2.sel 10 V2.bus_init))
    = concat (replicate 2 [(4, HIGH); (10, HIGH)]).
Proof.
  assert (Hd : current spi2 (V2.sel 10 V2.bus_init) = 10) by reflexivity.
  split; [exact Hd|].
  destruct (same_device_never_reasserted spi2 2 (V2.sel 10 V2.bus_init) 10
              (or_intror eq_refl) Hd) as (_ & Hmade & _).
  exact Hmade.
Defined.

(** The budget is measured while the clock is below 2^16 and is lost
    above. *)
Lemma compact_budget_lost_after_16_bits_at_three_tasks :
  V1.shouldYield (u32 (100 + 1500))
    (V1.calls [] (started1 100 0 (to_V1 three_tasks))) = false /\
  V1.shouldYield 70001
    (V1.calls [] (started1 70000 0 (to_V1 three_tasks))) = true.
Proof.
  destruct (compact_budget_lost_after_16_bits (to_V1 three_tasks) 100 0 []
              wf1_three_tasks ltac:(cbn; lia)) as [Hlow _].
  destruct (compact_budget_lost_after_16_bits (to_V1 three_tasks) 70000 0 []
              wf1_three_tasks ltac:(cbn; lia)) as [_ Hhigh].
  split.
  - rewrite (Hlow 1500) by lia. reflexivity.
  - apply Hhigh; lia.
Defined.

Lemma compact_never_runs_priority_zero_at_pair :
  V1.priority
    (V1.task (snd (V1.addTask_all [(0%nat, 0, 0, 0%nat);
                                   (1%nat, 0, 1, 1%nat)] V1.init)) 0) = 0 /\
  Forall (fun d => d <> Some 0%nat)
    (snd (V1.run [(0, fun _ => []); (1, fun _ => [])]
            (snd (V1.addTask_all [(0%nat, 0, 0, 0%nat);
                                  (1%nat, 0, 1, 1%nat)] V1.init)))).
Proof.
  split; [reflexivity|].
  apply (compact_never_runs_priority_zero [(0, fun _ => []); (1, fun _ => [])]);
    [split; [reflexivity | unfold MAX_TASKS; cbn; lia]
    | cbn; lia | reflexivity].
Defined.

(** A line typed into a zeroed buffer while a command and other code write
    to it, one of the writes past its end. *)
Lemma shell_index_in_bounds_at_zeroed_buffer :
  (Shell.idx (Shell.shellTask (fun _ _ => [(25%nat, 1%Z); (0%nat, 66%Z)])
                [Shell.Key 65; Shell.Poke 3 7; Shell.Key 10; Shell.Key 67]
                (Shell.mkState (replicate 20 0%Z) 0 []))
     < Shell.BUFFER_SIZE)%nat /\
  length (Shell.globalBuffer
            (Shell.shellTask (fun _ _ => [(25%nat, 1); (0%nat, 66)])
               [Shell.Key 65; Shell.Poke 3 7; Shell.Key 10; Shell.Key 67]
               (Shell.mkState (replicate 20 0) 0 [])))
    = Shell.BUFFER_SIZE.
Proof.
  apply (shell_index_in_bounds (fun _ _ => [(25%nat, 1); (0%nat, 66)])
           [Shell.Key 65; Shell.Poke 3 7; Shell.Key 10; Shell.Key 67]
           (Shell.mkState (replicate 20 0) 0 []));
    [unfold Shell.BUFFER_SIZE; cbn; lia | reflexivity].
Defined.

(** [hi], DEL, newline, [x], newline gives the lines [h] and [x], also
    when the command overwrites the start of the buffer. *)
Lemma shell_is_line_editor_at_two_lines :
  Shell.commands
    (Shell.shellTask (fun _ _ => [(0%nat, 66); (1%nat, 66)])
       (Shell.Key <$> [104; 105; 127; 10; 120; 13])
       (Shell.mkState (replicate 20 0) 0 []))
  = [[104]; [120]].
Proof.
  rewrite (shell_is_line_editor (fun _ _ => [(0%nat, 66); (1%nat, 66)])
             [104; 105; 127; 10; 120; 13]
             (Shell.mkState (replicate 20 0) 0 [])); reflexivity.
Defined.

Lemma telnet_login_accepts_single_newlines :
  (Telnet.telnetState
     (Telnet.telnetAuth (Telnet.admin ++ 13 :: Telnet.nimbus ++ [10; 104])
        (Telnet.accept (Telnet.mkState (replicate 24 0) 0 0 false))),
   Telnet.connected
     (Telnet.telnetAuth (Telnet.admin ++ 13 :: Telnet.nimbus ++ [10; 104])
        (Telnet.accept (Telnet.mkState (replicate 24 0) 0 0 false))))
  = (3, true).
Proof.
  destruct (telnet_login_decided_by_two_lines
              (Telnet.admin ++ 13 :: Telnet.nimbus ++ [10; 104])
              (Telnet.mkState (replicate 24 0) 0 0 false) eq_refl)
    as [Hlogin _].
  rewrite Hlogin. reflexivity.
Defined.

Lemma telnet_crlf_login_rejected_at_admin :
  one_line Telnet.admin = true /\ kept Telnet.admin = Telnet.admin /\
  Telnet.telnetState
    (Telnet.telnetAuth (Telnet.admin ++ 13 :: 10 :: Telnet.nimbus ++ [13; 10])
       (Telnet.accept (Telnet.mkState (replicate 24 0) 0 0 false))) = 2 /\
  Telnet.connected
    (Telnet.telnetAuth (Telnet.admin ++ 13 :: 10 :: Telnet.nimbus ++ [13; 10])
       (Telnet.accept (Telnet.mkState (replicate 24 0) 0 0 false))) = false.
Proof.
  split; [reflexivity|]. split; [reflexivity|].
  apply (telnet_crlf_login_rejected Telnet.admin (Telnet.nimbus ++ [13; 10])
           (Telnet.mkState (replicate 24 0) 0 0 false));
    reflexivity.
Defined.

(** [suspend 256] suspends task 0. *)
Lemma compact_shell_takes_id_modulo_256_at_256 :
  processCommand1_suspend 256 (to_V1 three_tasks)
    = snd (V1.suspendTask 0 (to_V1 three_tasks)) /\
  V1.suspended (processCommand1_suspend 256 (to_V1 three_tasks)) 0 = true /\
  processCommand2_suspend 256 three_tasks = three_tasks.
Proof.
  destruct (compact_shell_takes_id_modulo_256 (to_V1 three_tasks) 0 1
              wf1_three_tasks ltac:(cbn; lia))
    as [(Hsame & Hset & _) Hout].
  split; [exact Hsame|]. split; [exact Hset|].
  apply (Hout three_tasks 256). right. cbn. lia.
Defined.
